(** * qtm.packet: decoding of QTM real-time data packets

    A shallow embedding of [qtm/packet.py].  The Python module decodes one
    already received packet: [QRTPacket.__init__] reads the fixed header and
    walks the component directory, and the [get_*] accessors, all wrapped by
    the [ComponentGetter] decorator, decode one component kind each.

    Conventions of the embedding:
    - a buffer ([bytes]) is a [list byte]; offsets and integer fields are [Z];
    - a [struct] format is the list of its format characters (little-endian,
      unpadded, as the leading "<" of every format string of the module says);
    - a [float] field is kept as the 32-bit pattern it was unpacked from;
    - a [namedtuple] class is a descriptor (type name, field names, format),
      an instance carries its items;
    - Python exceptions are the [Raise] outcomes of [result];
    - the two class attributes that the analog accessors rebind at run time
      ([RTAnalogChannel.format], [RTAnalogDeviceSamples.format]) are the
      module's only mutable state: they form [Globals], threaded by the
      monad [M], and survive a raised exception as they do in Python. *)

From Stdlib Require Import ZArith List Strings.Byte.
From stdpp Require Import base tactics option list gmap strings countable.

Local Open Scope Z_scope.
#[local] Set Warnings "-register-all".

(* ===================================================================== *)
(** ** Outcomes and exceptions *)
(* ===================================================================== *)

Inductive exn : Type :=
| struct_error      (* struct.error *)
| ValueError
| TypeError
| AttributeError.

Inductive result (A : Type) : Type :=
| Ok (a : A)
| Raise (e : exn).
Arguments Ok {A} a.
Arguments Raise {A} e.

#[global] Instance exn_eq_dec : EqDecision exn.
Proof. solve_decision. Defined.

#[global] Instance result_ret : MRet result := @Ok.
#[global] Instance result_bind : MBind result := λ A B k r,
  match r with
  | Ok a => k a
  | Raise e => Raise e
  end.

Definition is_ok {A} (r : result A) : bool :=
  match r with Ok _ => true | Raise _ => false end.

(* ===================================================================== *)
(** ** Buffers *)
(* ===================================================================== *)

Abbreviation bytes := (list byte).

Definition len (data : bytes) : Z := Z.of_nat (length data).

(** Test vectors are written as lists of numbers below 256. *)
Definition octet (n : Z) : byte :=
  default x00 (Byte.of_N (Z.to_N n)).
Definition octets (l : list Z) : bytes := map octet l.

(** [data[start:stop]] for integer [start] and [stop]: a negative index
    counts from the end, and both are clamped to the buffer. *)
Definition slice_index (n i : Z) : Z :=
  if i <? 0 then Z.max (i + n) 0 else Z.min i n.

Definition slice (data : bytes) (start stop : Z) : bytes :=
  let lo := slice_index (len data) start in
  let hi := slice_index (len data) stop in
  take (Z.to_nat (hi - lo)) (drop (Z.to_nat lo) data).

(* ===================================================================== *)
(** ** The [struct] module *)
(* ===================================================================== *)

(** Format characters used by the module. *)
Inductive fchar : Type :=
| fmt_q   (* signed 64-bit *)
| fmt_I   (* unsigned 32-bit *)
| fmt_i   (* signed 32-bit *)
| fmt_h   (* signed 16-bit *)
| fmt_c   (* bytes of length 1 *)
| fmt_f.  (* binary32 *)

Definition Struct := list fchar.

Definition fchar_size (c : fchar) : Z :=
  match c with
  | fmt_q => 8
  | fmt_I | fmt_i | fmt_f => 4
  | fmt_h => 2
  | fmt_c => 1
  end.

Fixpoint calcsize (s : Struct) : Z :=
  match s with
  | [] => 0
  | c :: s' => fchar_size c + calcsize s'
  end.

(** Python values produced by unpacking. *)
Inductive pyval : Type :=
| PyInt (z : Z)
| PyFloat (bits : Z)
| PyBytes (b : bytes)
| PyTuple (items : list pyval).

Fixpoint le_unsigned (bs : bytes) : Z :=
  match bs with
  | [] => 0
  | b :: bs' => Z.of_N (Byte.to_N b) + 256 * le_unsigned bs'
  end.

Definition le_signed (bs : bytes) : Z :=
  let u := le_unsigned bs in
  let w := 8 * len bs in
  if u <? 2 ^ (w - 1) then u else u - 2 ^ w.

Definition unpack_char (c : fchar) (bs : bytes) : pyval :=
  match c with
  | fmt_q | fmt_i | fmt_h => PyInt (le_signed bs)
  | fmt_I => PyInt (le_unsigned bs)
  | fmt_c => PyBytes bs
  | fmt_f => PyFloat (le_unsigned bs)
  end.

(** Unpacking of a buffer that holds at least [calcsize s] bytes. *)
Fixpoint unpack (s : Struct) (bs : bytes) : list pyval :=
  match s with
  | [] => []
  | c :: s' =>
      let n := Z.to_nat (fchar_size c) in
      unpack_char c (take n bs) :: unpack s' (drop n bs)
  end.

(** [Struct.unpack_from(data, offset)]: a negative offset counts from the
    end of the buffer; [struct.error] unless [calcsize s] bytes are
    available at the offset. *)
Definition unpack_from (s : Struct) (data : bytes) (offset : Z)
  : result (list pyval) :=
  let size := calcsize s in
  if offset <? 0 then
    if 0 <? offset + size then Raise struct_error
    else if offset + len data <? 0 then Raise struct_error
    else Ok (unpack s (drop (Z.to_nat (offset + len data)) data))
  else
    if len data - offset <? size then Raise struct_error
    else Ok (unpack s (drop (Z.to_nat offset) data)).

(** [struct.Struct("<%df" % n)]: the minus sign of a negative [n] is not a
    format character. *)
Definition Struct_floats (n : Z) : result Struct :=
  if n <? 0 then Raise struct_error
  else Ok (replicate (Z.to_nat n) fmt_f).

(* ===================================================================== *)
(** ** namedtuple classes and instances *)
(* ===================================================================== *)

(** A class created by [namedtuple(typename, field_names)], with the
    [format] attribute the module attaches to it when it has one. *)
Record namedtuple : Type := Namedtuple {
  typename : string;
  field_names : list string;
  format : option Struct
}.

Record ntuple : Type := Ntuple {
  nt_type : string;
  nt_fields : list string;
  nt_items : list pyval
}.

(** [cls._make(iterable)] *)
Definition _make (cls : namedtuple) (items : list pyval) : result ntuple :=
  if decide (length items = length (field_names cls))
  then Ok (Ntuple (typename cls) (field_names cls) items)
  else Raise TypeError.

(** [cls.format]: AttributeError while the attribute is not bound. *)
Definition get_format (cls : namedtuple) : result Struct :=
  match format cls with
  | Some s => Ok s
  | None => Raise AttributeError
  end.

Fixpoint index_of (name : string) (names : list string) : option nat :=
  match names with
  | [] => None
  | n :: names' =>
      if decide (n = name) then Some O else S <$> index_of name names'
  end.

(** Attribute access [v.name]. *)
Definition getattr (v : ntuple) (name : string) : option pyval :=
  i ← index_of name (nt_fields v); nt_items v !! i.

(** An integer attribute, as [range] and the comparisons of the module
    use it. *)
Definition int_attr (v : ntuple) (name : string) : Z :=
  match getattr v name with
  | Some (PyInt z) => z
  | _ => 0
  end.

(* ===================================================================== *)
(** ** Record layouts of the module *)
(* ===================================================================== *)

Definition static (typename : string) (field_names : list string)
    (fmt : Struct) : namedtuple :=
  Namedtuple typename field_names (Some fmt).

(** Base *)
Definition RTDataQRTPacket : Struct := [fmt_q; fmt_I; fmt_I].
Definition RTComponentData : Struct := [fmt_I; fmt_I].

(** 2D *)
Definition RT2DComponent : namedtuple :=
  static "RT2DComponent" ["camera_count"; "drop_rate"; "out_of_sync_rate"]
         [fmt_I; fmt_h; fmt_h].
Definition RT2DCamera : namedtuple :=
  static "RT2DCamera" ["marker_count"; "status_flag"] [fmt_i; fmt_c].
Definition RT2DMarker : namedtuple :=
  static "RT2DMarker" ["x"; "y"; "d_x"; "d_y"] [fmt_i; fmt_i; fmt_h; fmt_h].

(** 3D *)
Definition RT3DComponent : namedtuple :=
  static "RT3DComponent" ["marker_count"; "drop_rate"; "out_of_sync_rate"]
         [fmt_I; fmt_h; fmt_h].
Definition RT3DMarkerPosition : namedtuple :=
  static "RT3DMarkerPosition" ["x"; "y"; "z"] [fmt_f; fmt_f; fmt_f].
Definition RT3DMarkerPositionResidual : namedtuple :=
  static "RT3DMarkerPositionResidual" ["x"; "y"; "z"; "residual"]
         [fmt_f; fmt_f; fmt_f; fmt_f].
Definition RT3DMarkerPositionNoLabel : namedtuple :=
  static "RT3DMarkerPositionNoLabel" ["x"; "y"; "z"; "id"]
         [fmt_f; fmt_f; fmt_f; fmt_i].
Definition RT3DMarkerPositionNoLabelResidual : namedtuple :=
  static "RT3DMarkerPositionNoLabelResidual" ["x"; "y"; "z"; "id"; "residual"]
         [fmt_f; fmt_f; fmt_f; fmt_i; fmt_f].

(** 6D *)
Definition RT6DComponent : namedtuple :=
  static "RT6DComponent" ["body_count"; "drop_rate"; "out_of_sync_rate"]
         [fmt_i; fmt_h; fmt_h].
Definition RT6DBodyPosition : namedtuple :=
  static "RT6DBodyPosition" ["x"; "y"; "z"] [fmt_f; fmt_f; fmt_f].
Definition RT6DBodyRotation : namedtuple :=
  static "RT6DBodyRotation" ["matrix"] (replicate 9 fmt_f).
Definition RT6DBodyResidual : namedtuple :=
  static "RT6DBodyResidual" ["residual"] [fmt_f].
Definition RT6DBodyEuler : namedtuple :=
  static "RT6DBodyEuler" ["a1"; "a2"; "a3"] [fmt_f; fmt_f; fmt_f].

(** Analog *)
Definition RTAnalogComponent : namedtuple :=
  static "RTAnalogComponent" ["device_count"] [fmt_i].
Definition RTAnalogDevice : namedtuple :=
  static "RTAnalogDevice" ["id"; "channel_count"; "sample_count"]
         [fmt_i; fmt_i; fmt_i].
Definition RTSampleNumber : namedtuple :=
  static "RTSampleNumber" ["sample_number"] [fmt_i].
Definition RTAnalogDeviceSingle : namedtuple :=
  static "RTAnalogDeviceSingle" ["id"; "channel_count"] [fmt_i; fmt_i].

(** Force *)
Definition RTForceComponent : namedtuple :=
  static "RTForceComponent" ["plate_count"] [fmt_i].
Definition RTForcePlate : namedtuple :=
  static "RTForcePlate" ["id"; "force_count"; "force_number"]
         [fmt_i; fmt_i; fmt_i].
Definition RTForcePlateSingle : namedtuple :=
  static "RTForcePlateSingle" ["id"] [fmt_i].
Definition RTForce : namedtuple :=
  static "RTForce"
         ["x"; "y"; "z"; "x_m"; "y_m"; "z_m"; "x_a"; "y_a"; "z_a"]
         (replicate 9 fmt_f).

(** Image *)
Definition RTImageComponent : namedtuple :=
  static "RTImageComponent" ["image_count"] [fmt_i].
Definition RTImage : namedtuple :=
  static "RTImage"
         ["id"; "format"; "width"; "height"; "left_crop"; "top_crop";
          "right_crop"; "bottom_crop"; "image_size"]
         [fmt_i; fmt_i; fmt_i; fmt_i; fmt_f; fmt_f; fmt_f; fmt_f; fmt_i].

(** Skeleton *)
Definition RTSkeletonComponent : namedtuple :=
  static "RTSkeletonComponent" ["skeleton_count"] [fmt_i].
Definition RTJointCount : namedtuple :=
  static "RTJointCount" ["joint_count"] [fmt_i].
Definition RTJointId : namedtuple :=
  static "RTJointId" ["id"] [fmt_i].
Definition RTJointPosition : namedtuple :=
  static "RTJointPosition" ["x"; "y"; "z"] [fmt_f; fmt_f; fmt_f].
Definition RTJointRotation : namedtuple :=
  static "RTJointRotation" ["x"; "y"; "z"; "w"] [fmt_f; fmt_f; fmt_f; fmt_f].

(** The module's mutable state: the [format] attribute of the two classes
    that are created with a [format_str] only. *)
Record Globals : Type := MkGlobals {
  RTAnalogChannel_format : option Struct;
  RTAnalogDeviceSamples_format : option Struct
}.

(** State of a freshly imported module: neither attribute is bound. *)
Definition fresh : Globals := MkGlobals None None.

Definition RTAnalogChannel (g : Globals) : namedtuple :=
  Namedtuple "RTAnalogChannel" ["samples"] (RTAnalogChannel_format g).
Definition RTAnalogDeviceSamples (g : Globals) : namedtuple :=
  Namedtuple "RTAnalogDeviceSamples" ["samples"]
             (RTAnalogDeviceSamples_format g).

(** QTM component types *)
Inductive QRTComponentType : Type :=
| Component3d
| Component3dNoLabels
| ComponentAnalog
| ComponentForce
| Component6d
| Component6dEuler
| Component2d
| Component2dLin
| Component3dRes
| Component3dNoLabelsRes
| Component6dRes
| Component6dEulerRes
| ComponentAnalogSingle
| ComponentImage
| ComponentForceSingle
| ComponentGazeVector
| ComponentTimecode
| ComponentSkeleton.

Definition QRTComponentType_value (t : QRTComponentType) : Z :=
  match t with
  | Component3d => 1
  | Component3dNoLabels => 2
  | ComponentAnalog => 3
  | ComponentForce => 4
  | Component6d => 5
  | Component6dEuler => 6
  | Component2d => 7
  | Component2dLin => 8
  | Component3dRes => 9
  | Component3dNoLabelsRes => 10
  | Component6dRes => 11
  | Component6dEulerRes => 12
  | ComponentAnalogSingle => 13
  | ComponentImage => 14
  | ComponentForceSingle => 15
  | ComponentGazeVector => 16
  | ComponentTimecode => 17
  | ComponentSkeleton => 18
  end.

Definition QRTComponentType_members : list QRTComponentType :=
  [Component3d; Component3dNoLabels; ComponentAnalog; ComponentForce;
   Component6d; Component6dEuler; Component2d; Component2dLin;
   Component3dRes; Component3dNoLabelsRes; Component6dRes;
   Component6dEulerRes; ComponentAnalogSingle; ComponentImage;
   ComponentForceSingle; ComponentGazeVector; ComponentTimecode;
   ComponentSkeleton].

(** [QRTComponentType(value)]: ValueError for a value that is no member. *)
Definition QRTComponentType_of (value : Z) : result QRTComponentType :=
  match find (λ t, bool_decide (QRTComponentType_value t = value))
             QRTComponentType_members with
  | Some t => Ok t
  | None => Raise ValueError
  end.

#[global] Instance QRTComponentType_eq_dec : EqDecision QRTComponentType.
Proof. solve_decision. Defined.

#[global] Program Instance QRTComponentType_countable
  : Countable QRTComponentType :=
  inj_countable' (λ t, Z.to_pos (QRTComponentType_value t))
    (λ p, match QRTComponentType_of (Z.pos p) with
          | Ok t => t
          | Raise _ => Component3d
          end) _.
Next Obligation. by intros []. Qed.

(* ===================================================================== *)
(** ** The monad of Python code: module state and exceptions *)
(* ===================================================================== *)

Definition M (A : Type) : Type := Globals → Globals * result A.

#[global] Instance M_ret : MRet M := λ A a g, (g, Ok a).
#[global] Instance M_bind : MBind M := λ A B k m g,
  match m g with
  | (g', Ok a) => k a g'
  | (g', Raise e) => (g', Raise e)
  end.

(** A computation that does not touch the module state. *)
Definition lift {A} (r : result A) : M A := λ g, (g, r).

Definition get_globals : M Globals := λ g, (g, Ok g).

(** [RTAnalogChannel.format = s] *)
Definition set_RTAnalogChannel_format (s : Struct) : M unit := λ g,
  (MkGlobals (Some s) (RTAnalogDeviceSamples_format g), Ok tt).

(** [RTAnalogDeviceSamples.format = s] *)
Definition set_RTAnalogDeviceSamples_format (s : Struct) : M unit := λ g,
  (MkGlobals (RTAnalogChannel_format g) (Some s), Ok tt).

(** [range(n)] has no element for a negative [n]. *)
Definition range (n : Z) : nat := Z.to_nat n.

(** [for i in range(n): locals = body i locals], counting [i] from [i0]. *)
Fixpoint for_range {S : Type} (n : nat) (i0 : Z) (body : Z → S → M S)
    (locals : S) : M S :=
  match n with
  | O => mret locals
  | S n' => locals' ← body i0 locals; for_range n' (i0 + 1) body locals'
  end.

(* ===================================================================== *)
(** ** QRTPacket *)
(* ===================================================================== *)

Record QRTPacket : Type := MkQRTPacket {
  data : bytes;
  timestamp : Z;
  framenumber : Z;
  components : gmap QRTComponentType Z
}.

(** One turn of the directory loop of [__init__]; the locals are
    [position] and [self.components]. *)
Definition scan_component (data : bytes)
    (locals : Z * gmap QRTComponentType Z) : M (Z * gmap QRTComponentType Z) :=
  let '(position, components) := locals in
  entry ← lift (unpack_from RTComponentData data position);
  match entry with
  | [PyInt c_size; PyInt c_type] =>
      key ← lift (QRTComponentType_of c_type);
      mret (position + c_size,
            <[key := position + calcsize RTComponentData]> components)
  | _ => lift (Raise ValueError)
  end.

Definition scan_components (data : bytes) (component_count : Z)
  : M (Z * gmap QRTComponentType Z) :=
  for_range (range component_count) 0 (λ _, scan_component data)
            (calcsize RTDataQRTPacket, ∅).

(** [QRTPacket.__init__] *)
Definition QRTPacket_init (data : bytes) : M QRTPacket :=
  header ← lift (unpack_from RTDataQRTPacket data 0);
  match header with
  | [PyInt timestamp; PyInt framenumber; PyInt component_count] =>
      '(_, components) ← scan_components data component_count;
      mret (MkQRTPacket data timestamp framenumber components)
  | _ => lift (Raise ValueError)
  end.

(** A function body that ends in [return components]. *)
Definition returning_components {A : Type} (loop : M (Z * A)) : M A :=
  '(_, components) ← loop; mret components.

(** The size of a class's bound format, [cls.format.size]. *)
Definition format_size (cls : namedtuple) : Z :=
  match format cls with
  | Some s => calcsize s
  | None => 0
  end.

(** [QRTPacket._get_exact] *)
Definition _get_exact (component_type : namedtuple) (data : bytes)
    (position : Z) : result (Z * ntuple) :=
  fmt ← get_format component_type;
  items ← unpack_from fmt data position;
  value ← _make component_type items;
  Ok (position + calcsize fmt, value).

(** [QRTPacket._get_tuple]: the unpacked items become one tuple-valued
    field. *)
Definition _get_tuple (component_type : namedtuple) (data : bytes)
    (position : Z) : result (Z * ntuple) :=
  fmt ← get_format component_type;
  items ← unpack_from fmt data position;
  value ← _make component_type [PyTuple items];
  Ok (position + calcsize fmt, value).

(** [index is None or index == camera] *)
Definition index_selects (index : option Z) (camera : Z) : bool :=
  match index with
  | None => true
  | Some i => bool_decide (i = camera)
  end.

(** One turn of the marker loop of [QRTPacket._get_2d_markers]; the
    locals are [component_position] and [marker_list]. *)
Definition _get_2d_marker (data : bytes) (locals : Z * list ntuple)
  : M (Z * list ntuple) :=
  let '(component_position, marker_list) := locals in
  '(component_position, marker) ←
    lift (_get_exact RT2DMarker data component_position);
  mret (component_position, marker_list ++ [marker]).

(** One turn of the camera loop; the locals are [component_position] and
    [components].  The marker list is appended to [components] before it
    is filled; both are the same list object when the function returns. *)
Definition _get_2d_camera (data : bytes) (index : option Z) (camera : Z)
    (locals : Z * list (list ntuple)) : M (Z * list (list ntuple)) :=
  let '(component_position, components) := locals in
  '(component_position, camera_info) ←
    lift (_get_exact RT2DCamera data component_position);
  if index_selects index camera then
    '(component_position, marker_list) ←
      for_range (range (int_attr camera_info "marker_count")) 0
        (λ _, _get_2d_marker data) (component_position, []);
    mret (component_position, components ++ [marker_list])
  else
    mret (component_position
          + format_size RT2DMarker * int_attr camera_info "marker_count",
          components).

(** The camera loop of [QRTPacket._get_2d_markers], with its final locals
    [(component_position, components)]. *)
Definition _get_2d_markers_loop (data : bytes) (component_info : ntuple)
    (component_position : Z) (index : option Z)
  : M (Z * list (list ntuple)) :=
  for_range (range (int_attr component_info "camera_count")) 0
    (_get_2d_camera data index) (component_position, []).

Definition _get_2d_markers (data : bytes) (component_info : ntuple)
    (component_position : Z) (index : option Z) : M (list (list ntuple)) :=
  returning_components
    (_get_2d_markers_loop data component_info component_position index).

(** The loop of [QRTPacket._get_3d_markers] with its final locals. *)
Definition _get_3d_markers_loop (type_ : namedtuple) (component_info : ntuple)
    (data : bytes) (component_position : Z) : M (Z * list ntuple) :=
  for_range (range (int_attr component_info "marker_count")) 0
    (λ _ '(component_position, components),
       '(component_position, position) ←
         lift (_get_exact type_ data component_position);
       mret (component_position, components ++ [position]))
    (component_position, []).

Definition _get_3d_markers (type_ : namedtuple) (component_info : ntuple)
    (data : bytes) (component_position : Z) : M (list ntuple) :=
  returning_components
    (_get_3d_markers_loop type_ component_info data component_position).

(* ===================================================================== *)
(** ** The ComponentGetter decorator and the accessors *)
(* ===================================================================== *)

(** [ComponentGetter(component_enum, base_component)(function)]: the
    wrapper looks the kind up in the directory of the calling packet,
    reads the component's own header there and passes it, the buffer and
    the offset behind the header to [function]. *)
Definition ComponentGetter {A : Type} (component_enum : QRTComponentType)
    (base_component : namedtuple) (function : ntuple → bytes → Z → M A)
    (calling_object : QRTPacket) : M (option (ntuple * A)) :=
  match components calling_object !! component_enum with
  | None => mret None
  | Some component_position =>
      '(component_position, component_info) ←
        lift (_get_exact base_component (data calling_object)
                         component_position);
      payload ← function component_info (data calling_object)
                         component_position;
      mret (Some (component_info, payload))
  end.

(** *** Analog *)

(** One turn of the channel loop of [get_analog]; [_get_tuple] finds the
    format of [RTAnalogChannel] as the module state has it. *)
Definition get_analog_channel (data : bytes) (device sample_number : ntuple)
    (locals : Z * list (ntuple * ntuple * ntuple))
  : M (Z * list (ntuple * ntuple * ntuple)) :=
  let '(component_position, components) := locals in
  g ← get_globals;
  '(component_position, channel) ←
    lift (_get_tuple (RTAnalogChannel g) data component_position);
  mret (component_position, components ++ [(device, sample_number, channel)]).

(** One turn of the device loop of [get_analog]. *)
Definition get_analog_device (data : bytes)
    (locals : Z * list (ntuple * ntuple * ntuple))
  : M (Z * list (ntuple * ntuple * ntuple)) :=
  let '(component_position, components) := locals in
  '(component_position, device) ←
    lift (_get_exact RTAnalogDevice data component_position);
  if 0 <? int_attr device "sample_count" then
    '(component_position, sample_number) ←
      lift (_get_exact RTSampleNumber data component_position);
    fmt ← lift (Struct_floats (int_attr device "sample_count"));
    set_RTAnalogChannel_format fmt;;
    for_range (range (int_attr device "channel_count")) 0
      (λ _, get_analog_channel data device sample_number)
      (component_position, components)
  else mret (component_position, components).

(** The device loop of [get_analog] with its final locals. *)
Definition get_analog_loop (component_info : ntuple) (data : bytes)
    (component_position : Z) : M (Z * list (ntuple * ntuple * ntuple)) :=
  for_range (range (int_attr component_info "device_count")) 0
    (λ _, get_analog_device data) (component_position, []).

(** [@ComponentGetter(QRTComponentType.ComponentAnalog, RTAnalogComponent)]
    [def get_analog(self, component_info, data, component_position)] *)
Definition get_analog : QRTPacket → M (option (ntuple * _)) :=
  ComponentGetter ComponentAnalog RTAnalogComponent
    (λ component_info data component_position,
       returning_components
         (get_analog_loop component_info data component_position)).

(** One turn of the device loop of [get_analog_single]. *)
Definition get_analog_single_device (data : bytes)
    (locals : Z * list (ntuple * ntuple)) : M (Z * list (ntuple * ntuple)) :=
  let '(component_position, components) := locals in
  '(component_position, device) ←
    lift (_get_exact RTAnalogDeviceSingle data component_position);
  fmt ← lift (Struct_floats (int_attr device "channel_count"));
  set_RTAnalogDeviceSamples_format fmt;;
  g ← get_globals;
  '(component_position, sample) ←
    lift (_get_tuple (RTAnalogDeviceSamples g) data component_position);
  mret (component_position, components ++ [(device, sample)]).

Definition get_analog_single_loop (component_info : ntuple) (data : bytes)
    (component_position : Z) : M (Z * list (ntuple * ntuple)) :=
  for_range (range (int_attr component_info "device_count")) 0
    (λ _, get_analog_single_device data) (component_position, []).

Definition get_analog_single : QRTPacket → M (option (ntuple * _)) :=
  ComponentGetter ComponentAnalogSingle RTAnalogComponent
    (λ component_info data component_position,
       returning_components
         (get_analog_single_loop component_info data component_position)).

(** *** Force *)

Definition get_force_loop (component_info : ntuple) (data : bytes)
    (component_position : Z) : M (Z * list (ntuple * list ntuple)) :=
  for_range (range (int_attr component_info "plate_count")) 0
    (λ _ '(component_position, components),
       '(component_position, plate) ←
         lift (_get_exact RTForcePlate data component_position);
       '(component_position, force_list) ←
         for_range (range (int_attr plate "force_count")) 0
           (λ _ '(component_position, force_list),
              '(component_position, force) ←
                lift (_get_exact RTForce data component_position);
              mret (component_position, force_list ++ [force]))
           (component_position, []);
       mret (component_position, components ++ [(plate, force_list)]))
    (component_position, []).

Definition get_force : QRTPacket → M (option (ntuple * _)) :=
  ComponentGetter ComponentForce RTForceComponent
    (λ component_info data component_position,
       returning_components
         (get_force_loop component_info data component_position)).

Definition get_force_single_loop (component_info : ntuple) (data : bytes)
    (component_position : Z) : M (Z * list (ntuple * ntuple)) :=
  for_range (range (int_attr component_info "plate_count")) 0
    (λ _ '(component_position, components),
       '(component_position, plate) ←
         lift (_get_exact RTForcePlateSingle data component_position);
       '(component_position, force) ←
         lift (_get_exact RTForce data component_position);
       mret (component_position, components ++ [(plate, force)]))
    (component_position, []).

Definition get_force_single : QRTPacket → M (option (ntuple * _)) :=
  ComponentGetter ComponentForceSingle RTForceComponent
    (λ component_info data component_position,
       returning_components
         (get_force_single_loop component_info data component_position)).

(** *** 6D *)

Definition get_6d_loop (component_info : ntuple) (data : bytes)
    (component_position : Z) : M (Z * list (ntuple * ntuple)) :=
  for_range (range (int_attr component_info "body_count")) 0
    (λ _ '(component_position, components),
       '(component_position, position) ←
         lift (_get_exact RT6DBodyPosition data component_position);
       '(component_position, matrix) ←
         lift (_get_tuple RT6DBodyRotation data component_position);
       mret (component_position, components ++ [(position, matrix)]))
    (component_position, []).

Definition get_6d : QRTPacket → M (option (ntuple * _)) :=
  ComponentGetter Component6d RT6DComponent
    (λ component_info data component_position,
       returning_components
         (get_6d_loop component_info data component_position)).

Definition get_6d_residual_loop (component_info : ntuple) (data : bytes)
    (component_position : Z) : M (Z * list (ntuple * ntuple * ntuple)) :=
  for_range (range (int_attr component_info "body_count")) 0
    (λ _ '(component_position, components),
       '(component_position, position) ←
         lift (_get_exact RT6DBodyPosition data component_position);
       '(component_position, matrix) ←
         lift (_get_tuple RT6DBodyRotation data component_position);
       '(component_position, residual) ←
         lift (_get_exact RT6DBodyResidual data component_position);
       mret (component_position,
             components ++ [(position, matrix, residual)]))
    (component_position, []).

Definition get_6d_residual : QRTPacket → M (option (ntuple * _)) :=
  ComponentGetter Component6dRes RT6DComponent
    (λ component_info data component_position,
       returning_components
         (get_6d_residual_loop component_info data component_position)).

Definition get_6d_euler_loop (component_info : ntuple) (data : bytes)
    (component_position : Z) : M (Z * list (ntuple * ntuple)) :=
  for_range (range (int_attr component_info "body_count")) 0
    (λ _ '(component_position, components),
       '(component_position, position) ←
         lift (_get_exact RT6DBodyPosition data component_position);
       '(component_position, euler) ←
         lift (_get_exact RT6DBodyEuler data component_position);
       mret (component_position, components ++ [(position, euler)]))
    (component_position, []).

Definition get_6d_euler : QRTPacket → M (option (ntuple * _)) :=
  ComponentGetter Component6dEuler RT6DComponent
    (λ component_info data component_position,
       returning_components
         (get_6d_euler_loop component_info data component_position)).

Definition get_6d_euler_residual_loop (component_info : ntuple)
    (data : bytes) (component_position : Z)
  : M (Z * list (ntuple * ntuple * ntuple)) :=
  for_range (range (int_attr component_info "body_count")) 0
    (λ _ '(component_position, components),
       '(component_position, position) ←
         lift (_get_exact RT6DBodyPosition data component_position);
       '(component_position, euler) ←
         lift (_get_exact RT6DBodyEuler data component_position);
       '(component_position, residual) ←
         lift (_get_exact RT6DBodyResidual data component_position);
       mret (component_position,
             components ++ [(position, euler, residual)]))
    (component_position, []).

Definition get_6d_euler_residual : QRTPacket → M (option (ntuple * _)) :=
  ComponentGetter Component6dEulerRes RT6DComponent
    (λ component_info data component_position,
       returning_components
         (get_6d_euler_residual_loop component_info data component_position)).

(** *** Image *)

Definition get_image_loop (component_info : ntuple) (data : bytes)
    (component_position : Z) : M (Z * list (ntuple * bytes)) :=
  for_range (range (int_attr component_info "image_count")) 0
    (λ _ '(component_position, components),
       '(component_position, image_info) ←
         lift (_get_exact RTImage data component_position);
       mret (component_position,
             components ++ [(image_info, slice data component_position (-1))]))
    (component_position, []).

Definition get_image : QRTPacket → M (option (ntuple * _)) :=
  ComponentGetter ComponentImage RTImageComponent
    (λ component_info data component_position,
       returning_components
         (get_image_loop component_info data component_position)).

(** *** 3D *)

Definition get_3d_markers : QRTPacket → M (option (ntuple * _)) :=
  ComponentGetter Component3d RT3DComponent
    (_get_3d_markers RT3DMarkerPosition).

Definition get_3d_markers_residual : QRTPacket → M (option (ntuple * _)) :=
  ComponentGetter Component3dRes RT3DComponent
    (_get_3d_markers RT3DMarkerPositionResidual).

Definition get_3d_markers_no_label : QRTPacket → M (option (ntuple * _)) :=
  ComponentGetter Component3dNoLabels RT3DComponent
    (_get_3d_markers RT3DMarkerPositionNoLabel).

Definition get_3d_markers_no_label_residual
  : QRTPacket → M (option (ntuple * _)) :=
  ComponentGetter Component3dNoLabelsRes RT3DComponent
    (_get_3d_markers RT3DMarkerPositionNoLabelResidual).

(** *** 2D *)

Definition get_2d_markers (index : option Z)
  : QRTPacket → M (option (ntuple * _)) :=
  ComponentGetter Component2d RT2DComponent
    (λ component_info data component_position,
       _get_2d_markers data component_info component_position index).

Definition get_2d_markers_linearized (index : option Z)
  : QRTPacket → M (option (ntuple * _)) :=
  ComponentGetter Component2dLin RT2DComponent
    (λ component_info data component_position,
       _get_2d_markers data component_info component_position index).

(** *** Skeleton *)

Definition get_skeletons_loop (component_info : ntuple) (data : bytes)
    (component_position : Z) : M (Z * list (list (Z * ntuple * ntuple))) :=
  for_range (range (int_attr component_info "skeleton_count")) 0
    (λ _ '(component_position, components),
       '(component_position, info) ←
         lift (_get_exact RTJointCount data component_position);
       '(component_position, joints) ←
         for_range (range (int_attr info "joint_count")) 0
           (λ _ '(component_position, joints),
              '(component_position, joint) ←
                lift (_get_exact RTJointId data component_position);
              '(component_position, position) ←
                lift (_get_exact RTJointPosition data component_position);
              '(component_position, rotation) ←
                lift (_get_exact RTJointRotation data component_position);
              mret (component_position,
                    joints ++ [(int_attr joint "id", position, rotation)]))
           (component_position, []);
       mret (component_position, components ++ [joints]))
    (component_position, []).

Definition get_skeletons : QRTPacket → M (option (ntuple * _)) :=
  ComponentGetter ComponentSkeleton RTSkeletonComponent
    (λ component_info data component_position,
       returning_components
         (get_skeletons_loop component_info data component_position)).

(* ===================================================================== *)
(** ** The accessors as one family *)
(* ===================================================================== *)

(** The sixteen decorated methods of [QRTPacket]; the two 2D accessors take
    the optional [index] argument. *)
Inductive accessor : Type :=
| acc_analog
| acc_analog_single
| acc_force
| acc_force_single
| acc_6d
| acc_6d_residual
| acc_6d_euler
| acc_6d_euler_residual
| acc_image
| acc_3d_markers
| acc_3d_markers_residual
| acc_3d_markers_no_label
| acc_3d_markers_no_label_residual
| acc_2d_markers (index : option Z)
| acc_2d_markers_linearized (index : option Z)
| acc_skeletons.

(** The type of the payload collection of each accessor. *)
Definition payload (a : accessor) : Type :=
  match a with
  | acc_analog => list (ntuple * ntuple * ntuple)
  | acc_analog_single => list (ntuple * ntuple)
  | acc_force => list (ntuple * list ntuple)
  | acc_force_single => list (ntuple * ntuple)
  | acc_6d => list (ntuple * ntuple)
  | acc_6d_residual => list (ntuple * ntuple * ntuple)
  | acc_6d_euler => list (ntuple * ntuple)
  | acc_6d_euler_residual => list (ntuple * ntuple * ntuple)
  | acc_image => list (ntuple * bytes)
  | acc_3d_markers | acc_3d_markers_residual | acc_3d_markers_no_label
  | acc_3d_markers_no_label_residual => list ntuple
  | acc_2d_markers _ | acc_2d_markers_linearized _ => list (list ntuple)
  | acc_skeletons => list (list (Z * ntuple * ntuple))
  end.

(** Calling the accessor on a packet. *)
Definition call (a : accessor)
  : QRTPacket → M (option (ntuple * payload a)) :=
  match a with
  | acc_analog => get_analog
  | acc_analog_single => get_analog_single
  | acc_force => get_force
  | acc_force_single => get_force_single
  | acc_6d => get_6d
  | acc_6d_residual => get_6d_residual
  | acc_6d_euler => get_6d_euler
  | acc_6d_euler_residual => get_6d_euler_residual
  | acc_image => get_image
  | acc_3d_markers => get_3d_markers
  | acc_3d_markers_residual => get_3d_markers_residual
  | acc_3d_markers_no_label => get_3d_markers_no_label
  | acc_3d_markers_no_label_residual => get_3d_markers_no_label_residual
  | acc_2d_markers index => get_2d_markers index
  | acc_2d_markers_linearized index => get_2d_markers_linearized index
  | acc_skeletons => get_skeletons
  end.

(** The kind each accessor is registered for, by its decorator. *)
Definition kind_of (a : accessor) : QRTComponentType :=
  match a with
  | acc_analog => ComponentAnalog
  | acc_analog_single => ComponentAnalogSingle
  | acc_force => ComponentForce
  | acc_force_single => ComponentForceSingle
  | acc_6d => Component6d
  | acc_6d_residual => Component6dRes
  | acc_6d_euler => Component6dEuler
  | acc_6d_euler_residual => Component6dEulerRes
  | acc_image => ComponentImage
  | acc_3d_markers => Component3d
  | acc_3d_markers_residual => Component3dRes
  | acc_3d_markers_no_label => Component3dNoLabels
  | acc_3d_markers_no_label_residual => Component3dNoLabelsRes
  | acc_2d_markers _ => Component2d
  | acc_2d_markers_linearized _ => Component2dLin
  | acc_skeletons => ComponentSkeleton
  end.

(** The record of the component's own header. *)
Definition header_of (a : accessor) : namedtuple :=
  match a with
  | acc_analog | acc_analog_single => RTAnalogComponent
  | acc_force | acc_force_single => RTForceComponent
  | acc_6d | acc_6d_residual | acc_6d_euler | acc_6d_euler_residual =>
      RT6DComponent
  | acc_image => RTImageComponent
  | acc_3d_markers | acc_3d_markers_residual | acc_3d_markers_no_label
  | acc_3d_markers_no_label_residual => RT3DComponent
  | acc_2d_markers _ | acc_2d_markers_linearized _ => RT2DComponent
  | acc_skeletons => RTSkeletonComponent
  end.

(** The decoding loop of each accessor, from the offset behind the
    component's header, with the final offset next to the collection. *)
Definition decode_loop (a : accessor) (component_info : ntuple)
    (data : bytes) (component_position : Z) : M (Z * payload a) :=
  match a with
  | acc_analog => get_analog_loop component_info data component_position
  | acc_analog_single =>
      get_analog_single_loop component_info data component_position
  | acc_force => get_force_loop component_info data component_position
  | acc_force_single =>
      get_force_single_loop component_info data component_position
  | acc_6d => get_6d_loop component_info data component_position
  | acc_6d_residual =>
      get_6d_residual_loop component_info data component_position
  | acc_6d_euler => get_6d_euler_loop component_info data component_position
  | acc_6d_euler_residual =>
      get_6d_euler_residual_loop component_info data component_position
  | acc_image => get_image_loop component_info data component_position
  | acc_3d_markers =>
      _get_3d_markers_loop RT3DMarkerPosition component_info data
                           component_position
  | acc_3d_markers_residual =>
      _get_3d_markers_loop RT3DMarkerPositionResidual component_info data
                           component_position
  | acc_3d_markers_no_label =>
      _get_3d_markers_loop RT3DMarkerPositionNoLabel component_info data
                           component_position
  | acc_3d_markers_no_label_residual =>
      _get_3d_markers_loop RT3DMarkerPositionNoLabelResidual component_info
                           data component_position
  | acc_2d_markers index | acc_2d_markers_linearized index =>
      _get_2d_markers_loop data component_info component_position index
  | acc_skeletons => get_skeletons_loop component_info data component_position
  end.

(* ===================================================================== *)
(** ** Notions used by the statements *)
(* ===================================================================== *)

(** How the outcome [cut] of a decoding step on the first [n] bytes of a
    buffer relates to its outcome [full] on the whole buffer, for a step
    started at the offset [pos]: the cut run ends like the full one or
    raises [struct.error], and it does raise when the full run moved the
    offset beyond [n]. *)
Definition cut_rel {A : Type} (n pos : Z)
    (full cut : Globals * result (Z * A)) : Prop :=
  0 ≤ pos →
  (cut = full ∨ cut.2 = Raise struct_error) ∧
  (∀ g p a, full = (g, Ok (p, a)) →
     pos ≤ p ∧ (pos < p → n < p → cut.2 = Raise struct_error)).

(** The accessors whose decoding moves the offset by reading only:
    [get_image] takes its payload by slicing and never moves past it, and
    a camera filter moves past the other cameras by arithmetic. *)
Definition reads_to_end (a : accessor) : bool :=
  match a with
  | acc_image => false
  | acc_2d_markers (Some _) | acc_2d_markers_linearized (Some _) => false
  | _ => true
  end.

(** A directory entry as the header construction meets it: where it
    starts, the size it declares and its kind. *)
Record entry : Type := Entry {
  entry_offset : Z;
  entry_size : Z;
  entry_kind : QRTComponentType
}.

(** [entries] are the directory entries of the buffer found from the
    offset [pos] on, each one where the declared size of the one before
    ends. *)
Fixpoint directory_at (data : bytes) (pos : Z) (entries : list entry)
  : Prop :=
  match entries with
  | [] => True
  | e :: entries' =>
      entry_offset e = pos
      ∧ unpack_from RTComponentData data pos =
          Ok [PyInt (entry_size e);
              PyInt (QRTComponentType_value (entry_kind e))]
      ∧ directory_at data (pos + entry_size e) entries'
  end.

Fixpoint total_size (entries : list entry) : Z :=
  match entries with
  | [] => 0
  | e :: entries' => entry_size e + total_size entries'
  end.

(** The payload offset of the last entry of the given kind. *)
Fixpoint last_payload_offset (kind : QRTComponentType) (entries : list entry)
  : option Z :=
  match entries with
  | [] => None
  | e :: entries' =>
      match last_payload_offset kind entries' with
      | Some offset => Some offset
      | None =>
          if decide (entry_kind e = kind) then Some (entry_offset e + 8)
          else None
      end
  end.

(** The marker counts of the [n] cameras laid out from [pos] on, every
    camera record followed by its markers; [None] when a camera record
    cannot be read. *)
Fixpoint camera_marker_counts (data : bytes) (n : nat) (pos : Z)
  : option (list Z) :=
  match n with
  | O => Some []
  | S n' =>
      match _get_exact RT2DCamera data pos with
      | Ok (pos', camera_info) =>
          let count := int_attr camera_info "marker_count" in
          counts ← camera_marker_counts data n'
                     (pos' + format_size RT2DMarker * count);
          Some (count :: counts)
      | Raise _ => None
      end
  end.

(** What the decoding of one analog device yields: the device record, the
    sample-number record when there is one, and the channels. *)
Record device_reading : Type := Reading {
  rd_device : ntuple;
  rd_sample_number : option ntuple;
  rd_channels : list ntuple
}.

(** One triple per channel, all with the same device and sample-number
    records. *)
Definition reading_triples (r : device_reading)
  : list (ntuple * ntuple * ntuple) :=
  match rd_sample_number r with
  | Some sample_number =>
      map (λ channel, (rd_device r, sample_number, channel)) (rd_channels r)
  | None => []
  end.

(** The flat collection: device order, then channel order. *)
Definition analog_collection (readings : list device_reading)
  : list (ntuple * ntuple * ntuple) :=
  concat (map reading_triples readings).

(** The class [RTAnalogChannel] once its format is bound for
    [sample_count] samples. *)
Definition analog_channel_class (sample_count : Z) : namedtuple :=
  RTAnalogChannel
    (MkGlobals (Some (replicate (Z.to_nat sample_count) fmt_f)) None).

(** [channels] are consecutive channel arrays of [sample_count] floats
    from the offset [pos] on. *)
Fixpoint channels_at (data : bytes) (sample_count : Z) (pos : Z)
    (channels : list ntuple) : Prop :=
  match channels with
  | [] => True
  | channel :: channels' =>
      _get_tuple (analog_channel_class sample_count) data pos =
        Ok (pos + 4 * sample_count, channel)
      ∧ channels_at data sample_count (pos + 4 * sample_count) channels'
  end.

(** [readings] are consecutive analog devices from the offset [pos] to
    the offset [final]: a 12-byte device record, then, if its sample count is
    positive, a 4-byte sample-number record and [channel_count] channel
    arrays. *)
Fixpoint analog_at (data : bytes) (pos : Z) (readings : list device_reading)
    (final : Z) : Prop :=
  match readings with
  | [] => final = pos
  | r :: readings' =>
      let sample_count := int_attr (rd_device r) "sample_count" in
      let channel_count := int_attr (rd_device r) "channel_count" in
      _get_exact RTAnalogDevice data pos = Ok (pos + 12, rd_device r)
      ∧ if 0 <? sample_count then
          match rd_sample_number r with
          | Some sample_number =>
              _get_exact RTSampleNumber data (pos + 12) =
                Ok (pos + 16, sample_number)
              ∧ length (rd_channels r) = range channel_count
              ∧ channels_at data sample_count (pos + 16) (rd_channels r)
              ∧ analog_at data
                  (pos + 16
                   + Z.of_nat (length (rd_channels r)) * (4 * sample_count))
                  readings' final
          | None => False
          end
        else
          rd_sample_number r = None ∧ rd_channels r = []
          ∧ analog_at data (pos + 12) readings' final
  end.

(** What an accessor call gave: the value it returned or the exception it
    raised. *)
Definition outcome : Type :=
  {a : accessor & result (option (ntuple * payload a))}.

(** A sequence of accessor calls on one packet object, started in the
    module state [g].  The caller catches what a call raises and goes on;
    the module state stays as each call left it. *)
Fixpoint call_all (pkt : QRTPacket) (accessors : list accessor) (g : Globals)
  : Globals * list outcome :=
  match accessors with
  | [] => (g, [])
  | a :: accessors' =>
      let '(g1, r) := call a pkt g in
      let '(g2, outcomes) := call_all pkt accessors' g1 in
      (g2, existT a r :: outcomes)
  end.

(** Decoding a buffer: constructing the packet object and calling the
    accessors on it. *)
Definition decode (data : bytes) (accessors : list accessor) (g : Globals)
  : Globals * result (QRTPacket * list outcome) :=
  match QRTPacket_init data g with
  | (g1, Ok pkt) =>
      let '(g2, outcomes) := call_all pkt accessors g1 in
      (g2, Ok (pkt, outcomes))
  | (g1, Raise e) => (g1, Raise e)
  end.

(** A computation whose result is the same in any two module states
    related by [R], and which leaves them related by [R]. *)
Definition agree {A : Type} (R : Globals → Globals → Prop) (m : M A) : Prop :=
  ∀ g1 g2, R g1 g2 → (m g1).2 = (m g2).2 ∧ R (m g1).1 (m g2).1.

Definition any_states (g1 g2 : Globals) : Prop := True.

Definition same_channel_format (g1 g2 : Globals) : Prop :=
  RTAnalogChannel_format g1 = RTAnalogChannel_format g2.

(* ===================================================================== *)
(** ** Sample buffers *)
(* ===================================================================== *)

(** Packet header: timestamp 0, frame number 7 and the component count. *)
Definition sample_header (component_count : Z) : list Z :=
  [0; 0; 0; 0; 0; 0; 0; 0;  7; 0; 0; 0;  component_count; 0; 0; 0].

(** Two directory entries of the same kind (3D), each of 16 bytes: the
    entry and a component header with no marker. *)
Definition packet_two_3d : bytes :=
  octets (sample_header 2
          ++ [16; 0; 0; 0;  1; 0; 0; 0;   0; 0; 0; 0;  0; 0;  0; 0]
          ++ [16; 0; 0; 0;  1; 0; 0; 0;   0; 0; 0; 0;  0; 0;  0; 0]).

(** One 3D entry that declares 28 bytes (one marker) in a buffer that ends
    behind the component header, 12 bytes early. *)
Definition packet_short_3d : bytes :=
  octets (sample_header 1
          ++ [28; 0; 0; 0;  1; 0; 0; 0;   1; 0; 0; 0;  0; 0;  0; 0]).

(** A component count of 2 with one entry only. *)
Definition packet_missing_entry : bytes :=
  octets (sample_header 2
          ++ [16; 0; 0; 0;  1; 0; 0; 0;   0; 0; 0; 0;  0; 0;  0; 0]).

(** One 3D component with one marker (1.0, 2.0, 3.0); 44 bytes. *)
Definition packet_3d : bytes :=
  octets (sample_header 1
          ++ [28; 0; 0; 0;  1; 0; 0; 0]
          ++ [1; 0; 0; 0;  0; 0;  0; 0]
          ++ [0; 0; 128; 63;  0; 0; 0; 64;  0; 0; 64; 64]).

(** An [RTImage] record of 2 by 1 pixels without crop. *)
Definition image_header_bytes (id image_size : Z) : list Z :=
  [id; 0; 0; 0;  0; 0; 0; 0;  2; 0; 0; 0;  1; 0; 0; 0;
   0; 0; 0; 0;  0; 0; 0; 0;  0; 0; 0; 0;  0; 0; 0; 0;
   image_size; 0; 0; 0].

(** One image component with one image that declares [image_size = 2]
    and carries the two payload bytes 170 and 187; 66 bytes, the sum of the
    16-byte header and of the 50 bytes the entry declares.  The component
    header is at offset 24, the image record at 28, the payload at 64. *)
Definition packet_image : bytes :=
  octets (sample_header 1
          ++ [50; 0; 0; 0;  14; 0; 0; 0]
          ++ [1; 0; 0; 0]
          ++ image_header_bytes 1 2 ++ [170; 187]).

(** One image component with two images: the first as in [packet_image],
    the second of one byte, 204; 103 bytes.  The second image record is at
    offset 66. *)
Definition packet_two_images : bytes :=
  octets (sample_header 1
          ++ [87; 0; 0; 0;  14; 0; 0; 0]
          ++ [2; 0; 0; 0]
          ++ image_header_bytes 1 2 ++ [170; 187]
          ++ image_header_bytes 2 1 ++ [204]).

Definition sample_image_component (image_count : Z) : ntuple :=
  Ntuple "RTImageComponent" ["image_count"] [PyInt image_count].

Definition sample_image_packet (data : bytes) : QRTPacket :=
  MkQRTPacket data 0 7 {[ ComponentImage := 24 ]}.

(** The [RTImage] record of [packet_image]. *)
Definition sample_image_info : ntuple :=
  Ntuple "RTImage"
    ["id"; "format"; "width"; "height"; "left_crop"; "top_crop";
     "right_crop"; "bottom_crop"; "image_size"]
    [PyInt 1; PyInt 0; PyInt 2; PyInt 1; PyFloat 0; PyFloat 0; PyFloat 0;
     PyFloat 0; PyInt 2].

(** A 2D marker with x, y = [x], [x + 1] and diameters 1 and 2. *)
Definition sample_marker_bytes (x : Z) : list Z :=
  [x; 0; 0; 0;  x + 1; 0; 0; 0;  1; 0;  2; 0].

Definition sample_marker (x : Z) : ntuple :=
  Ntuple "RT2DMarker" ["x"; "y"; "d_x"; "d_y"]
         [PyInt x; PyInt (x + 1); PyInt 1; PyInt 2].

(** One 2D component with three cameras of 2, 0 and 1 markers; the status
    flag of the third camera is [flag].  83 bytes: the component header is
    at offset 24, the cameras are at 32, 61 and 66. *)
Definition packet_2d (flag : Z) : bytes :=
  octets (sample_header 1
          ++ [67; 0; 0; 0;  7; 0; 0; 0]
          ++ [3; 0; 0; 0;  0; 0;  0; 0]
          ++ [2; 0; 0; 0;  1] ++ sample_marker_bytes 10
                              ++ sample_marker_bytes 20
          ++ [0; 0; 0; 0;  1]
          ++ [1; 0; 0; 0;  flag] ++ sample_marker_bytes 30).

Definition sample_2d_info (camera_count : Z) : ntuple :=
  Ntuple "RT2DComponent" ["camera_count"; "drop_rate"; "out_of_sync_rate"]
         [PyInt camera_count; PyInt 0; PyInt 0].

(** One 2D component with one camera whose marker count is -1; 37 bytes. *)
Definition packet_2d_negative : bytes :=
  octets (sample_header 1
          ++ [21; 0; 0; 0;  7; 0; 0; 0]
          ++ [1; 0; 0; 0;  0; 0;  0; 0]
          ++ [255; 255; 255; 255;  0]).

(** One 2D component with one camera that reports one marker, in a buffer
    that ends behind the camera record; 37 bytes. *)
Definition packet_2d_short : bytes :=
  octets (sample_header 1
          ++ [33; 0; 0; 0;  7; 0; 0; 0]
          ++ [1; 0; 0; 0;  0; 0;  0; 0]
          ++ [1; 0; 0; 0;  0]).

(** A camera record of the given marker count and status flag. *)
Definition sample_camera (marker_count flag : Z) : ntuple :=
  Ntuple "RT2DCamera" ["marker_count"; "status_flag"]
         [PyInt marker_count; PyBytes [octet flag]].

(** The packet object built from [packet_2d flag]. *)
Definition sample_2d_packet (flag : Z) : QRTPacket :=
  MkQRTPacket (packet_2d flag) 0 7 {[ Component2d := 24 ]}.

(** One analog component with three devices; 80 bytes, the component
    header at offset 24.  Device 1 (offset 28): 2 channels of 1 sample,
    sample number 5, samples 1.0 and 2.0.  Device 2 (offset 52): no
    channel, 3 samples, sample number 6.  Device 3 (offset 68): 4
    channels, no sample. *)
Definition packet_analog : bytes :=
  octets (sample_header 1
          ++ [64; 0; 0; 0;  3; 0; 0; 0]
          ++ [3; 0; 0; 0]
          ++ [1; 0; 0; 0;  2; 0; 0; 0;  1; 0; 0; 0]
          ++ [5; 0; 0; 0] ++ [0; 0; 128; 63] ++ [0; 0; 0; 64]
          ++ [2; 0; 0; 0;  0; 0; 0; 0;  3; 0; 0; 0]
          ++ [6; 0; 0; 0]
          ++ [3; 0; 0; 0;  4; 0; 0; 0;  0; 0; 0; 0]).

Definition sample_device (id channel_count sample_count : Z) : ntuple :=
  Ntuple "RTAnalogDevice" ["id"; "channel_count"; "sample_count"]
         [PyInt id; PyInt channel_count; PyInt sample_count].

Definition sample_number_record (n : Z) : ntuple :=
  Ntuple "RTSampleNumber" ["sample_number"] [PyInt n].

Definition sample_channel (samples : list Z) : ntuple :=
  Ntuple "RTAnalogChannel" ["samples"] [PyTuple (map PyFloat samples)].

Definition sample_readings : list device_reading :=
  [Reading (sample_device 1 2 1) (Some (sample_number_record 5))
           [sample_channel [1065353216]; sample_channel [1073741824]];
   Reading (sample_device 2 0 3) (Some (sample_number_record 6)) [];
   Reading (sample_device 3 4 0) None []].

(** One timecode component with a payload of 4 bytes; 28 bytes.  No
    accessor is registered for this kind. *)
Definition packet_timecode : bytes :=
  octets (sample_header 1
          ++ [12; 0; 0; 0;  17; 0; 0; 0]
          ++ [1; 2; 3; 4]).

(* ===================================================================== *)
(** ** Notions and sample buffers for the further properties *)
(* ===================================================================== *)

(** GazeVector: the two record classes that no accessor unpacks. *)
Definition RTGazeVectorComponent : namedtuple :=
  static "RTGazeVectorComponent" ["vector_count"] [fmt_i].
Definition RTGazeVector : namedtuple :=
  static "RTGazeVector" ["sample_count"] [fmt_i].

(** The record classes of the module whose [format] is bound where the
    class is created, in the order of the module: all but
    [RTAnalogChannel] and [RTAnalogDeviceSamples]. *)
Definition record_classes : list namedtuple :=
  [RT2DComponent; RT2DCamera; RT2DMarker; RT3DComponent; RT3DMarkerPosition;
   RT3DMarkerPositionResidual; RT3DMarkerPositionNoLabel;
   RT3DMarkerPositionNoLabelResidual; RT6DComponent; RT6DBodyPosition;
   RT6DBodyRotation; RT6DBodyResidual; RT6DBodyEuler; RTAnalogComponent;
   RTAnalogDevice; RTSampleNumber; RTAnalogDeviceSingle; RTForceComponent;
   RTForcePlate; RTForcePlateSingle; RTForce; RTGazeVectorComponent;
   RTGazeVector; RTImageComponent; RTSkeletonComponent; RTJointCount;
   RTJointId; RTJointPosition; RTJointRotation; RTImage].

(** A class with a bound format that unpacks as many items as the class
    has fields. *)
Definition matches_fields (cls : namedtuple) : bool :=
  match format cls with
  | Some s => bool_decide (length s = length (field_names cls))
  | None => false
  end.

(** The field of the component header that bounds the accessor's loop. *)
Definition count_field (a : accessor) : string :=
  match a with
  | acc_analog | acc_analog_single => "device_count"
  | acc_force | acc_force_single => "plate_count"
  | acc_6d | acc_6d_residual | acc_6d_euler | acc_6d_euler_residual =>
      "body_count"
  | acc_image => "image_count"
  | acc_3d_markers | acc_3d_markers_residual | acc_3d_markers_no_label
  | acc_3d_markers_no_label_residual => "marker_count"
  | acc_2d_markers _ | acc_2d_markers_linearized _ => "camera_count"
  | acc_skeletons => "skeleton_count"
  end.

(** The collection without element. *)
Definition no_element (a : accessor) : payload a :=
  match a with
  | acc_analog => []
  | acc_analog_single => []
  | acc_force => []
  | acc_force_single => []
  | acc_6d => []
  | acc_6d_residual => []
  | acc_6d_euler => []
  | acc_6d_euler_residual => []
  | acc_image => []
  | acc_3d_markers => []
  | acc_3d_markers_residual => []
  | acc_3d_markers_no_label => []
  | acc_3d_markers_no_label_residual => []
  | acc_2d_markers _ => []
  | acc_2d_markers_linearized _ => []
  | acc_skeletons => []
  end.

(** The number of elements of a collection. *)
Definition element_count (a : accessor) : payload a → nat :=
  match a with
  | acc_analog => length
  | acc_analog_single => length
  | acc_force => length
  | acc_force_single => length
  | acc_6d => length
  | acc_6d_residual => length
  | acc_6d_euler => length
  | acc_6d_euler_residual => length
  | acc_image => length
  | acc_3d_markers => length
  | acc_3d_markers_residual => length
  | acc_3d_markers_no_label => length
  | acc_3d_markers_no_label_residual => length
  | acc_2d_markers _ => length
  | acc_2d_markers_linearized _ => length
  | acc_skeletons => length
  end.

(** The bytes that the accessors with elements of a fixed size read per
    element: the sizes of the formats that their loop body unpacks. *)
Definition stride (a : accessor) : option Z :=
  match a with
  | acc_3d_markers => Some (format_size RT3DMarkerPosition)
  | acc_3d_markers_residual => Some (format_size RT3DMarkerPositionResidual)
  | acc_3d_markers_no_label => Some (format_size RT3DMarkerPositionNoLabel)
  | acc_3d_markers_no_label_residual =>
      Some (format_size RT3DMarkerPositionNoLabelResidual)
  | acc_6d =>
      Some (format_size RT6DBodyPosition + format_size RT6DBodyRotation)
  | acc_6d_residual =>
      Some (format_size RT6DBodyPosition + format_size RT6DBodyRotation
            + format_size RT6DBodyResidual)
  | acc_6d_euler =>
      Some (format_size RT6DBodyPosition + format_size RT6DBodyEuler)
  | acc_6d_euler_residual =>
      Some (format_size RT6DBodyPosition + format_size RT6DBodyEuler
            + format_size RT6DBodyResidual)
  | acc_force_single =>
      Some (format_size RTForcePlateSingle + format_size RTForce)
  | acc_image => Some (format_size RTImage)
  | _ => None
  end.

(** A decoding step that, started at [pos] in a buffer of [L] bytes,
    returns with the offset [pos + k] and a value that satisfies [Q] when
    the buffer holds [k] more bytes, raises [struct.error] when it does
    not, and leaves the module state alone. *)
Definition reads {A : Type} (L k pos : Z) (Q : A → Prop) (m : M (Z * A))
  : Prop :=
  ∀ g,
    (pos + k ≤ L → ∃ x, m g = (g, Ok (pos + k, x)) ∧ Q x)
    ∧ (L < pos + k → m g = (g, Raise struct_error)).

Definition sample_3d_info (marker_count : Z) : ntuple :=
  Ntuple "RT3DComponent" ["marker_count"; "drop_rate"; "out_of_sync_rate"]
         [PyInt marker_count; PyInt 0; PyInt 0].

(** The marker (1.0, 2.0, 3.0) of [packet_3d], as bit patterns. *)
Definition sample_3d_marker : ntuple :=
  Ntuple "RT3DMarkerPosition" ["x"; "y"; "z"]
         [PyFloat 1065353216; PyFloat 1073741824; PyFloat 1077936128].

Definition sample_3d_packet (data : bytes) : QRTPacket :=
  MkQRTPacket data 0 7 {[ Component3d := 24 ]}.

Definition packet_unknown_kind : bytes :=
  octets (sample_header 1
          ++ [12; 0; 0; 0;  99; 0; 0; 0]
          ++ [1; 2; 3; 4]).


(** A computation that leaves the module state related to the one it
    started in. *)
Definition keeps {A : Type} (R : Globals → Globals → Prop) (m : M A) : Prop :=
  ∀ g, R g (m g).1.

Definition same_samples_format (g g' : Globals) : Prop :=
  RTAnalogDeviceSamples_format g' = RTAnalogDeviceSamples_format g.

Definition same_channel_format_after (g g' : Globals) : Prop :=
  RTAnalogChannel_format g' = RTAnalogChannel_format g.

(** The bytes taken by the elements of a collection, for the given size of
    an element. *)
Definition bytes_of {A : Type} (size : A → Z) (elements : list A) : Z :=
  foldr (λ x total, size x + total) 0 elements.

(** What the camera filter keeps of the views of all cameras. *)
Definition selected_view (views : list (list ntuple)) (index : Z)
  : list (list ntuple) :=
  if decide (0 ≤ index) then option_list (views !! Z.to_nat index) else [].

(** One force component with two plates: the first with one force record
    (all zero), the second with none; 88 bytes. *)
Definition packet_force : bytes :=
  octets (sample_header 1
          ++ [72; 0; 0; 0;  4; 0; 0; 0]
          ++ [2; 0; 0; 0]
          ++ [1; 0; 0; 0;  1; 0; 0; 0;  9; 0; 0; 0] ++ replicate 36%nat 0
          ++ [2; 0; 0; 0;  0; 0; 0; 0;  0; 0; 0; 0]).

(** One skeleton component with one skeleton of one joint, id 5, at the
    origin; 64 bytes. *)
Definition packet_skeleton : bytes :=
  octets (sample_header 1
          ++ [48; 0; 0; 0;  18; 0; 0; 0]
          ++ [1; 0; 0; 0]
          ++ [1; 0; 0; 0]
          ++ [5; 0; 0; 0] ++ replicate 12%nat 0 ++ replicate 16%nat 0).

(** One single-sample analog component with one device of two channels,
    samples 1.0 and 2.0; 44 bytes. *)
Definition packet_analog_single : bytes :=
  octets (sample_header 1
          ++ [28; 0; 0; 0;  13; 0; 0; 0]
          ++ [1; 0; 0; 0]
          ++ [1; 0; 0; 0;  2; 0; 0; 0]
          ++ [0; 0; 128; 63;  0; 0; 0; 64]).

(** The same with a channel count of -1. *)
Definition packet_analog_single_negative : bytes :=
  octets (sample_header 1
          ++ [28; 0; 0; 0;  13; 0; 0; 0]
          ++ [1; 0; 0; 0]
          ++ [1; 0; 0; 0;  255; 255; 255; 255]
          ++ [0; 0; 128; 63;  0; 0; 0; 64]).

Definition count_record (typename field : string) (n : Z) : ntuple :=
  Ntuple typename [field] [PyInt n].

(** One 6D component with one body at the origin whose rotation matrix is
    all zero; 80 bytes. *)
Definition packet_6d : bytes :=
  octets (sample_header 1
          ++ [64; 0; 0; 0;  5; 0; 0; 0]
          ++ [1; 0; 0; 0;  0; 0;  0; 0]
          ++ replicate 12%nat 0 ++ replicate 36%nat 0).

(** ** Notions for the dispatch of the accessors *)

(** What the collection of an accessor holds for the header record
    [info]: one element per unit of the header's count, where a negative
    count stands for 0.  A 2D decoding filtered by a camera index holds
    the marker list of that camera alone, when the component has such a
    camera; the multi-sample analog decoding holds the channels of its
    [device_count] devices, read between [pos] and [final]. *)
Definition announced (a : accessor) (info : ntuple) (data : bytes)
    (pos final : Z) : payload a → Prop :=
  let count := range (int_attr info (count_field a)) in
  match a with
  | acc_analog =>
      λ collection,
        ∃ readings,
          length readings = count
          ∧ analog_at data pos readings final
          ∧ collection = analog_collection readings
  | acc_analog_single => λ collection, length collection = count
  | acc_force => λ collection, length collection = count
  | acc_force_single => λ collection, length collection = count
  | acc_6d => λ collection, length collection = count
  | acc_6d_residual => λ collection, length collection = count
  | acc_6d_euler => λ collection, length collection = count
  | acc_6d_euler_residual => λ collection, length collection = count
  | acc_image => λ collection, length collection = count
  | acc_3d_markers => λ collection, length collection = count
  | acc_3d_markers_residual => λ collection, length collection = count
  | acc_3d_markers_no_label => λ collection, length collection = count
  | acc_3d_markers_no_label_residual =>
      λ collection, length collection = count
  | acc_2d_markers None | acc_2d_markers_linearized None =>
      λ collection, length collection = count
  | acc_2d_markers (Some index) | acc_2d_markers_linearized (Some index) =>
      λ collection,
        length collection =
          if decide (0 ≤ index < Z.of_nat count) then 1%nat else 0%nat
  | acc_skeletons => λ collection, length collection = count
  end.

(** The packet object that header construction makes of
    [packet_timecode]. *)
Definition sample_timecode_packet : QRTPacket :=
  MkQRTPacket packet_timecode 0 7 {[ ComponentTimecode := 24 ]}.

(* ===================================================================== *)
(** * Properties *)
(* ===================================================================== *)

(** ** The monad *)

Lemma bind_unfold {A B : Type} (m : M A) (k : A → M B) (g : Globals) :
  (m ≫= k) g =
  match m g with
  | (g', Ok a) => k a g'
  | (g', Raise e) => (g', Raise e)
  end.
Proof. reflexivity. Qed.

Lemma bind_lift {A B : Type} (r : result A) (k : A → M B) (g : Globals) :
  (lift r ≫= k) g =
  match r with
  | Ok a => k a g
  | Raise e => (g, Raise e)
  end.
Proof. by destruct r. Qed.

Lemma for_range_S {S : Type} (n : nat) (i0 : Z) (body : Z → S → M S)
    (locals : S) (g : Globals) :
  for_range (Datatypes.S n) i0 body locals g =
  match body i0 locals g with
  | (g', Ok locals') => for_range n (i0 + 1) body locals' g'
  | (g', Raise e) => (g', Raise e)
  end.
Proof. reflexivity. Qed.

(** ** Unpacking *)

Lemma fchar_size_pos (c : fchar) : 0 < fchar_size c.
Proof. by destruct c. Qed.

Lemma calcsize_nonneg (s : Struct) : 0 ≤ calcsize s.
Proof.
  induction s as [|c s IH]; simpl; [lia|].
  pose proof (fchar_size_pos c). lia.
Qed.

Lemma calcsize_replicate (n : nat) (c : fchar) :
  calcsize (replicate n c) = Z.of_nat n * fchar_size c.
Proof. induction n as [|n IH]; simpl replicate; simpl calcsize; lia. Qed.

(** Unpacking looks at the first [calcsize s] bytes only. *)
Lemma unpack_take (s : Struct) : ∀ (n : nat) (bs : bytes),
  calcsize s ≤ Z.of_nat n → unpack s (take n bs) = unpack s bs.
Proof.
  induction s as [|c s IH]; intros n bs Hn; simpl in *; [done|].
  pose proof (fchar_size_pos c). pose proof (calcsize_nonneg s).
  f_equal.
  - rewrite take_take. f_equal. f_equal. lia.
  - rewrite <-(IH (n - Z.to_nat (fchar_size c))%nat (drop _ bs)) by lia.
    by rewrite skipn_firstn_comm.
Qed.

Lemma unpack_app (s : Struct) (bs rest : bytes) :
  calcsize s ≤ len bs → unpack s (bs ++ rest) = unpack s bs.
Proof.
  intros Hs. unfold len in Hs.
  rewrite <-(unpack_take s (length bs) (bs ++ rest)) by lia.
  by rewrite take_app_length.
Qed.

(** Reading inside a prefix of the buffer gives what the whole buffer
    gives; a read that crosses the end of the prefix raises. *)
Lemma unpack_from_prefix (s : Struct) (front rest : bytes) (pos : Z) :
  0 ≤ pos → pos + calcsize s ≤ len front →
  unpack_from s front pos = unpack_from s (front ++ rest) pos.
Proof.
  intros Hpos Hfit. unfold unpack_from, len in *.
  rewrite length_app, Nat2Z.inj_add.
  pose proof (calcsize_nonneg s).
  destruct (Z.ltb_spec pos 0); [lia|].
  destruct (Z.ltb_spec (Z.of_nat (length front) - pos) (calcsize s)); [lia|].
  destruct (Z.ltb_spec
    (Z.of_nat (length front) + Z.of_nat (length rest) - pos) (calcsize s));
    [lia|].
  f_equal. rewrite drop_app_le by lia.
  rewrite unpack_app; [done|]. unfold len. rewrite length_drop. lia.
Qed.

Lemma unpack_from_short (s : Struct) (data : bytes) (pos : Z) :
  0 ≤ pos → len data < pos + calcsize s →
  unpack_from s data pos = Raise struct_error.
Proof.
  intros Hpos Hshort. unfold unpack_from.
  destruct (Z.ltb_spec pos 0); [lia|].
  destruct (Z.ltb_spec (len data - pos) (calcsize s)); [done|lia].
Qed.

(** ** [_get_exact] and [_get_tuple] *)

Lemma _get_exact_position (cls : namedtuple) (data : bytes) (pos p : Z)
    (v : ntuple) :
  _get_exact cls data pos = Ok (p, v) → p = pos + format_size cls.
Proof.
  unfold _get_exact, format_size, get_format.
  destruct (format cls) as [s|]; simpl; [|done].
  destruct (unpack_from s data pos) as [items|]; simpl; [|done].
  destruct (_make cls items); simpl; [|done]. by intros [= <- _].
Qed.

Lemma _get_tuple_position (cls : namedtuple) (data : bytes) (pos p : Z)
    (v : ntuple) :
  _get_tuple cls data pos = Ok (p, v) → p = pos + format_size cls.
Proof.
  unfold _get_tuple, format_size, get_format.
  destruct (format cls) as [s|]; simpl; [|done].
  destruct (unpack_from s data pos) as [items|]; simpl; [|done].
  destruct (_make cls _); simpl; [|done]. by intros [= <- _].
Qed.

(** ** Decoding a cut buffer *)

Section cut.
Context (front rest : bytes).

(** A read of [calcsize s] bytes at [pos]: inside the front part it gives
    what the whole buffer gives, across its end it raises. *)
Ltac cut_rel_read cls pos :=
  let s := fresh "s" in
  destruct (format cls) as [s|]; simpl; [|by split; [left|]];
  pose proof (calcsize_nonneg s);
  destruct (decide (pos + calcsize s ≤ len front));
    [rewrite (unpack_from_prefix s front rest pos) by done;
     split; [by left|]
    |rewrite (unpack_from_short s front pos) by lia; simpl;
     split; [by right|]];
    intros ? ? ?;
    (destruct (unpack_from s (front ++ rest) pos); simpl; [|done]);
    (destruct (_make cls _); simpl; [|done]);
    intros [= _ <- _]; (lia || (split; [lia|done])).

Lemma cut_rel_get_exact (cls : namedtuple) (pos : Z) (g : Globals) :
  cut_rel (len front) pos
    (lift (_get_exact cls (front ++ rest) pos) g)
    (lift (_get_exact cls front pos) g).
Proof.
  intros Hpos. unfold lift, _get_exact, get_format.
  cut_rel_read cls pos.
Qed.

Lemma cut_rel_get_tuple (cls : namedtuple) (pos : Z) (g : Globals) :
  cut_rel (len front) pos
    (lift (_get_tuple cls (front ++ rest) pos) g)
    (lift (_get_tuple cls front pos) g).
Proof.
  intros Hpos. unfold lift, _get_tuple, get_format.
  cut_rel_read cls pos.
Qed.

Lemma cut_rel_ret {A : Type} (pos : Z) (a : A) (g : Globals) :
  cut_rel (len front) pos ((mret (pos, a) : M _) g) ((mret (pos, a) : M _) g).
Proof.
  intros Hpos. split; [by left|].
  intros g' p a' [= _ <- _]. lia.
Qed.

Lemma cut_rel_bind {A B : Type} (pos : Z) (m m' : M (Z * A))
    (k k' : Z * A → M (Z * B)) (g : Globals) :
  cut_rel (len front) pos (m g) (m' g) →
  (∀ g1 p1 a, m g = (g1, Ok (p1, a)) →
     cut_rel (len front) p1 (k (p1, a) g1) (k' (p1, a) g1)) →
  cut_rel (len front) pos ((m ≫= k) g) ((m' ≫= k') g).
Proof.
  intros Hm Hk Hpos. rewrite !bind_unfold.
  destruct (Hm Hpos) as [Hmono Htight].
  destruct (m g) as [g1 [[p1 a]|e]] eqn:Hfull.
  - destruct (Htight g1 p1 a eq_refl) as [Hle Hraise].
    destruct (Hk g1 p1 a eq_refl ltac:(lia)) as [Hkmono Hktight].
    destruct Hmono as [Hsame|Hcut].
    + rewrite Hsame in *. split; [done|]. intros g2 p2 b Hk2.
      destruct (Hktight g2 p2 b Hk2) as [Hle2 Hraise2].
      split; [lia|]. intros Hlt Hn.
      destruct (decide (p1 < p2)); [by apply Hraise2|].
      assert (p2 = p1) as -> by lia.
      specialize (Hraise Hlt Hn). simpl in Hraise. done.
    + destruct (m' g) as [g1' r']. simpl in Hcut. subst r'.
      split; [by right|]. intros g2 p2 b Hk2.
      destruct (Hktight g2 p2 b Hk2) as [Hle2 _]. split; [lia|done].
  - destruct Hmono as [Hsame|Hcut]; [rewrite Hsame; by split; [left|]|].
    destruct (m' g) as [g1' r']. simpl in Hcut. subst r'.
    by split; [right|].
Qed.

(** A step that does not look at the buffer. *)
Lemma cut_rel_bind_same {A B : Type} (pos : Z) (m : M A)
    (k k' : A → M (Z * B)) (g : Globals) :
  (∀ g1 a, m g = (g1, Ok a) →
     cut_rel (len front) pos (k a g1) (k' a g1)) →
  cut_rel (len front) pos ((m ≫= k) g) ((m ≫= k') g).
Proof.
  intros Hk Hpos. rewrite !bind_unfold.
  destruct (m g) as [g1 [a|e]]; [|by split; [left|]].
  by apply Hk.
Qed.

Lemma cut_rel_for_range {A : Type} (body body' : Z → Z * A → M (Z * A))
    (n : nat) :
  (∀ i pos acc g,
     cut_rel (len front) pos (body i (pos, acc) g) (body' i (pos, acc) g)) →
  ∀ i0 pos acc g,
    cut_rel (len front) pos
      (for_range n i0 body (pos, acc) g) (for_range n i0 body' (pos, acc) g).
Proof.
  intros Hbody. induction n as [|n IH]; intros i0 pos acc g.
  - apply cut_rel_ret.
  - simpl for_range. apply cut_rel_bind; [apply Hbody|].
    intros g1 p1 a _. apply IH.
Qed.
End cut.

Ltac cut_rel_step :=
  first
    [ apply cut_rel_ret
    | apply cut_rel_get_exact
    | apply cut_rel_get_tuple
    | apply cut_rel_for_range; intros ? ? ? ?
    | apply cut_rel_bind; [ | intros ? ? ? _ ]
    | apply cut_rel_bind_same; intros ? ? _
    | progress cbn beta iota
    | match goal with
      | |- context [if ?c then _ else _] => destruct c
      end ].

(** The accessors whose decoding reaches its final offset by reading:
    [get_image] slices instead, and a camera filter skips by arithmetic. *)
Lemma cut_rel_decode_loop (a : accessor) (info : ntuple)
    (front rest : bytes) (pos : Z) (g : Globals) :
  reads_to_end a = true →
  cut_rel (len front) pos
    (decode_loop a info (front ++ rest) pos g)
    (decode_loop a info front pos g).
Proof.
  intros Ha.
  destruct a as [| | | | | | | | | | | | |[i|]|[i|]|]; try discriminate Ha;
    unfold decode_loop, get_analog_loop, get_analog_single_loop,
      get_force_loop, get_force_single_loop, get_6d_loop,
      get_6d_residual_loop, get_6d_euler_loop, get_6d_euler_residual_loop,
      _get_3d_markers_loop, _get_2d_markers_loop, get_skeletons_loop,
      get_analog_device, get_analog_single_device, get_analog_channel,
      _get_2d_camera, _get_2d_marker, index_selects;
    repeat cut_rel_step.
Qed.

(** ** Header construction *)

Lemma le_unsigned_nonneg (bs : bytes) : 0 ≤ le_unsigned bs.
Proof.
  induction bs as [|b bs IH]; simpl; [lia|].
  pose proof (N2Z.is_nonneg (Byte.to_N b)). lia.
Qed.

Lemma QRTComponentType_of_value (kind : QRTComponentType) :
  QRTComponentType_of (QRTComponentType_value kind) = Ok kind.
Proof. by destruct kind. Qed.

Lemma unpack_RTComponentData (bs : bytes) :
  ∃ c_size c_type, unpack RTComponentData bs = [PyInt c_size; PyInt c_type]
                   ∧ 0 ≤ c_size.
Proof.
  eexists _, _. split; [reflexivity|]. apply le_unsigned_nonneg.
Qed.

Lemma unpack_from_RTComponentData (data : bytes) (pos : Z)
    (items : list pyval) :
  unpack_from RTComponentData data pos = Ok items →
  ∃ c_size c_type, items = [PyInt c_size; PyInt c_type] ∧ 0 ≤ c_size.
Proof.
  unfold unpack_from. intros H.
  repeat match type of H with
         | (if ?c then _ else _) = _ => destruct c
         end; try discriminate H;
    injection H as <-; apply unpack_RTComponentData.
Qed.

(** One turn of the directory loop on a readable entry of a known kind. *)
Lemma scan_component_entry (data : bytes) (e : entry)
    (components : gmap QRTComponentType Z) (g : Globals) :
  unpack_from RTComponentData data (entry_offset e) =
    Ok [PyInt (entry_size e); PyInt (QRTComponentType_value (entry_kind e))] →
  scan_component data (entry_offset e, components) g =
    (g, Ok (entry_offset e + entry_size e,
            <[entry_kind e := entry_offset e + 8]> components)).
Proof.
  intros Hread. unfold scan_component.
  rewrite bind_lift, Hread. cbn beta iota.
  by rewrite bind_lift, QRTComponentType_of_value.
Qed.

(** The directory built from a list of entries: later entries overwrite
    earlier ones of the same kind. *)
Lemma lookup_foldl_insert (kind : QRTComponentType) (entries : list entry) :
  ∀ components : gmap QRTComponentType Z,
    foldl (λ m e, <[entry_kind e := entry_offset e + 8]> m) components entries
      !! kind =
    match last_payload_offset kind entries with
    | Some offset => Some offset
    | None => components !! kind
    end.
Proof.
  induction entries as [|e entries IH]; intros components; simpl; [done|].
  rewrite IH. destruct (last_payload_offset kind entries); [done|].
  destruct (decide (entry_kind e = kind)) as [->|Hne].
  - by rewrite lookup_insert_eq.
  - by rewrite lookup_insert_ne.
Qed.

Lemma directory_at_nonneg (data : bytes) (entries : list entry) :
  ∀ pos, directory_at data pos entries → 0 ≤ total_size entries.
Proof.
  induction entries as [|e entries IH]; intros pos; simpl; [lia|].
  intros (_ & Hread & Hrest).
  apply unpack_from_RTComponentData in Hread as (s & t & [= <- _] & Hs).
  specialize (IH _ Hrest). lia.
Qed.

(** The directory loop over readable entries of known kinds. *)
Lemma scan_entries (data : bytes) (entries : list entry) :
  ∀ (n : nat) (i0 pos : Z) (components : gmap QRTComponentType Z)
    (g : Globals),
    directory_at data pos entries →
    (length entries ≤ n)%nat →
    for_range n i0 (λ _, scan_component data) (pos, components) g =
    for_range (n - length entries) (i0 + Z.of_nat (length entries))
      (λ _, scan_component data)
      (pos + total_size entries,
       foldl (λ m e, <[entry_kind e := entry_offset e + 8]> m)
             components entries) g.
Proof.
  induction entries as [|e entries IH]; intros n i0 pos components g Hdir Hn.
  - simpl. rewrite Nat.sub_0_r, !Z.add_0_r. done.
  - simpl in Hdir, Hn. destruct Hdir as (<- & Hread & Hrest).
    destruct n as [|n]; [lia|].
    rewrite for_range_S, (scan_component_entry data e) by done.
    rewrite (IH n) by (done || lia). simpl length. simpl total_size.
    simpl foldl. f_equal; [lia..|]. f_equal. lia.
Qed.

(** C3. When the 16-byte header and the [component_count] directory
    entries are readable, header construction succeeds; every entry is
    read where the declared size of the previous one ends (the first one
    at offset 16), so that the scan cursor ends at 16 plus the sum of the
    declared sizes; each entry records its offset plus 8 for its kind, and
    a kind met several times keeps the offset of its last entry. *)
Theorem directory_keeps_last_entry (data : bytes) (g : Globals)
    (ts fn cc : Z) (entries : list entry) :
  unpack_from RTDataQRTPacket data 0 = Ok [PyInt ts; PyInt fn; PyInt cc] →
  length entries = range cc →
  directory_at data 16 entries →
  ∃ directory : gmap QRTComponentType Z,
    scan_components data cc g = (g, Ok (16 + total_size entries, directory))
    ∧ QRTPacket_init data g = (g, Ok (MkQRTPacket data ts fn directory))
    ∧ ∀ kind, directory !! kind = last_payload_offset kind entries.
Proof.
  intros Hheader Hcount Hdir.
  exists (foldl (λ m e, <[entry_kind e := entry_offset e + 8]> m) ∅ entries).
  assert (scan_components data cc g =
          (g, Ok (16 + total_size entries,
                  foldl (λ m e, <[entry_kind e := entry_offset e + 8]> m)
                        ∅ entries))) as Hscan.
  { unfold scan_components. change (calcsize RTDataQRTPacket) with 16.
    rewrite (scan_entries data entries) by (done || lia).
    by rewrite Hcount, Nat.sub_diag. }
  split; [done|]. split.
  - unfold QRTPacket_init. rewrite bind_lift, Hheader. cbn beta iota.
    by rewrite bind_unfold, Hscan.
  - intros kind. rewrite lookup_foldl_insert, lookup_empty.
    by destruct (last_payload_offset kind entries).
Qed.

Lemma directory_keeps_last_entry_witness :
  unpack_from RTDataQRTPacket packet_two_3d 0 = Ok [PyInt 0; PyInt 7; PyInt 2]
  ∧ directory_at packet_two_3d 16
      [Entry 16 16 Component3d; Entry 32 16 Component3d]
  ∧ ∃ directory : gmap QRTComponentType Z,
      scan_components packet_two_3d 2 fresh = (fresh, Ok (16 + 32, directory))
      ∧ QRTPacket_init packet_two_3d fresh =
          (fresh, Ok (MkQRTPacket packet_two_3d 0 7 directory))
      ∧ ∀ kind, directory !! kind =
                last_payload_offset kind
                  [Entry 16 16 Component3d; Entry 32 16 Component3d].
Proof.
  split; [reflexivity|]. split; [by vm_compute|].
  apply (directory_keeps_last_entry packet_two_3d fresh 0 7 2
           [Entry 16 16 Component3d; Entry 32 16 Component3d]).
  - reflexivity.
  - reflexivity.
  - by vm_compute.
Defined.

(** C4 (as the code has it). Header construction raises [struct.error]
    when a directory entry, reached through readable entries of known
    kinds, does not lie within the buffer. *)
Theorem truncated_entry_raises (data : bytes) (g : Globals)
    (ts fn cc : Z) (entries : list entry) :
  unpack_from RTDataQRTPacket data 0 = Ok [PyInt ts; PyInt fn; PyInt cc] →
  directory_at data 16 entries →
  (length entries < range cc)%nat →
  len data < 16 + total_size entries + 8 →
  QRTPacket_init data g = (g, Raise struct_error).
Proof.
  intros Hheader Hdir Hcount Hshort.
  unfold QRTPacket_init. rewrite bind_lift, Hheader. cbn beta iota.
  rewrite bind_unfold. unfold scan_components.
  change (calcsize RTDataQRTPacket) with 16.
  rewrite (scan_entries data entries) by (done || lia).
  destruct (range cc - length entries)%nat as [|n] eqn:Hn; [lia|].
  rewrite for_range_S. unfold scan_component at 1.
  rewrite bind_lift, unpack_from_short; [done| |done].
  pose proof (directory_at_nonneg _ _ _ Hdir). lia.
Qed.

Lemma truncated_entry_raises_witness :
  unpack_from RTDataQRTPacket packet_missing_entry 0 =
    Ok [PyInt 0; PyInt 7; PyInt 2]
  ∧ directory_at packet_missing_entry 16 [Entry 16 16 Component3d]
  ∧ QRTPacket_init packet_missing_entry fresh = (fresh, Raise struct_error).
Proof.
  split; [reflexivity|]. split; [by vm_compute|].
  apply (truncated_entry_raises packet_missing_entry fresh 0 7 2
           [Entry 16 16 Component3d]).
  - reflexivity.
  - by vm_compute.
  - vm_compute. lia.
  - by vm_compute.
Defined.

(** C4 fails as stated: the span declared by the only entry of
    [packet_short_3d] ends at offset 44, the buffer at 32, and header
    construction succeeds. *)
Lemma oversized_span_accepted :
  directory_at packet_short_3d 16 [Entry 16 28 Component3d]
  ∧ len packet_short_3d < 16 + 28
  ∧ QRTPacket_init packet_short_3d fresh =
      (fresh, Ok (MkQRTPacket packet_short_3d 0 7 {[ Component3d := 24 ]})).
Proof. split; [by vm_compute|]. split; [by vm_compute|]. by vm_compute. Qed.

(** ** The decorator *)

(** Every accessor is its decorator's wrapper around its decoding loop. *)
Lemma call_unfold (a : accessor) (pkt : QRTPacket) (g : Globals) :
  call a pkt g =
  match components pkt !! kind_of a with
  | None => (g, Ok None)
  | Some pos =>
      match _get_exact (header_of a) (data pkt) pos with
      | Ok (pos', info) =>
          match decode_loop a info (data pkt) pos' g with
          | (g', Ok (_, collection)) => (g', Ok (Some (info, collection)))
          | (g', Raise e) => (g', Raise e)
          end
      | Raise e => (g, Raise e)
      end
  end.
Proof.
  destruct a; simpl;
    unfold get_analog, get_analog_single, get_force, get_force_single,
      get_6d, get_6d_residual, get_6d_euler, get_6d_euler_residual,
      get_image, get_3d_markers, get_3d_markers_residual,
      get_3d_markers_no_label, get_3d_markers_no_label_residual,
      get_2d_markers, get_2d_markers_linearized, get_skeletons,
      _get_3d_markers, _get_2d_markers, ComponentGetter, returning_components;
    (destruct (components pkt !! _) as [pos|]; [|done]);
    rewrite bind_lift;
    (destruct (_get_exact _ (data pkt) pos) as [[pos' info]|e]; [|done]);
    rewrite !bind_unfold;
    match goal with
    | |- context [?loop g] => by destruct (loop g) as [g' [[final c]|e]]
    end.
Qed.

(** ** Header construction on a cut buffer *)

Lemma QRTComponentType_of_inv (value : Z) (kind : QRTComponentType) :
  QRTComponentType_of value = Ok kind → QRTComponentType_value kind = value.
Proof.
  unfold QRTComponentType_of.
  destruct (find _ _) as [t|] eqn:Hfind; [|done].
  intros [= ->]. apply find_some in Hfind as [_ Hvalue].
  by apply bool_decide_eq_true in Hvalue.
Qed.

Lemma scan_component_inv (data : bytes) (pos p' : Z)
    (components components' : gmap QRTComponentType Z) (g g' : Globals) :
  scan_component data (pos, components) g = (g', Ok (p', components')) →
  ∃ c_size kind,
    unpack_from RTComponentData data pos =
      Ok [PyInt c_size; PyInt (QRTComponentType_value kind)]
    ∧ 0 ≤ c_size ∧ g' = g ∧ p' = pos + c_size
    ∧ components' = <[kind := pos + 8]> components.
Proof.
  unfold scan_component. rewrite bind_lift.
  destruct (unpack_from RTComponentData data pos) as [items|] eqn:Hread;
    [|done].
  destruct (unpack_from_RTComponentData _ _ _ Hread)
    as (c_size & c_type & -> & Hsize).
  cbn beta iota. rewrite bind_lift.
  destruct (QRTComponentType_of c_type) as [kind|] eqn:Hkind; [|done].
  apply QRTComponentType_of_inv in Hkind as <-.
  intros [= <- <- <-]. by exists c_size, kind.
Qed.

Lemma scan_component_state (data : bytes)
    (locals : Z * gmap QRTComponentType Z) (g : Globals) :
  (scan_component data locals g).1 = g.
Proof.
  destruct locals as [pos components]. unfold scan_component. rewrite bind_lift.
  destruct (unpack_from RTComponentData data pos) as [items|] eqn:Hread;
    [|done].
  destruct (unpack_from_RTComponentData _ _ _ Hread)
    as (c_size & c_type & -> & Hsize).
  cbn beta iota. rewrite bind_lift.
  by destruct (QRTComponentType_of c_type).
Qed.

Lemma scan_loop_state (data : bytes) (n : nat) :
  ∀ i0 locals g,
    (for_range n i0 (λ _, scan_component data) locals g).1 = g.
Proof.
  induction n as [|n IH]; intros i0 locals g; [done|].
  rewrite for_range_S.
  pose proof (scan_component_state data locals g) as Hstate.
  destruct (scan_component data locals g) as [g1 [locals1|e]];
    simpl in Hstate; subst g1; [apply IH|done].
Qed.

Lemma scan_loop_nonneg (data : bytes) (n : nat) :
  ∀ i0 pos components g g' p' components',
    for_range n i0 (λ _, scan_component data) (pos, components) g =
      (g', Ok (p', components')) →
    0 ≤ pos → map_Forall (λ _ offset, 0 ≤ offset) components →
    map_Forall (λ _ offset, 0 ≤ offset) components'.
Proof.
  induction n as [|n IH]; intros i0 pos components g g' p' components'.
  - by intros [= _ _ <-].
  - rewrite for_range_S.
    destruct (scan_component data (pos, components) g)
      as [g1 [[p1 components1]|e]] eqn:Hturn; [|done].
    apply scan_component_inv in Hturn
      as (c_size & kind & _ & Hsize & -> & -> & ->).
    intros Hloop Hpos Hall. eapply IH; [exact Hloop|lia|].
    apply map_Forall_insert_2; [lia|done].
Qed.

Lemma init_offsets_nonneg (data : bytes) (g g' : Globals) (pkt : QRTPacket)
    (kind : QRTComponentType) (pos : Z) :
  QRTPacket_init data g = (g', Ok pkt) →
  components pkt !! kind = Some pos → 0 ≤ pos.
Proof.
  unfold QRTPacket_init. rewrite bind_lift.
  destruct (unpack_from RTDataQRTPacket data 0) as [header|]; [|done].
  destruct header as [|[ts| | |] [|[fn| | |] [|[cc| | |] [|]]]]; try done.
  rewrite bind_unfold. unfold scan_components.
  destruct (for_range _ _ _ _ g) as [g1 [[p1 components1]|e]] eqn:Hloop;
    [|done].
  intros [= _ <-]. simpl.
  apply scan_loop_nonneg in Hloop; [|done|apply map_Forall_empty].
  apply Hloop.
Qed.

(** Header construction on the front part of a buffer. *)
Lemma scan_loop_cut (front rest : bytes) (n : nat) :
  ∀ i0 pos components g,
    0 ≤ pos →
    for_range n i0 (λ _, scan_component front) (pos, components) g =
      for_range n i0 (λ _, scan_component (front ++ rest)) (pos, components) g
    ∨ for_range n i0 (λ _, scan_component front) (pos, components) g =
        (g, Raise struct_error).
Proof.
  induction n as [|n IH]; intros i0 pos components g Hpos; [by left|].
  rewrite !for_range_S.
  destruct (decide (pos + calcsize RTComponentData ≤ len front))
    as [Hfit|Hcross].
  - assert (scan_component front (pos, components) g =
            scan_component (front ++ rest) (pos, components) g) as ->.
    { unfold scan_component.
      by rewrite (unpack_from_prefix _ front rest pos). }
    destruct (scan_component (front ++ rest) (pos, components) g)
      as [g1 [[p1 components1]|e]] eqn:Hturn; [|by left].
    apply scan_component_inv in Hturn
      as (c_size & kind & _ & Hsize & -> & -> & ->).
    apply IH. lia.
  - right. unfold scan_component at 1.
    by rewrite bind_lift, unpack_from_short by lia.
Qed.

Lemma init_cut (front rest : bytes) (g g' : Globals) (pkt : QRTPacket) :
  QRTPacket_init (front ++ rest) g = (g', Ok pkt) →
  QRTPacket_init front g = (g, Raise struct_error)
  ∨ QRTPacket_init front g =
      (g', Ok (MkQRTPacket front (timestamp pkt) (framenumber pkt)
                          (components pkt))).
Proof.
  unfold QRTPacket_init. rewrite !bind_lift.
  destruct (decide (0 + calcsize RTDataQRTPacket ≤ len front))
    as [Hfit|Hcross].
  - rewrite (unpack_from_prefix _ front rest 0) by done.
    destruct (unpack_from RTDataQRTPacket (front ++ rest) 0) as [header|];
      [|done].
    destruct header as [|[ts| | |] [|[fn| | |] [|[cc| | |] [|]]]]; try done.
    rewrite !bind_unfold. unfold scan_components.
    destruct (scan_loop_cut front rest (range cc) 0
                (calcsize RTDataQRTPacket) ∅ g) as [-> | ->];
      [done| |by left].
    destruct (for_range _ _ _ _ g) as [g1 [[p1 components1]|e]]; [|done].
    intros [= <- <-]. by right.
  - rewrite (unpack_from_short _ front 0) by lia. by left.
Qed.

Lemma header_size_pos (a : accessor) : 0 < format_size (header_of a).
Proof. by destruct a. Qed.

(** A buffer without its last byte. *)
Lemma without_last_byte (data : bytes) :
  data ≠ [] →
  ∃ last, data = take (length data - 1) data ++ [last]
          ∧ len (take (length data - 1) data) = len data - 1.
Proof.
  intros Hne. destruct (exists_last Hne) as (front & last & ->).
  exists last. rewrite length_app. simpl.
  replace (length front + 1 - 1)%nat with (length front) by lia.
  rewrite take_app_length. split; [done|].
  unfold len. rewrite length_app. simpl. lia.
Qed.

(** Decoding one component, header and collection, on the front part of a
    buffer. *)
Lemma component_cut (a : accessor) (front rest : bytes) (pos final : Z)
    (info : ntuple) (collection : payload a) (g g' : Globals) :
  reads_to_end a = true → 0 ≤ pos →
  _get_exact (header_of a) (front ++ rest) pos =
    Ok (pos + format_size (header_of a), info) →
  decode_loop a info (front ++ rest) (pos + format_size (header_of a)) g =
    (g', Ok (final, collection)) →
  len front < final →
  match _get_exact (header_of a) front pos with
  | Ok (pos', info') => (decode_loop a info' front pos' g).2
  | Raise e => Raise e
  end = Raise struct_error.
Proof.
  intros Ha Hpos Hinfo Hloop Hcut.
  pose proof (header_size_pos a) as Hsize.
  destruct (cut_rel_get_exact front rest (header_of a) pos g Hpos)
    as [Hmono Htight].
  unfold lift in Hmono, Htight. rewrite Hinfo in Hmono, Htight.
  destruct (Htight g _ info eq_refl) as [_ Hraise].
  destruct Hmono as [[= Hsame]|Hcutinfo]; [|simpl in Hcutinfo].
  - rewrite Hsame in *.
    destruct (cut_rel_decode_loop a info front rest
                (pos + format_size (header_of a)) g Ha ltac:(lia))
      as [_ Htight2].
    rewrite Hloop in Htight2.
    destruct (Htight2 g' final collection eq_refl) as [Hle Hraise2].
    destruct (decide (pos + format_size (header_of a) < final));
      [by apply Hraise2|].
    specialize (Hraise ltac:(lia) ltac:(lia)). done.
  - by destruct (_get_exact (header_of a) front pos) as [[pos' info']|e];
      simplify_eq.
Qed.

(** C2 (as the code has it). Take a packet of [N] bytes and an accessor
    that moves its offset by reading only (any but [get_image] and the 2D
    accessors called with a camera index). If header construction succeeds
    and the accessor's decoding of the packet ends at the offset [N], then
    on the first [N - 1] bytes either header construction or the accessor
    raises [struct.error]: no result is returned. *)
Theorem truncated_packet_raises (a : accessor) (data : bytes)
    (g g' : Globals) (pkt : QRTPacket) (pos : Z) (info : ntuple)
    (collection : payload a) :
  reads_to_end a = true →
  QRTPacket_init data g = (g, Ok pkt) →
  components pkt !! kind_of a = Some pos →
  _get_exact (header_of a) data pos =
    Ok (pos + format_size (header_of a), info) →
  decode_loop a info data (pos + format_size (header_of a)) g =
    (g', Ok (len data, collection)) →
  QRTPacket_init (take (length data - 1) data) g = (g, Raise struct_error)
  ∨ ∃ pkt',
      QRTPacket_init (take (length data - 1) data) g = (g, Ok pkt')
      ∧ (call a pkt' g).2 = Raise struct_error.
Proof.
  intros Ha Hinit Hdir Hinfo Hloop.
  assert (data ≠ []) as Hne by (by intros ->).
  destruct (without_last_byte data Hne) as (last & Heq & Hlen).
  remember (take (length data - 1) data) as front eqn:Hfront.
  clear Hfront Hne. subst data.
  pose proof (init_offsets_nonneg _ _ _ _ _ _ Hinit Hdir) as Hpos.
  destruct (init_cut _ _ _ _ _ Hinit) as [Hcut|Hcut]; [by left|].
  right. eexists. split; [exact Hcut|].
  rewrite call_unfold. simpl. rewrite Hdir.
  pose proof (component_cut a front [last] pos _ info collection g g'
                Ha Hpos Hinfo Hloop ltac:(lia)) as Hraise.
  destruct (_get_exact (header_of a) front pos) as [[pos' info']|e];
    [|by simplify_eq].
  destruct (decode_loop a info' front pos' g) as [g1 [[final c]|e]];
    simpl in *; by simplify_eq.
Qed.

Lemma truncated_packet_raises_witness :
  QRTPacket_init packet_3d fresh =
    (fresh, Ok (MkQRTPacket packet_3d 0 7 {[ Component3d := 24 ]}))
  ∧ len packet_3d = 44
  ∧ (QRTPacket_init (take (length packet_3d - 1) packet_3d) fresh =
       (fresh, Raise struct_error)
     ∨ ∃ pkt',
         QRTPacket_init (take (length packet_3d - 1) packet_3d) fresh =
           (fresh, Ok pkt')
         ∧ (call acc_3d_markers pkt' fresh).2 = Raise struct_error).
Proof.
  split; [by vm_compute|]. split; [by vm_compute|].
  eapply (truncated_packet_raises acc_3d_markers packet_3d fresh fresh
            (MkQRTPacket packet_3d 0 7 {[ Component3d := 24 ]}) 24).
  - reflexivity.
  - by vm_compute.
  - by vm_compute.
  - by vm_compute.
  - by vm_compute.
Defined.

(** C2 fails as stated, on two packets whose directory sizes add up to
    their length.  [packet_timecode] holds a kind that has no accessor:
    its first 27 bytes pass header construction, and every accessor
    returns [None].  [packet_image] decodes, and so do its first 65 bytes,
    to an image with an empty payload. *)
Lemma truncated_packet_decodes :
  (directory_at packet_timecode 16 [Entry 16 12 ComponentTimecode]
   ∧ len packet_timecode = 16 + 12
   ∧ ∃ pkt',
       QRTPacket_init (take 27 packet_timecode) fresh = (fresh, Ok pkt')
       ∧ components pkt' = {[ ComponentTimecode := 24 ]}
       ∧ ∀ a, call a pkt' fresh = (fresh, Ok None))
  ∧ (directory_at packet_image 16 [Entry 16 50 ComponentImage]
     ∧ len packet_image = 16 + 50
     ∧ is_ok (get_image (sample_image_packet packet_image) fresh).2 = true
     ∧ QRTPacket_init (take 65 packet_image) fresh =
         (fresh, Ok (sample_image_packet (take 65 packet_image)))
     ∧ get_image (sample_image_packet (take 65 packet_image)) fresh =
         (fresh, Ok (Some (sample_image_component 1,
                           [(sample_image_info, [])])))).
Proof.
  split.
  - split; [by vm_compute|]. split; [by vm_compute|].
    eexists. split; [by vm_compute|]. split; [done|].
    intros a. rewrite call_unfold. by destruct a.
  - repeat split; by vm_compute.
Qed.

Lemma ret_unfold {A : Type} (a : A) (g : Globals) :
  (mret a : M A) g = (g, Ok a).
Proof. reflexivity. Qed.

(** ** The 2D camera filter *)

(** The marker loop leaves the module state alone and, when it succeeds,
    has moved the offset by 12 bytes per marker. *)
Lemma marker_loop_final (data : bytes) (n : nat) :
  ∀ i0 pos acc g g' final markers,
    for_range n i0 (λ _, _get_2d_marker data) (pos, acc) g =
      (g', Ok (final, markers)) →
    g' = g ∧ final = pos + format_size RT2DMarker * Z.of_nat n.
Proof.
  induction n as [|n IH]; intros i0 pos acc g g' final markers.
  - intros [= <- <- _]. split; [done|lia].
  - rewrite for_range_S. unfold _get_2d_marker at 1. rewrite bind_lift.
    destruct (_get_exact RT2DMarker data pos) as [[p1 marker]|e] eqn:Hread;
      [|done].
    apply _get_exact_position in Hread as ->. cbn beta iota.
    rewrite ret_unfold.
    intros Hloop. apply IH in Hloop as [-> ->].
    split; [done|lia].
Qed.

Lemma camera_filter_loop (data : bytes) (index : Z) (n : nat) :
  ∀ i0 pos acc acc' g g' counts final views,
    camera_marker_counts data n pos = Some counts →
    Forall (λ count, 0 ≤ count) counts →
    for_range n i0 (_get_2d_camera data None) (pos, acc) g =
      (g', Ok (final, views)) →
    ∃ views',
      for_range n i0 (_get_2d_camera data (Some index)) (pos, acc') g =
        (g, Ok (final, views')).
Proof.
  induction n as [|n IH];
    intros i0 pos acc acc' g g' counts final views Hcounts Hnonneg.
  - intros [= <- <- _]. by exists acc'.
  - rewrite !for_range_S. simpl in Hcounts.
    unfold _get_2d_camera at 1 3. rewrite !bind_lift.
    destruct (_get_exact RT2DCamera data pos) as [[p1 camera_info]|e];
      [|done].
    destruct (camera_marker_counts data n _) as [rest|] eqn:Hrest; [|done].
    simpl in Hcounts. injection Hcounts as <-.
    apply Forall_cons_1 in Hnonneg as [Hcount Hnonneg].
    change (index_selects None i0) with true.
    change (index_selects (Some index) i0) with (bool_decide (index = i0)).
    cbn beta iota. rewrite bind_unfold.
    destruct (for_range _ 0 _ (p1, []) g) as [g1 [[p2 markers]|e]] eqn:Hmarkers;
      [|done].
    destruct (marker_loop_final _ _ _ _ _ _ _ _ _ Hmarkers) as [-> ->].
    unfold range in *. rewrite Z2Nat.id in * by done.
    cbn beta iota. rewrite ret_unfold. intros Hloop.
    destruct (bool_decide (index = i0)).
    + rewrite bind_unfold, Hmarkers. cbn beta iota. rewrite ret_unfold.
      by eapply IH.
    + rewrite ret_unfold. by eapply IH.
Qed.

(** C6 (as the code has it). When no camera of a 2D or 2D-linearized
    component reports a negative marker count and the decode without
    index succeeds, the decode filtered by any camera index succeeds too
    and ends at the same offset. *)
Theorem camera_filter_final_offset (data : bytes) (component_info : ntuple)
    (component_position index : Z) (g g' : Globals) (counts : list Z)
    (final : Z) (views : list (list ntuple)) :
  camera_marker_counts data (range (int_attr component_info "camera_count"))
                       component_position = Some counts →
  Forall (λ count, 0 ≤ count) counts →
  _get_2d_markers_loop data component_info component_position None g =
    (g', Ok (final, views)) →
  ∃ views',
    _get_2d_markers_loop data component_info component_position
                         (Some index) g = (g, Ok (final, views')).
Proof.
  unfold _get_2d_markers_loop. intros Hcounts Hnonneg Hfull.
  by eapply camera_filter_loop.
Qed.

Lemma camera_filter_final_offset_witness :
  camera_marker_counts (packet_2d 7) 3 32 = Some [2; 0; 1]
  ∧ _get_2d_markers_loop (packet_2d 7) (sample_2d_info 3) 32 None fresh =
      (fresh, Ok (83, [[sample_marker 10; sample_marker 20]; [];
                       [sample_marker 30]]))
  ∧ ∃ views',
      _get_2d_markers_loop (packet_2d 7) (sample_2d_info 3) 32 (Some 2) fresh
      = (fresh, Ok (83, views')).
Proof.
  split; [by vm_compute|]. split; [by vm_compute|].
  eapply (camera_filter_final_offset (packet_2d 7) (sample_2d_info 3) 32 2
            fresh fresh [2; 0; 1] 83).
  - by vm_compute.
  - do 3 (apply Forall_cons_2; [lia|]). apply Forall_nil_2.
  - by vm_compute.
Defined.

(** C6 fails as stated.  The only camera of [packet_2d_negative] reports
    -1 markers: the decode without index ends at offset 37, the decode
    filtered by the index 1 twelve bytes before the place where it read
    the camera record, at offset 25.  The only camera of [packet_2d_short]
    reports one marker that the buffer does not hold: the decode without
    index raises, the decode filtered by the index 1 ends at offset 49,
    behind the 37 bytes of the buffer. *)
Lemma camera_filter_moves_back :
  (_get_exact RT2DComponent packet_2d_negative 24 = Ok (32, sample_2d_info 1)
   ∧ _get_2d_markers_loop packet_2d_negative (sample_2d_info 1) 32 None fresh
     = (fresh, Ok (37, [[]]))
   ∧ _get_2d_markers_loop packet_2d_negative (sample_2d_info 1) 32 (Some 1)
                          fresh
     = (fresh, Ok (25, [])))
  ∧ (_get_exact RT2DComponent packet_2d_short 24 = Ok (32, sample_2d_info 1)
     ∧ len packet_2d_short = 37
     ∧ _get_2d_markers_loop packet_2d_short (sample_2d_info 1) 32 None fresh
       = (fresh, Raise struct_error)
     ∧ _get_2d_markers_loop packet_2d_short (sample_2d_info 1) 32 (Some 1)
                            fresh
       = (fresh, Ok (49, []))).
Proof. repeat split; by vm_compute. Qed.

(** C7 (as the code has it). For a 2D component with three cameras of 2, 0
    and 1 markers, [get_2d_markers(index=2)] returns the component header
    and a collection whose only element is the marker list of camera 2,
    with its single marker; the first two cameras are passed by offset
    arithmetic, their markers need not even be readable. *)
Theorem camera_index_2_view (pkt : QRTPacket) (g : Globals) (pos : Z)
    (component_info camera0 camera1 camera2 marker : ntuple) :
  components pkt !! Component2d = Some pos →
  _get_exact RT2DComponent (data pkt) pos = Ok (pos + 8, component_info) →
  int_attr component_info "camera_count" = 3 →
  _get_exact RT2DCamera (data pkt) (pos + 8) = Ok (pos + 13, camera0) →
  int_attr camera0 "marker_count" = 2 →
  _get_exact RT2DCamera (data pkt) (pos + 37) = Ok (pos + 42, camera1) →
  int_attr camera1 "marker_count" = 0 →
  _get_exact RT2DCamera (data pkt) (pos + 42) = Ok (pos + 47, camera2) →
  int_attr camera2 "marker_count" = 1 →
  _get_exact RT2DMarker (data pkt) (pos + 47) = Ok (pos + 59, marker) →
  get_2d_markers (Some 2) pkt g = (g, Ok (Some (component_info, [[marker]]))).
Proof.
  intros Hdir Hinfo Hcount Hcam0 Hcount0 Hcam1 Hcount1 Hcam2 Hcount2 Hmarker.
  unfold get_2d_markers, ComponentGetter, _get_2d_markers,
    returning_components, _get_2d_markers_loop.
  unfold mbind, M_bind, mret, M_ret, lift.
  rewrite Hdir, Hinfo. cbn beta iota.
  rewrite Hcount. change (range 3) with 3%nat.
  unfold for_range, _get_2d_camera, mbind, M_bind, mret, M_ret, lift.
  cbn beta iota.
  rewrite Hcam0. cbn beta iota.
  change (index_selects (Some 2) 0) with false. cbn beta iota.
  rewrite Hcount0.
  replace (pos + 13 + format_size RT2DMarker * 2) with (pos + 37)
    by (change (format_size RT2DMarker) with 12; lia).
  rewrite Hcam1. cbn beta iota.
  change (index_selects (Some 2) (0 + 1)) with false. cbn beta iota.
  rewrite Hcount1.
  replace (pos + 42 + format_size RT2DMarker * 0) with (pos + 42) by lia.
  rewrite Hcam2. cbn beta iota.
  change (index_selects (Some 2) (0 + 1 + 1)) with true. cbn beta iota.
  rewrite Hcount2. change (range 1) with 1%nat. cbn beta iota.
  unfold _get_2d_marker, mbind, M_bind, mret, M_ret, lift.
  unfold for_range. cbn beta iota. rewrite Hmarker. reflexivity.
Qed.

Lemma camera_index_2_view_witness :
  QRTPacket_init (packet_2d 7) fresh = (fresh, Ok (sample_2d_packet 7))
  ∧ camera_marker_counts (packet_2d 7) 3 32 = Some [2; 0; 1]
  ∧ get_2d_markers (Some 2) (sample_2d_packet 7) fresh =
      (fresh, Ok (Some (sample_2d_info 3, [[sample_marker 30]]))).
Proof.
  split; [by vm_compute|]. split; [by vm_compute|].
  apply (camera_index_2_view (sample_2d_packet 7) fresh 24 (sample_2d_info 3)
           (sample_camera 2 1) (sample_camera 0 1) (sample_camera 1 7)
           (sample_marker 30)); by vm_compute.
Defined.

(** C7 fails as stated: the status flag of camera 2 is 7 in [packet_2d 7]
    and 9 in [packet_2d 9], and the accessor returns the same value for
    both packets: the flag is no part of what it yields. *)
Lemma camera_view_without_status_flag :
  _get_exact RT2DCamera (packet_2d 7) 66 = Ok (71, sample_camera 1 7)
  ∧ _get_exact RT2DCamera (packet_2d 9) 66 = Ok (71, sample_camera 1 9)
  ∧ sample_camera 1 7 ≠ sample_camera 1 9
  ∧ QRTPacket_init (packet_2d 9) fresh = (fresh, Ok (sample_2d_packet 9))
  ∧ get_2d_markers (Some 2) (sample_2d_packet 7) fresh =
      (fresh, Ok (Some (sample_2d_info 3, [[sample_marker 30]])))
  ∧ get_2d_markers (Some 2) (sample_2d_packet 9) fresh =
      (fresh, Ok (Some (sample_2d_info 3, [[sample_marker 30]]))).
Proof. repeat split; by vm_compute. Qed.

(** ** Analog devices *)

Lemma RTAnalogChannel_bound (g : Globals) (sample_count : Z) :
  RTAnalogChannel_format g = Some (replicate (Z.to_nat sample_count) fmt_f) →
  RTAnalogChannel g = analog_channel_class sample_count.
Proof. unfold RTAnalogChannel, analog_channel_class. by intros ->. Qed.

Lemma analog_channel_size (sample_count : Z) :
  0 ≤ sample_count →
  format_size (analog_channel_class sample_count) = 4 * sample_count.
Proof.
  intros Hcount. unfold format_size. simpl.
  rewrite calcsize_replicate. simpl. lia.
Qed.

Lemma get_analog_channel_unfold (data : bytes) (device sample_number : ntuple)
    (pos : Z) (acc : list (ntuple * ntuple * ntuple)) (g : Globals) :
  get_analog_channel data device sample_number (pos, acc) g =
  match _get_tuple (RTAnalogChannel g) data pos with
  | Ok (pos', channel) =>
      (g, Ok (pos', acc ++ [(device, sample_number, channel)]))
  | Raise e => (g, Raise e)
  end.
Proof.
  unfold get_analog_channel, get_globals. rewrite bind_unfold, bind_lift.
  by destruct (_get_tuple _ data pos) as [[pos' channel]|e].
Qed.

(** The channel loop over readable channel arrays. *)
Lemma channel_loop_layout (data : bytes) (device sample_number : ntuple)
    (sample_count : Z) (g : Globals) (channels : list ntuple) :
  RTAnalogChannel_format g = Some (replicate (Z.to_nat sample_count) fmt_f) →
  ∀ i0 pos acc,
    channels_at data sample_count pos channels →
    for_range (length channels) i0
      (λ _, get_analog_channel data device sample_number) (pos, acc) g =
    (g, Ok (pos + Z.of_nat (length channels) * (4 * sample_count),
            acc ++ map (λ channel, (device, sample_number, channel))
                       channels)).
Proof.
  intros Hbound.
  induction channels as [|channel channels IH]; intros i0 pos acc Hat.
  - simpl. rewrite ret_unfold, app_nil_r. do 3 f_equal. lia.
  - destruct Hat as [Hread Hrest]. simpl length.
    rewrite for_range_S, get_analog_channel_unfold.
    rewrite (RTAnalogChannel_bound g sample_count Hbound), Hread.
    rewrite IH by done. simpl map. rewrite <-app_assoc. simpl.
    do 3 f_equal. lia.
Qed.

(** A channel loop that succeeds has read that many channel arrays. *)
Lemma channel_loop_inv (data : bytes) (device sample_number : ntuple)
    (sample_count : Z) (g : Globals) (n : nat) :
  RTAnalogChannel_format g = Some (replicate (Z.to_nat sample_count) fmt_f) →
  0 ≤ sample_count →
  ∀ i0 pos acc g' final collection,
    for_range n i0 (λ _, get_analog_channel data device sample_number)
      (pos, acc) g = (g', Ok (final, collection)) →
    ∃ channels,
      length channels = n
      ∧ channels_at data sample_count pos channels
      ∧ g' = g
      ∧ final = pos + Z.of_nat n * (4 * sample_count)
      ∧ collection =
          acc ++ map (λ channel, (device, sample_number, channel)) channels.
Proof.
  intros Hbound Hcount.
  induction n as [|n IH]; intros i0 pos acc g' final collection.
  - intros [= <- <- <-]. exists []. simpl. rewrite app_nil_r.
    repeat split; try done; lia.
  - rewrite for_range_S, get_analog_channel_unfold.
    rewrite (RTAnalogChannel_bound g sample_count Hbound).
    destruct (_get_tuple _ data pos) as [[pos' channel]|e] eqn:Hread; [|done].
    pose proof (_get_tuple_position _ _ _ _ _ Hread) as Hpos'.
    rewrite analog_channel_size in Hpos' by done. subst pos'.
    intros Hloop.
    apply IH in Hloop as (channels & Hlen & Hat & -> & -> & ->).
    exists (channel :: channels). simpl. rewrite <-app_assoc. simpl.
    repeat split; try done; lia.
Qed.

Lemma get_analog_device_unfold (data : bytes) (pos : Z)
    (acc : list (ntuple * ntuple * ntuple)) (g : Globals) :
  get_analog_device data (pos, acc) g =
  match _get_exact RTAnalogDevice data pos with
  | Ok (pos1, device) =>
      if 0 <? int_attr device "sample_count" then
        match _get_exact RTSampleNumber data pos1 with
        | Ok (pos2, sample_number) =>
            for_range (range (int_attr device "channel_count")) 0
              (λ _, get_analog_channel data device sample_number)
              (pos2, acc)
              (MkGlobals
                 (Some (replicate (Z.to_nat (int_attr device "sample_count"))
                                  fmt_f))
                 (RTAnalogDeviceSamples_format g))
        | Raise e => (g, Raise e)
        end
      else (g, Ok (pos1, acc))
  | Raise e => (g, Raise e)
  end.
Proof.
  unfold get_analog_device. rewrite bind_lift.
  destruct (_get_exact RTAnalogDevice data pos) as [[pos1 device]|e]; [|done].
  cbn beta iota.
  destruct (Z.ltb_spec 0 (int_attr device "sample_count")) as [Hpos|Hnone];
    [|done].
  rewrite bind_lift.
  destruct (_get_exact RTSampleNumber data pos1) as [[pos2 sample_number]|e];
    [|done].
  cbn beta iota. rewrite bind_lift. unfold Struct_floats.
  destruct (Z.ltb_spec (int_attr device "sample_count") 0); [lia|].
  reflexivity.
Qed.

(** One turn of the device loop on a device laid out as [r] says. *)
Lemma analog_device_layout (data : bytes) (r : device_reading)
    (readings : list device_reading) (pos final : Z)
    (acc : list (ntuple * ntuple * ntuple)) (g : Globals) :
  analog_at data pos (r :: readings) final →
  ∃ g' pos',
    get_analog_device data (pos, acc) g =
      (g', Ok (pos', acc ++ reading_triples r))
    ∧ analog_at data pos' readings final.
Proof.
  intros Hat. simpl in Hat. destruct Hat as [Hdevice Hrest].
  rewrite get_analog_device_unfold, Hdevice. unfold reading_triples.
  destruct (0 <? int_attr (rd_device r) "sample_count") eqn:Hcount.
  - destruct (rd_sample_number r) as [sample_number|]; [|done].
    destruct Hrest as (Hnumber & Hlen & Hchannels & Hrest).
    rewrite Hnumber, <-Hlen.
    eexists _, _. split; [|exact Hrest].
    by apply channel_loop_layout.
  - destruct Hrest as (Hnone & _ & Hrest). rewrite Hnone.
    eexists _, _. split; [|exact Hrest]. by rewrite app_nil_r.
Qed.

(** The device loop over devices laid out as [readings] say. *)
Lemma analog_loop_layout (data : bytes) (readings : list device_reading)
    (final : Z) :
  ∀ i0 pos acc g,
    analog_at data pos readings final →
    ∃ g',
      for_range (length readings) i0 (λ _, get_analog_device data)
        (pos, acc) g =
      (g', Ok (final, acc ++ analog_collection readings)).
Proof.
  induction readings as [|r readings IH]; intros i0 pos acc g Hat.
  - simpl in Hat. subst final. exists g.
    unfold analog_collection. simpl. by rewrite app_nil_r.
  - destruct (analog_device_layout data r readings pos final acc g Hat)
      as (g1 & pos1 & Hturn & Hrest).
    destruct (IH (i0 + 1) pos1 (acc ++ reading_triples r) g1 Hrest)
      as (g' & Hloop).
    exists g'. simpl length. rewrite for_range_S, Hturn, Hloop.
    unfold analog_collection. simpl. by rewrite app_assoc.
Qed.

(** A turn of the device loop that succeeds has read a device laid out
    as some reading says. *)
Lemma analog_device_inv (data : bytes) (pos pos' : Z)
    (acc collection : list (ntuple * ntuple * ntuple)) (g g' : Globals) :
  get_analog_device data (pos, acc) g = (g', Ok (pos', collection)) →
  ∃ r,
    collection = acc ++ reading_triples r
    ∧ ∀ readings final,
        analog_at data pos' readings final →
        analog_at data pos (r :: readings) final.
Proof.
  rewrite get_analog_device_unfold.
  destruct (_get_exact RTAnalogDevice data pos) as [[pos1 device]|e]
    eqn:Hdevice; [|done].
  pose proof (_get_exact_position _ _ _ _ _ Hdevice) as Hpos1.
  change (format_size RTAnalogDevice) with 12 in Hpos1. subst pos1.
  destruct (0 <? int_attr device "sample_count") eqn:Hcount.
  - destruct (_get_exact RTSampleNumber data (pos + 12))
      as [[pos2 sample_number]|e] eqn:Hnumber; [|done].
    pose proof (_get_exact_position _ _ _ _ _ Hnumber) as Hpos2.
    change (format_size RTSampleNumber) with 4 in Hpos2.
    replace (pos + 12 + 4) with (pos + 16) in Hpos2 by lia. subst pos2.
    intros Hloop.
    apply (channel_loop_inv data device sample_number
             (int_attr device "sample_count")) in Hloop
      as (channels & Hlen & Hat & _ & -> & ->);
      [|done|apply Z.ltb_lt in Hcount; lia].
    exists (Reading device (Some sample_number) channels).
    split; [done|]. intros readings final Hrest. simpl.
    rewrite Hcount, Hlen. by repeat split.
  - intros [= <- <- <-]. exists (Reading device None []).
    split; [by rewrite app_nil_r|]. intros readings final Hrest. simpl.
    rewrite Hcount. by repeat split.
Qed.

Lemma analog_loop_inv (data : bytes) (n : nat) :
  ∀ i0 pos acc g g' final collection,
    for_range n i0 (λ _, get_analog_device data) (pos, acc) g =
      (g', Ok (final, collection)) →
    ∃ readings,
      length readings = n
      ∧ analog_at data pos readings final
      ∧ collection = acc ++ analog_collection readings.
Proof.
  induction n as [|n IH]; intros i0 pos acc g g' final collection.
  - intros [= <- <- <-]. exists []. unfold analog_collection. simpl.
    by rewrite app_nil_r.
  - rewrite for_range_S.
    destruct (get_analog_device data (pos, acc) g)
      as [g1 [[pos1 acc1]|e]] eqn:Hturn; [|done].
    apply analog_device_inv in Hturn as (r & -> & Hcons).
    intros Hloop. apply IH in Hloop as (readings & Hlen & Hat & ->).
    exists (r :: readings). unfold analog_collection. simpl.
    rewrite app_assoc. split; [lia|]. split; [by apply Hcons|done].
Qed.

(** C8. A device of the multi-sample analog component whose record reports
    [sample_count = 0] takes the 12 bytes of its device record and nothing
    else: no sample-number record and no channel array is read, nothing is
    appended to the collection, the channel format is not rebound, and the
    next device is decoded 12 bytes further. *)
Theorem analog_device_without_samples (data : bytes) (pos pos' : Z)
    (device : ntuple) (components : list (ntuple * ntuple * ntuple))
    (g : Globals) :
  _get_exact RTAnalogDevice data pos = Ok (pos', device) →
  int_attr device "sample_count" = 0 →
  pos' = pos + 12
  ∧ get_analog_device data (pos, components) g =
      (g, Ok (pos + 12, components))
  ∧ ∀ n i0,
      for_range (S n) i0 (λ _, get_analog_device data) (pos, components) g =
      for_range n (i0 + 1) (λ _, get_analog_device data)
                (pos + 12, components) g.
Proof.
  intros Hdevice Hcount.
  pose proof (_get_exact_position _ _ _ _ _ Hdevice) as Hpos'.
  change (format_size RTAnalogDevice) with 12 in Hpos'. subst pos'.
  assert (get_analog_device data (pos, components) g =
          (g, Ok (pos + 12, components))) as Hturn.
  { by rewrite get_analog_device_unfold, Hdevice, Hcount. }
  split; [done|]. split; [done|].
  intros n i0. by rewrite for_range_S, Hturn.
Qed.

Lemma analog_device_without_samples_witness :
  _get_exact RTAnalogDevice packet_analog 68 = Ok (80, sample_device 3 4 0)
  ∧ 80 = 68 + 12
  ∧ get_analog_device packet_analog (68, []) fresh = (fresh, Ok (68 + 12, []))
  ∧ ∀ n i0,
      for_range (S n) i0 (λ _, get_analog_device packet_analog) (68, []) fresh
      = for_range n (i0 + 1) (λ _, get_analog_device packet_analog)
                  (68 + 12, []) fresh.
Proof.
  split; [by vm_compute|].
  apply (analog_device_without_samples packet_analog 68 80
           (sample_device 3 4 0) [] fresh); by vm_compute.
Defined.

(** C10. The multi-sample analog decoding succeeds exactly when the
    buffer holds, from the offset behind the component header on,
    [device_count] devices laid out one after the other (device record,
    then for a positive sample count the sample-number record and one
    array of [sample_count] floats per channel), and its collection is
    then the flat sequence of the triples (device, sample number, channel)
    of all channels, in device order then channel order, with the device
    and sample-number records repeated in every triple of a device.  A
    device with a positive sample count and no channel takes its device
    and sample-number records, 16 bytes, and appends nothing. *)
Theorem analog_collection_flat (component_info : ntuple) (data : bytes)
    (pos : Z) (g : Globals) :
  (∀ final collection,
     (∃ g', get_analog_loop component_info data pos g =
              (g', Ok (final, collection)))
     ↔ ∃ readings,
         length readings = range (int_attr component_info "device_count")
         ∧ analog_at data pos readings final
         ∧ collection = analog_collection readings)
  ∧ (∀ device sample_number components,
       _get_exact RTAnalogDevice data pos = Ok (pos + 12, device) →
       0 < int_attr device "sample_count" →
       int_attr device "channel_count" = 0 →
       _get_exact RTSampleNumber data (pos + 12) =
         Ok (pos + 16, sample_number) →
       ∃ g', get_analog_device data (pos, components) g =
               (g', Ok (pos + 16, components))).
Proof.
  split.
  - intros final collection. unfold get_analog_loop. split.
    + intros [g' Hloop].
      apply analog_loop_inv in Hloop as (readings & Hlen & Hat & ->).
      by exists readings.
    + intros (readings & Hlen & Hat & ->). rewrite <-Hlen.
      destruct (analog_loop_layout data readings final 0 pos [] g Hat)
        as [g' Hloop].
      by exists g'.
  - intros device sample_number components Hdevice Hcount Hchannels Hnumber.
    rewrite get_analog_device_unfold, Hdevice.
    apply Z.ltb_lt in Hcount. rewrite Hcount, Hnumber, Hchannels.
    eexists. reflexivity.
Qed.

Lemma analog_collection_flat_witness :
  analog_at packet_analog 28 sample_readings 80
  ∧ (∃ g', get_analog_loop (Ntuple "RTAnalogComponent" ["device_count"]
                                   [PyInt 3]) packet_analog 28 fresh =
             (g', Ok (80, analog_collection sample_readings)))
  ∧ ∃ g', get_analog_device packet_analog (52, []) fresh =
            (g', Ok (52 + 16, [])).
Proof.
  split; [by vm_compute|].
  destruct (analog_collection_flat
              (Ntuple "RTAnalogComponent" ["device_count"] [PyInt 3])
              packet_analog 28 fresh) as [Hlayout _].
  destruct (analog_collection_flat
              (Ntuple "RTAnalogComponent" ["device_count"] [PyInt 3])
              packet_analog 52 fresh) as [_ Hdevice].
  split.
  - apply Hlayout. exists sample_readings.
    split; [reflexivity|]. split; [by vm_compute|reflexivity].
  - apply (Hdevice (sample_device 2 0 3) (sample_number_record 6) []).
    + by vm_compute.
    + by vm_compute.
    + by vm_compute.
    + by vm_compute.
Defined.

(** ** Independence of the module state *)

Lemma agree_ret {A : Type} (R : Globals → Globals → Prop) (a : A) :
  agree R (mret a).
Proof. by intros g1 g2 HR. Qed.

Lemma agree_lift {A : Type} (R : Globals → Globals → Prop) (r : result A) :
  agree R (lift r).
Proof. by intros g1 g2 HR. Qed.

Lemma agree_bind {A B : Type} (R : Globals → Globals → Prop)
    (m : M A) (k : A → M B) :
  agree R m → (∀ a, agree R (k a)) → agree R (m ≫= k).
Proof.
  intros Hm Hk g1 g2 HR. rewrite !bind_unfold.
  destruct (Hm g1 g2 HR) as [Hresult HQ].
  destruct (m g1) as [g1' [a1|e1]], (m g2) as [g2' [a2|e2]];
    simpl in *; simplify_eq; [by apply Hk|done].
Qed.

Lemma agree_for_range {S : Type} (R : Globals → Globals → Prop)
    (body : Z → S → M S) (n : nat) :
  (∀ i locals, agree R (body i locals)) →
  ∀ i0 locals, agree R (for_range n i0 body locals).
Proof.
  intros Hbody. induction n as [|n IH]; intros i0 locals.
  - apply agree_ret.
  - simpl for_range. apply agree_bind; [apply Hbody|].
    intros locals'. apply IH.
Qed.

Ltac agree_step :=
  first
    [ apply agree_ret
    | apply agree_lift
    | apply agree_for_range; intros ? [? ?]
    | apply agree_bind; [ | intros [? ?] ]
    | progress cbn beta iota
    | match goal with
      | |- context [if ?c then _ else _] => destruct c
      end ].

Lemma agree_get_analog_channel (data : bytes) (device sample_number : ntuple)
    (locals : Z * list (ntuple * ntuple * ntuple)) :
  agree same_channel_format
        (get_analog_channel data device sample_number locals).
Proof.
  destruct locals as [pos acc]. intros g1 g2 Hsame.
  rewrite !get_analog_channel_unfold. unfold RTAnalogChannel.
  rewrite Hsame.
  by destruct (_get_tuple _ data pos) as [[pos' channel]|e].
Qed.

Lemma agree_get_analog_device (data : bytes)
    (locals : Z * list (ntuple * ntuple * ntuple)) :
  agree any_states (get_analog_device data locals).
Proof.
  destruct locals as [pos acc]. intros g1 g2 _.
  rewrite !get_analog_device_unfold.
  destruct (_get_exact RTAnalogDevice data pos) as [[pos1 device]|e]; [|done].
  destruct (0 <? int_attr device "sample_count"); [|done].
  destruct (_get_exact RTSampleNumber data pos1) as [[pos2 sample_number]|e];
    [|done].
  split; [|done].
  by apply (agree_for_range same_channel_format
              (λ _, get_analog_channel data device sample_number) _
              (λ _, agree_get_analog_channel data device sample_number)).
Qed.

Lemma get_analog_single_device_unfold (data : bytes) (pos : Z)
    (acc : list (ntuple * ntuple)) (g : Globals) :
  get_analog_single_device data (pos, acc) g =
  match _get_exact RTAnalogDeviceSingle data pos with
  | Ok (pos1, device) =>
      match Struct_floats (int_attr device "channel_count") with
      | Ok fmt =>
          let g' := MkGlobals (RTAnalogChannel_format g) (Some fmt) in
          match _get_tuple (Namedtuple "RTAnalogDeviceSamples" ["samples"]
                                       (Some fmt)) data pos1 with
          | Ok (pos2, sample) => (g', Ok (pos2, acc ++ [(device, sample)]))
          | Raise e => (g', Raise e)
          end
      | Raise e => (g, Raise e)
      end
  | Raise e => (g, Raise e)
  end.
Proof.
  unfold get_analog_single_device. rewrite bind_lift.
  destruct (_get_exact RTAnalogDeviceSingle data pos) as [[pos1 device]|e];
    [|done].
  cbn beta iota. rewrite bind_lift.
  destruct (Struct_floats _) as [fmt|e]; [|done].
  unfold mbind, M_bind, set_RTAnalogDeviceSamples_format, get_globals, lift,
    RTAnalogDeviceSamples. simpl.
  by destruct (_get_tuple _ data pos1) as [[pos2 sample]|e].
Qed.

Lemma agree_get_analog_single_device (data : bytes)
    (locals : Z * list (ntuple * ntuple)) :
  agree any_states (get_analog_single_device data locals).
Proof.
  destruct locals as [pos acc]. intros g1 g2 _.
  rewrite !get_analog_single_device_unfold.
  destruct (_get_exact RTAnalogDeviceSingle data pos) as [[pos1 device]|e];
    [|done].
  destruct (Struct_floats _) as [fmt|e]; [|done]. cbn zeta.
  by destruct (_get_tuple _ data pos1) as [[pos2 sample]|e].
Qed.

(** No decoding loop depends on the module state it is started in. *)
Lemma agree_decode_loop (a : accessor) (info : ntuple) (data : bytes)
    (pos : Z) :
  agree any_states (decode_loop a info data pos).
Proof.
  destruct a as [| | | | | | | | | | | | |i|i|];
    unfold decode_loop, get_analog_loop, get_analog_single_loop,
      get_force_loop, get_force_single_loop, get_6d_loop,
      get_6d_residual_loop, get_6d_euler_loop, get_6d_euler_residual_loop,
      get_image_loop, _get_3d_markers_loop, _get_2d_markers_loop,
      get_skeletons_loop;
    try (apply agree_for_range; intros ? ?;
         first [apply agree_get_analog_device
               |apply agree_get_analog_single_device]);
    unfold _get_2d_camera, _get_2d_marker;
    repeat agree_step.
Qed.

Lemma call_agree (a : accessor) (pkt : QRTPacket) (g1 g2 : Globals) :
  (call a pkt g1).2 = (call a pkt g2).2.
Proof.
  rewrite !call_unfold.
  destruct (components pkt !! kind_of a) as [pos|]; [|done].
  destruct (_get_exact (header_of a) (data pkt) pos) as [[pos' info]|e];
    [|done].
  destruct (agree_decode_loop a info (data pkt) pos' g1 g2 I) as [Hresult _].
  destruct (decode_loop a info (data pkt) pos' g1) as [g1' [[final1 c1]|e1]],
           (decode_loop a info (data pkt) pos' g2) as [g2' [[final2 c2]|e2]];
    simpl in *; by simplify_eq.
Qed.

Lemma call_all_agree (pkt : QRTPacket) (accessors : list accessor) :
  ∀ g1 g2, (call_all pkt accessors g1).2 = (call_all pkt accessors g2).2.
Proof.
  induction accessors as [|a accessors IH]; intros g1 g2; [done|].
  simpl. pose proof (call_agree a pkt g1 g2) as Hcall.
  destruct (call a pkt g1) as [g1' r1], (call a pkt g2) as [g2' r2].
  simpl in Hcall. subst r2. specialize (IH g1' g2').
  destruct (call_all pkt accessors g1') as [g1'' outcomes1],
           (call_all pkt accessors g2') as [g2'' outcomes2].
  simpl in *. by subst.
Qed.

(** Header construction neither reads nor writes the module state. *)
Lemma init_stateless (data : bytes) (g : Globals) :
  QRTPacket_init data g = (g, (QRTPacket_init data fresh).2).
Proof.
  unfold QRTPacket_init. rewrite !bind_lift.
  destruct (unpack_from RTDataQRTPacket data 0) as [header|]; [|done].
  destruct header as [|[ts| | |] [|[fn| | |] [|[cc| | |] [|]]]]; try done.
  rewrite !bind_unfold.
  assert (∀ n i0 locals,
            for_range n i0 (λ _, scan_component data) locals g =
            (g, (for_range n i0 (λ _, scan_component data) locals fresh).2))
    as Hloop.
  { induction n as [|n IH]; intros i0 [pos components]; [done|].
    rewrite !for_range_S.
    assert (scan_component data (pos, components) g =
            (g, (scan_component data (pos, components) fresh).2)) as ->.
    { unfold scan_component. rewrite !bind_lift.
      destruct (unpack_from RTComponentData data pos) as [entry|]; [|done].
      destruct entry as [|[c_size| | |] [|[c_type| | |] [|]]]; try done.
      rewrite !bind_lift. by destruct (QRTComponentType_of c_type). }
    pose proof (scan_component_state data (pos, components) fresh) as Hstate.
    destruct (scan_component data (pos, components) fresh)
      as [g1 [locals1|e]]; simpl in *; subst; [apply IH|done]. }
  unfold scan_components. rewrite Hloop.
  pose proof (scan_loop_state data (range cc) 0
                (calcsize RTDataQRTPacket, ∅) fresh) as Hstate.
  destruct (for_range _ _ _ _ fresh) as [g1 [[final components]|e]];
    simpl in *; by subst.
Qed.

(** C9. What decoding a buffer gives, the packet object and the outcome of
    every accessor call, in any order and number, is the same whatever the
    module state it starts in: it is a function of the buffer and of the
    calls alone.  In particular it is the same after any earlier decoding
    has rebound the format of [RTAnalogChannel] or of
    [RTAnalogDeviceSamples], so that decoding a buffer twice gives the
    same twice. *)
Theorem decode_deterministic (data : bytes) (accessors : list accessor)
    (g g' : Globals) :
  (decode data accessors g).2 = (decode data accessors g').2.
Proof.
  unfold decode. rewrite (init_stateless data g), (init_stateless data g').
  destruct (QRTPacket_init data fresh).2 as [pkt|e]; [|done].
  pose proof (call_all_agree pkt accessors g g') as Hall.
  destruct (call_all pkt accessors g) as [g1 outcomes1],
           (call_all pkt accessors g') as [g2 outcomes2].
  simpl in *. by subst.
Qed.

(** ** Images *)

(** C1 (what the code does on two packets). In [packet_image] the only
    image declares [image_size = 2] and is followed by the two bytes 170
    and 187; [get_image] returns the one-byte payload [170], the buffer
    from behind the image record to its last byte but one.  In
    [packet_two_images] the payload returned for the first image runs
    over the whole second image, 38 bytes, and the second image record is
    unpacked from offset 64, where the first payload starts, not from
    offset 66: its [id] reads 179114 instead of 2. *)
Theorem get_image_ignores_image_size :
  QRTPacket_init packet_image fresh =
    (fresh, Ok (sample_image_packet packet_image))
  ∧ int_attr sample_image_info "image_size" = 2
  ∧ slice packet_image 64 (64 + 2) = octets [170; 187]
  ∧ get_image (sample_image_packet packet_image) fresh =
      (fresh, Ok (Some (sample_image_component 1,
                        [(sample_image_info, octets [170])])))
  ∧ QRTPacket_init packet_two_images fresh =
      (fresh, Ok (sample_image_packet packet_two_images))
  ∧ _get_exact RTImage packet_two_images 66 =
      Ok (102, Ntuple "RTImage" (nt_fields sample_image_info)
                 [PyInt 2; PyInt 0; PyInt 2; PyInt 1; PyFloat 0; PyFloat 0;
                  PyFloat 0; PyFloat 0; PyInt 1])
  ∧ ∃ payload second second_payload,
      get_image (sample_image_packet packet_two_images) fresh =
        (fresh, Ok (Some (sample_image_component 2,
                          [(sample_image_info, payload);
                           (second, second_payload)])))
      ∧ length payload = 38%nat
      ∧ _get_exact RTImage packet_two_images 64 = Ok (100, second)
      ∧ int_attr second "id" = 179114.
Proof.
  do 6 (split; [by vm_compute|]).
  eexists _, _, _. split; [by vm_compute|]. repeat split; by vm_compute.
Qed.

(* ===================================================================== *)
(** * Further properties *)
(* ===================================================================== *)

(** ** More on header construction *)

Lemma unpack_from_fits (s : Struct) (data : bytes) (pos : Z)
    (items : list pyval) :
  0 ≤ pos → unpack_from s data pos = Ok items → pos + calcsize s ≤ len data.
Proof.
  intros Hpos. unfold unpack_from.
  destruct (Z.ltb_spec pos 0); [lia|].
  destruct (Z.ltb_spec (len data - pos) (calcsize s)); [done|lia].
Qed.

Lemma format_size_nonneg (cls : namedtuple) : 0 ≤ format_size cls.
Proof.
  unfold format_size. destruct (format cls); [apply calcsize_nonneg|lia].
Qed.

Lemma unpack_from_items (s : Struct) (data : bytes) (pos : Z)
    (items : list pyval) :
  0 ≤ pos → unpack_from s data pos = Ok items →
  items = unpack s (drop (Z.to_nat pos) data).
Proof.
  intros Hpos. unfold unpack_from.
  destruct (Z.ltb_spec pos 0); [lia|].
  destruct (len data - pos <? calcsize s); [done|]. by intros [= <-].
Qed.

Lemma le_unsigned_bound (bs : bytes) : le_unsigned bs < 2 ^ (8 * len bs).
Proof.
  unfold len. induction bs as [|b bs IH]; simpl le_unsigned; [done|].
  pose proof (Byte.to_N_bounded b) as Hb. apply N2Z.inj_le in Hb.
  simpl length. rewrite Nat2Z.inj_succ.
  replace (8 * Z.succ (Z.of_nat (length bs)))
    with (8 + 8 * Z.of_nat (length bs)) by lia.
  rewrite Z.pow_add_r by lia. change (2 ^ 8) with 256.
  change (Z.of_N 255) with 255 in Hb. lia.
Qed.

Lemma le_signed_range (bs : bytes) :
  0 < len bs →
  - 2 ^ (8 * len bs - 1) ≤ le_signed bs < 2 ^ (8 * len bs - 1).
Proof.
  intros Hlen. unfold le_signed.
  pose proof (le_unsigned_nonneg bs). pose proof (le_unsigned_bound bs).
  assert (2 ^ (8 * len bs) = 2 * 2 ^ (8 * len bs - 1)) as Hpow.
  { rewrite <-Z.pow_succ_r by lia. f_equal. lia. }
  destruct (Z.ltb_spec (le_unsigned bs) (2 ^ (8 * len bs - 1))); lia.
Qed.

(** A directory loop that succeeds has read that many entries. *)
Lemma scan_loop_inv (data : bytes) (n : nat) :
  ∀ i0 pos components g g' final components',
    for_range n i0 (λ _, scan_component data) (pos, components) g =
      (g', Ok (final, components')) →
    ∃ entries,
      length entries = n
      ∧ directory_at data pos entries
      ∧ g' = g
      ∧ final = pos + total_size entries
      ∧ components' =
          foldl (λ m e, <[entry_kind e := entry_offset e + 8]> m)
                components entries.
Proof.
  induction n as [|n IH]; intros i0 pos components g g' final components'.
  - intros [= <- <- <-]. exists []. simpl. repeat split; try done; lia.
  - rewrite for_range_S.
    destruct (scan_component data (pos, components) g)
      as [g1 [[p1 components1]|e]] eqn:Hturn; [|done].
    apply scan_component_inv in Hturn
      as (c_size & kind & Hread & Hsize & -> & -> & ->).
    intros Hloop.
    apply IH in Hloop as (entries & Hlen & Hdir & -> & -> & ->).
    exists (Entry pos c_size kind :: entries). simpl.
    repeat split; try done; lia.
Qed.

(** Readable entries lie within the buffer, behind where the walk starts. *)
Lemma directory_at_bounds (data : bytes) (entries : list entry) :
  ∀ pos, 0 ≤ pos → directory_at data pos entries →
    Forall (λ e, pos ≤ entry_offset e ∧ entry_offset e + 8 ≤ len data) entries.
Proof.
  induction entries as [|e entries IH]; intros pos Hpos Hdir; [done|].
  destruct Hdir as (Hoff & Hread & Hrest).
  pose proof (unpack_from_fits _ _ _ _ Hpos Hread) as Hfit.
  change (calcsize RTComponentData) with 8 in Hfit.
  apply unpack_from_RTComponentData in Hread as (s & t & [= <- _] & Hs).
  apply Forall_cons_2; [lia|].
  specialize (IH (pos + entry_size e) ltac:(lia) Hrest).
  eapply Forall_impl; [|exact IH].
  simpl. intros e' [? ?]. lia.
Qed.

Lemma last_payload_offset_elem (kind : QRTComponentType)
    (entries : list entry) (offset : Z) :
  last_payload_offset kind entries = Some offset →
  ∃ e, e ∈ entries ∧ entry_kind e = kind ∧ offset = entry_offset e + 8.
Proof.
  induction entries as [|e entries IH]; simpl; [done|].
  destruct (last_payload_offset kind entries) as [o|].
  - intros [= <-]. destruct (IH eq_refl) as (e' & Hin & Hk & Ho).
    exists e'. split; [by apply list_elem_of_further|done].
  - destruct (decide (entry_kind e = kind)); [|done].
    intros [= <-]. exists e. split; [apply list_elem_of_here|done].
Qed.

(** What a successful header construction has read. *)
Lemma init_inv (data : bytes) (g g' : Globals) (pkt : QRTPacket) :
  QRTPacket_init data g = (g', Ok pkt) →
  ∃ cc entries,
    unpack_from RTDataQRTPacket data 0 =
      Ok [PyInt (timestamp pkt); PyInt (framenumber pkt); PyInt cc]
    ∧ length entries = range cc
    ∧ directory_at data 16 entries
    ∧ g' = g
    ∧ pkt = MkQRTPacket data (timestamp pkt) (framenumber pkt)
              (foldl (λ m e, <[entry_kind e := entry_offset e + 8]> m)
                     ∅ entries).
Proof.
  unfold QRTPacket_init. rewrite bind_lift.
  destruct (unpack_from RTDataQRTPacket data 0) as [header|]; [|done].
  destruct header as [|[ts| | |] [|[fn| | |] [|[cc| | |] [|]]]]; try done.
  rewrite bind_unfold. unfold scan_components.
  destruct (for_range _ _ _ _ g) as [g1 [[final components1]|e]] eqn:Hloop;
    [|done].
  apply scan_loop_inv in Hloop as (entries & Hlen & Hdir & -> & _ & ->).
  intros [= <- <-]. by exists cc, entries.
Qed.

(** X1. Header construction succeeds exactly on the buffers whose 16-byte
    header is readable and whose [component_count] directory entries,
    each found where the declared size of the previous one ends, are
    readable and carry the value of a member of [QRTComponentType]; the
    packet object then holds the buffer itself, the timestamp and frame
    number of the header, and for every kind the offset behind its last
    entry.  The module state is left as it was. *)
Theorem header_construction_iff (buffer : bytes) (g g' : Globals)
    (pkt : QRTPacket) :
  QRTPacket_init buffer g = (g', Ok pkt) ↔
  g' = g ∧ data pkt = buffer
  ∧ ∃ cc entries,
      unpack_from RTDataQRTPacket buffer 0 =
        Ok [PyInt (timestamp pkt); PyInt (framenumber pkt); PyInt cc]
      ∧ length entries = range cc
      ∧ directory_at buffer 16 entries
      ∧ ∀ kind, components pkt !! kind = last_payload_offset kind entries.
Proof.
  split.
  - intros Hinit.
    destruct (init_inv _ _ _ _ Hinit)
      as (cc & entries & Hheader & Hlen & Hdir & -> & Hpkt).
    split; [done|]. split; [by rewrite Hpkt|].
    exists cc, entries. repeat split; try done.
    intros kind. rewrite Hpkt. simpl.
    rewrite lookup_foldl_insert, lookup_empty.
    by destruct (last_payload_offset kind entries).
  - intros (-> & Hdata & cc & entries & Hheader & Hlen & Hdir & Hlookup).
    unfold QRTPacket_init. rewrite bind_lift, Hheader. cbn beta iota.
    rewrite bind_unfold. unfold scan_components.
    change (calcsize RTDataQRTPacket) with 16.
    rewrite (scan_entries buffer entries) by (done || lia).
    rewrite Hlen, Nat.sub_diag. simpl.
    destruct pkt as [d ts fn components]. simpl in *. subst d.
    assert (components =
            foldl (λ m e, <[entry_kind e := entry_offset e + 8]> m) ∅ entries)
      as ->; [|done].
    apply map_eq. intros kind.
    rewrite Hlookup, lookup_foldl_insert, lookup_empty.
    by destruct (last_payload_offset kind entries).
Qed.

(** X2. A directory entry whose type tag is not the value of a member of
    [QRTComponentType] (1 to 18) makes header construction raise
    [ValueError], when the entries before it are readable and of known
    kinds. *)
Theorem unknown_kind_raises (data : bytes) (g : Globals) (ts fn cc : Z)
    (entries : list entry) (c_size c_type : Z) :
  unpack_from RTDataQRTPacket data 0 = Ok [PyInt ts; PyInt fn; PyInt cc] →
  directory_at data 16 entries →
  (length entries < range cc)%nat →
  unpack_from RTComponentData data (16 + total_size entries) =
    Ok [PyInt c_size; PyInt c_type] →
  ¬ (1 ≤ c_type ≤ 18) →
  QRTPacket_init data g = (g, Raise ValueError).
Proof.
  intros Hheader Hdir Hcount Hread Htag.
  unfold QRTPacket_init. rewrite bind_lift, Hheader. cbn beta iota.
  rewrite bind_unfold. unfold scan_components.
  change (calcsize RTDataQRTPacket) with 16.
  rewrite (scan_entries data entries) by (done || lia).
  destruct (range cc - length entries)%nat as [|n] eqn:Hn; [lia|].
  rewrite for_range_S. unfold scan_component at 1.
  rewrite bind_lift, Hread. cbn beta iota. rewrite bind_lift.
  destruct (QRTComponentType_of c_type) as [kind|e] eqn:Hkind.
  - apply QRTComponentType_of_inv in Hkind. subst c_type.
    exfalso. apply Htag. by destruct kind.
  - unfold QRTComponentType_of in Hkind.
    destruct (find _ _); [done|]. by injection Hkind as <-.
Qed.

Lemma unknown_kind_raises_witness :
  unpack_from RTComponentData packet_unknown_kind 16 =
    Ok [PyInt 12; PyInt 99]
  ∧ QRTPacket_init packet_unknown_kind fresh = (fresh, Raise ValueError).
Proof.
  split; [by vm_compute|].
  apply (unknown_kind_raises packet_unknown_kind fresh 0 7 1 [] 12 99).
  - by vm_compute.
  - by vm_compute.
  - vm_compute. lia.
  - by vm_compute.
  - lia.
Defined.

(** X3. Every offset that header construction records lies within the
    buffer, behind the packet header and the 8 bytes of its own entry:
    between 24 and the length of the buffer. *)
Theorem directory_offsets_in_buffer (data : bytes) (g g' : Globals)
    (pkt : QRTPacket) (kind : QRTComponentType) (offset : Z) :
  QRTPacket_init data g = (g', Ok pkt) →
  components pkt !! kind = Some offset →
  24 ≤ offset ≤ len data.
Proof.
  intros Hinit Hlookup.
  destruct (init_inv _ _ _ _ Hinit)
    as (cc & entries & _ & _ & Hdir & _ & Hpkt).
  rewrite Hpkt in Hlookup. simpl in Hlookup.
  rewrite lookup_foldl_insert, lookup_empty in Hlookup.
  destruct (last_payload_offset kind entries) as [o|] eqn:Hlast; [|done].
  injection Hlookup as ->.
  apply last_payload_offset_elem in Hlast as (e & Hin & _ & ->).
  pose proof (directory_at_bounds data entries 16 ltac:(lia) Hdir) as Hall.
  rewrite Forall_forall in Hall. apply list_elem_of_In in Hin.
  specialize (Hall e Hin). lia.
Qed.

Lemma directory_offsets_in_buffer_witness :
  QRTPacket_init packet_3d fresh =
    (fresh, Ok (MkQRTPacket packet_3d 0 7 {[ Component3d := 24 ]}))
  ∧ 24 ≤ 24 ≤ len packet_3d.
Proof.
  split; [by vm_compute|].
  apply (directory_offsets_in_buffer packet_3d fresh fresh
           (MkQRTPacket packet_3d 0 7 {[ Component3d := 24 ]}) Component3d).
  - by vm_compute.
  - by vm_compute.
Defined.

(** X4. A buffer of fewer than 16 bytes, the empty one included, makes
    header construction raise [struct.error]; and on a packet object that
    was constructed, the timestamp is a signed 64-bit and the frame number
    an unsigned 32-bit integer. *)
Theorem header_fields (data : bytes) (g : Globals) :
  (len data < 16 → QRTPacket_init data g = (g, Raise struct_error))
  ∧ ∀ g' pkt,
      QRTPacket_init data g = (g', Ok pkt) →
      16 ≤ len data
      ∧ - 2 ^ 63 ≤ timestamp pkt < 2 ^ 63
      ∧ 0 ≤ framenumber pkt < 2 ^ 32.
Proof.
  split.
  - intros Hshort. unfold QRTPacket_init.
    by rewrite bind_lift, (unpack_from_short _ data 0)
      by (change (calcsize RTDataQRTPacket) with 16; lia).
  - intros g' pkt Hinit.
    destruct (init_inv _ _ _ _ Hinit) as (cc & entries & Hheader & _).
    pose proof (unpack_from_fits _ _ 0 _ ltac:(lia) Hheader) as Hfit.
    change (calcsize RTDataQRTPacket) with 16 in Hfit. split; [lia|].
    apply unpack_from_items in Hheader; [|lia].
    change (Z.to_nat 0) with 0%nat in Hheader. rewrite drop_0 in Hheader.
    injection Hheader as Hts Hfn _.
    change (Z.to_nat (fchar_size fmt_q)) with 8%nat in *.
    change (Z.to_nat (fchar_size fmt_I)) with 4%nat in *.
    assert (∀ n bs, (n ≤ length bs)%nat → len (take n bs) = Z.of_nat n)
      as Htake.
    { intros n bs Hn. unfold len. rewrite length_take. lia. }
    assert (16 ≤ length data)%nat as Hlen by (unfold len in Hfit; lia).
    split.
    + rewrite Hts.
      pose proof (le_signed_range (take 8 data)) as Hrange.
      rewrite (Htake 8%nat) in Hrange by lia. apply Hrange. lia.
    + rewrite Hfn.
      pose proof (le_unsigned_nonneg (take 4 (drop 8 data))).
      pose proof (le_unsigned_bound (take 4 (drop 8 data))) as Hbound.
      rewrite (Htake 4%nat) in Hbound by (rewrite length_drop; lia).
      split; [done|]. exact Hbound.
Qed.

Lemma header_fields_witness :
  len ([] : bytes) < 16
  ∧ QRTPacket_init [] fresh = (fresh, Raise struct_error).
Proof.
  split; [by vm_compute|].
  apply (header_fields [] fresh). by vm_compute.
Defined.

(** ** Reading records of a fixed size *)

Lemma unpack_length (s : Struct) : ∀ bs, length (unpack s bs) = length s.
Proof. induction s as [|c s IH]; intros bs; simpl; [done|]. by rewrite IH. Qed.

Lemma reads_get_exact (cls : namedtuple) (data : bytes) (pos : Z) :
  matches_fields cls = true → 0 ≤ pos →
  reads (len data) (format_size cls) pos
        (λ v, nt_type v = typename cls ∧ nt_fields v = field_names cls
              ∧ length (nt_items v) = length (field_names cls))
        (lift (_get_exact cls data pos)).
Proof.
  unfold matches_fields, format_size, lift, _get_exact, get_format.
  destruct (format cls) as [s|]; [|done]. intros Hfields Hpos g.
  apply bool_decide_eq_true in Hfields. simpl. split.
  - intros Hfit. unfold unpack_from.
    destruct (Z.ltb_spec pos 0); [lia|].
    destruct (Z.ltb_spec (len data - pos) (calcsize s)); [lia|].
    simpl. unfold _make. rewrite unpack_length.
    destruct (decide (length s = length (field_names cls))); [|done].
    simpl. eexists. split; [done|]. simpl. by rewrite unpack_length.
  - intros Hshort. by rewrite unpack_from_short.
Qed.

Lemma reads_get_tuple (cls : namedtuple) (data : bytes) (pos : Z) (s : Struct) :
  format cls = Some s → length (field_names cls) = 1%nat → 0 ≤ pos →
  reads (len data) (calcsize s) pos
        (λ v, ∃ items, nt_items v = [PyTuple items] ∧ length items = length s)
        (lift (_get_tuple cls data pos)).
Proof.
  unfold lift, _get_tuple, get_format. intros -> Hfields Hpos g.
  simpl. split.
  - intros Hfit. unfold unpack_from.
    destruct (Z.ltb_spec pos 0); [lia|].
    destruct (Z.ltb_spec (len data - pos) (calcsize s)); [lia|].
    simpl. unfold _make. simpl.
    destruct (decide (1%nat = length (field_names cls))); [|done].
    simpl. eexists. split; [done|]. simpl. eexists. split; [done|].
    apply unpack_length.
  - intros Hshort. by rewrite unpack_from_short.
Qed.

Lemma reads_weaken {A : Type} (L k pos : Z) (Q Q' : A → Prop)
    (m : M (Z * A)) :
  (∀ x, Q x → Q' x) → reads L k pos Q m → reads L k pos Q' m.
Proof.
  intros HQ Hm g. destruct (Hm g) as [Hok Hraise]. split; [|done].
  intros Hfit. destruct (Hok Hfit) as (x & Hx & Hq). eauto.
Qed.

(** Two steps in a row. *)
Lemma reads_bind {A B : Type} (L k1 k2 k pos : Z) (Q1 : A → Prop)
    (Q : B → Prop) (m : M (Z * A)) (kont : Z * A → M (Z * B)) :
  reads L k1 pos Q1 m →
  (∀ x, Q1 x → reads L k2 (pos + k1) Q (kont (pos + k1, x))) →
  0 ≤ k2 → k = k1 + k2 →
  reads L k pos Q (m ≫= kont).
Proof.
  intros Hm Hkont Hk2 -> g. rewrite bind_unfold.
  destruct (Hm g) as [Hok Hraise]. split.
  - intros Hfit. destruct (Hok ltac:(lia)) as (x & -> & Hq1).
    destruct (Hkont x Hq1 g) as [Hok2 _].
    destruct (Hok2 ltac:(lia)) as (y & -> & Hq). exists y.
    split; [|done]. do 3 f_equal. lia.
  - intros Hshort. destruct (decide (pos + k1 ≤ L)) as [Hfit|Hcross].
    + destruct (Hok Hfit) as (x & -> & Hq1).
      destruct (Hkont x Hq1 g) as [_ Hraise2]. apply Hraise2. lia.
    + by rewrite Hraise by lia.
Qed.

(** A step followed by code that reads nothing. *)
Lemma reads_then {A B : Type} (L k pos : Z) (Q1 : A → Prop) (Q : B → Prop)
    (m : M (Z * A)) (kont : Z * A → M (Z * B)) :
  reads L k pos Q1 m →
  (∀ p x g, Q1 x → ∃ y, kont (p, x) g = (g, Ok (p, y)) ∧ Q y) →
  reads L k pos Q (m ≫= kont).
Proof.
  intros Hm Hkont g. rewrite bind_unfold.
  destruct (Hm g) as [Hok Hraise]. split.
  - intros Hfit. destruct (Hok Hfit) as (x & -> & Hq1).
    destruct (Hkont (pos + k) x g Hq1) as (y & -> & Hq). by exists y.
  - intros Hshort. by rewrite Hraise.
Qed.

(** A loop over elements of [k] bytes each. *)
Lemma reads_for_range {A : Type} (L k : Z)
    (body : Z → Z * list A → M (Z * list A)) :
  (∀ i pos acc, 0 ≤ pos →
     reads L k pos (λ acc', length acc' = S (length acc))
           (body i (pos, acc))) →
  0 ≤ k →
  ∀ n i0 pos acc, 0 ≤ pos ≤ L →
    reads L (Z.of_nat n * k) pos
          (λ acc', length acc' = (length acc + n)%nat)
          (for_range n i0 body (pos, acc)).
Proof.
  intros Hbody Hk. induction n as [|n IH]; intros i0 pos acc Hpos g.
  - simpl for_range. rewrite ret_unfold. split; [|lia].
    intros _. exists acc. split; [do 3 f_equal; lia|lia].
  - rewrite for_range_S.
    destruct (Hbody i0 pos acc ltac:(lia) g) as [Hok Hraise]. split.
    + intros Hfit. destruct (Hok ltac:(nia)) as (acc1 & -> & Hlen1).
      destruct (IH (i0 + 1) (pos + k) acc1 ltac:(nia) g) as [Hok2 _].
      destruct (Hok2 ltac:(nia)) as (acc2 & -> & Hlen2).
      exists acc2. split; [do 3 f_equal; nia|lia].
    + intros Hshort. destruct (decide (pos + k ≤ L)) as [Hfit|Hcross].
      * destruct (Hok Hfit) as (acc1 & -> & Hlen1).
        destruct (IH (i0 + 1) (pos + k) acc1 ltac:(nia) g) as [_ Hraise2].
        apply Hraise2. nia.
      * by rewrite Hraise by lia.
Qed.

Ltac read_one :=
  first
    [ apply reads_get_exact; [reflexivity | unfold format_size; simpl; lia]
    | eapply reads_get_tuple;
        [reflexivity | reflexivity | unfold format_size; simpl; lia] ].

Ltac reads_body :=
  cbn beta iota;
  first
    [ eapply reads_then;
        [ read_one
        | intros ? ? ? _; eexists; split;
            [reflexivity | rewrite length_app; simpl; lia] ]
    | eapply reads_bind;
        [ read_one | intros ? _; reads_body | by vm_compute | reflexivity ] ].

(** X6. The accessors whose elements have a fixed size (the 3D and 6D
    families, [get_force_single] and [get_image]) decode, from an offset
    within the buffer, exactly when the buffer holds count times the
    element size more bytes, where a negative count stands for 0; they
    then return that many elements and end that many bytes further, and
    they raise [struct.error] otherwise.  The module state is left
    alone. *)
Theorem fixed_size_elements (a : accessor) (info : ntuple) (data : bytes)
    (pos k : Z) (g : Globals) :
  stride a = Some k → 0 ≤ pos ≤ len data →
  (pos + Z.of_nat (range (int_attr info (count_field a))) * k ≤ len data →
   ∃ collection,
     decode_loop a info data pos g =
       (g, Ok (pos + Z.of_nat (range (int_attr info (count_field a))) * k,
               collection))
     ∧ element_count a collection = range (int_attr info (count_field a)))
  ∧ (len data < pos + Z.of_nat (range (int_attr info (count_field a))) * k →
     decode_loop a info data pos g = (g, Raise struct_error)).
Proof.
  intros Hstride Hpos.
  cut (reads (len data)
             (Z.of_nat (range (int_attr info (count_field a))) * k) pos
             (λ c, element_count a c = range (int_attr info (count_field a)))
             (decode_loop a info data pos)).
  { intros Hreads. apply Hreads. }
  destruct a; try discriminate Hstride; injection Hstride as <-;
    unfold decode_loop, count_field, element_count, get_force_single_loop,
      get_6d_loop, get_6d_residual_loop, get_6d_euler_loop,
      get_6d_euler_residual_loop, get_image_loop, _get_3d_markers_loop;
    (eapply reads_weaken;
     [|apply reads_for_range; [|by vm_compute|done]]; [by simpl|]);
    intros i p acc Hp; reads_body.
Qed.

Lemma fixed_size_elements_witness :
  0 ≤ 32 ≤ len packet_3d
  ∧ (∃ collection,
       decode_loop acc_3d_markers
         (Ntuple "RT3DComponent" ["marker_count"] [PyInt 1]) packet_3d 32
         fresh = (fresh, Ok (32 + 1 * 12, collection))
       ∧ length collection = 1%nat)
  ∧ decode_loop acc_3d_markers
      (Ntuple "RT3DComponent" ["marker_count"] [PyInt 2]) packet_3d 32 fresh
    = (fresh, Raise struct_error).
Proof.
  split; [by vm_compute|].
  destruct (fixed_size_elements acc_3d_markers
              (Ntuple "RT3DComponent" ["marker_count"] [PyInt 1])
              packet_3d 32 12 fresh eq_refl ltac:(by vm_compute))
    as [Hok _].
  destruct (fixed_size_elements acc_3d_markers
              (Ntuple "RT3DComponent" ["marker_count"] [PyInt 2])
              packet_3d 32 12 fresh eq_refl ltac:(by vm_compute))
    as [_ Hraise].
  split.
  - apply Hok. by vm_compute.
  - apply Hraise. by vm_compute.
Defined.

(** [_get_exact] on a class whose format unpacks another number of items
    than the class has fields. *)
Lemma _get_exact_arity (cls : namedtuple) (data : bytes) (pos : Z) :
  format cls ≠ None → matches_fields cls = false → 0 ≤ pos →
  pos + format_size cls ≤ len data →
  _get_exact cls data pos = Raise TypeError.
Proof.
  unfold matches_fields, format_size, _get_exact, get_format.
  destruct (format cls) as [s|]; [|done]. intros _ Hfields Hpos Hfit.
  apply bool_decide_eq_false in Hfields. simpl. unfold unpack_from.
  destruct (Z.ltb_spec pos 0); [lia|].
  destruct (Z.ltb_spec (len data - pos) (calcsize s)); [lia|].
  simpl. unfold _make. rewrite unpack_length.
  by destruct (decide (length s = length (field_names cls))).
Qed.

(** X5. On every record class of the module with a format of its own,
    [_get_exact] at an offset that is not negative raises [struct.error]
    when the buffer holds fewer than [format.size] bytes from that offset
    on.  When it holds them, [_get_exact] returns the offset moved by that
    size and an instance of the class with one item per field, for every
    class but [RT6DBodyRotation]: the format of that class unpacks nine
    items for its one field, and [_get_exact] raises [TypeError]. *)
Theorem get_exact_record (cls : namedtuple) (data : bytes) (pos : Z) :
  cls ∈ record_classes → 0 ≤ pos →
  (pos + format_size cls ≤ len data → cls ≠ RT6DBodyRotation →
   ∃ value,
     _get_exact cls data pos = Ok (pos + format_size cls, value)
     ∧ nt_type value = typename cls
     ∧ nt_fields value = field_names cls
     ∧ length (nt_items value) = length (field_names cls))
  ∧ (pos + format_size cls ≤ len data → cls = RT6DBodyRotation →
     _get_exact cls data pos = Raise TypeError)
  ∧ (len data < pos + format_size cls →
     _get_exact cls data pos = Raise struct_error).
Proof.
  intros Hcls Hpos.
  assert (format cls ≠ None
          ∧ (matches_fields cls = true ∨ cls = RT6DBodyRotation)) as [Hfmt Hcase].
  { assert (Forall (λ c, format c ≠ None
                         ∧ (matches_fields c = true ∨ c = RT6DBodyRotation))
                   record_classes) as Hall.
    { unfold record_classes.
      repeat (apply Forall_cons_2;
              [split; [done|first [by left|by right]]|]).
      apply Forall_nil_2. }
    rewrite Forall_forall in Hall. apply Hall. by apply list_elem_of_In. }
  split; [|split].
  - intros Hfit Hother. destruct Hcase as [Hfields|]; [|done].
    destruct (reads_get_exact cls data pos Hfields Hpos fresh) as [Hok _].
    unfold lift in Hok. destruct (Hok Hfit) as (v & [= Hv] & Hq).
    by exists v.
  - intros Hfit ->. by apply _get_exact_arity.
  - intros Hshort. unfold _get_exact, get_format, format_size in *.
    destruct (format cls) as [s|]; [|done]. simpl.
    by rewrite unpack_from_short.
Qed.

Lemma get_exact_record_witness :
  RT3DMarkerPosition ∈ record_classes
  ∧ RT6DBodyRotation ∈ record_classes
  ∧ (∃ value,
       _get_exact RT3DMarkerPosition packet_3d 32 = Ok (32 + 12, value)
       ∧ nt_type value = "RT3DMarkerPosition"
       ∧ nt_fields value = ["x"; "y"; "z"]
       ∧ length (nt_items value) = 3%nat)
  ∧ _get_exact RT6DBodyRotation packet_6d 44 = Raise TypeError
  ∧ _get_exact RT3DMarkerPosition packet_3d 33 = Raise struct_error.
Proof.
  assert (RT3DMarkerPosition ∈ record_classes) as Hcls.
  { unfold record_classes. do 4 apply list_elem_of_further.
    apply list_elem_of_here. }
  assert (RT6DBodyRotation ∈ record_classes) as Hrotation.
  { unfold record_classes. do 10 apply list_elem_of_further.
    apply list_elem_of_here. }
  split; [exact Hcls|]. split; [exact Hrotation|].
  destruct (get_exact_record RT3DMarkerPosition packet_3d 32 Hcls
              ltac:(lia)) as (Hok & _ & _).
  destruct (get_exact_record RT6DBodyRotation packet_6d 44 Hrotation
              ltac:(lia)) as (_ & Harity & _).
  destruct (get_exact_record RT3DMarkerPosition packet_3d 33 Hcls
              ltac:(lia)) as (_ & _ & Hraise).
  split; [|split].
  - apply Hok; [by vm_compute|done].
  - apply Harity; [by vm_compute|done].
  - apply Hraise. by vm_compute.
Defined.

(** ** Edge cases and bounds *)

(** X7. A component whose header count is zero or negative decodes to the
    collection without element: every accessor's loop returns at once,
    with the offset where it was, without reading the buffer and without
    touching the module state. *)
Theorem empty_component (a : accessor) (info : ntuple) (data : bytes)
    (pos : Z) (g : Globals) :
  int_attr info (count_field a) ≤ 0 →
  decode_loop a info data pos g = (g, Ok (pos, no_element a)).
Proof.
  intros Hcount.
  assert (range (int_attr info (count_field a)) = 0%nat) as Hrange.
  { unfold range. lia. }
  destruct a; simpl in *;
    unfold get_analog_loop, get_analog_single_loop, get_force_loop,
      get_force_single_loop, get_6d_loop, get_6d_residual_loop,
      get_6d_euler_loop, get_6d_euler_residual_loop, get_image_loop,
      _get_3d_markers_loop, _get_2d_markers_loop, get_skeletons_loop;
    by rewrite Hrange.
Qed.

Lemma empty_component_witness :
  int_attr (Ntuple "RT6DComponent" ["body_count"] [PyInt (-3)])
           (count_field acc_6d) ≤ 0
  ∧ decode_loop acc_6d (Ntuple "RT6DComponent" ["body_count"] [PyInt (-3)])
                [] 1000 fresh = (fresh, Ok (1000, [])).
Proof.
  split; [by vm_compute|].
  apply (empty_component acc_6d
           (Ntuple "RT6DComponent" ["body_count"] [PyInt (-3)]) [] 1000 fresh).
  by vm_compute.
Defined.

(** X8. An accessor that moves its offset by reading only never moves it
    back nor out of the buffer: from a recorded offset that is not
    negative, a decoding that succeeds ends between the end of the
    component header and the end of the buffer. *)
Theorem offsets_stay_in_buffer (a : accessor) (data : bytes)
    (pos pos' final : Z) (info : ntuple) (collection : payload a)
    (g g' : Globals) :
  reads_to_end a = true → 0 ≤ pos →
  _get_exact (header_of a) data pos = Ok (pos', info) →
  decode_loop a info data pos' g = (g', Ok (final, collection)) →
  pos < pos' ∧ pos' ≤ final ∧ final ≤ len data.
Proof.
  intros Ha Hpos Hinfo Hloop.
  pose proof (header_size_pos a) as Hsize.
  pose proof (_get_exact_position _ _ _ _ _ Hinfo) as ->.
  assert (pos + format_size (header_of a) ≤ len data) as Hfit.
  { unfold _get_exact, get_format, format_size in *.
    destruct (format (header_of a)) as [s|]; [|done]. simpl in Hinfo.
    destruct (unpack_from s data pos) as [items|] eqn:Hread; [|done].
    by apply (unpack_from_fits s data pos items). }
  destruct (cut_rel_decode_loop a info data [] (pos + format_size (header_of a))
              g Ha ltac:(lia)) as [_ Htight].
  rewrite app_nil_r, Hloop in Htight.
  destruct (Htight g' final collection eq_refl) as [Hle Hraise].
  split; [lia|]. split; [done|].
  destruct (decide (final ≤ len data)) as [|Hout]; [done|].
  specialize (Hraise ltac:(lia) ltac:(lia)). by simpl in Hraise.
Qed.

Lemma offsets_stay_in_buffer_witness :
  _get_exact RT2DComponent (packet_2d 7) 24 = Ok (32, sample_2d_info 3)
  ∧ 24 < 32 ∧ 32 ≤ 83 ∧ 83 ≤ len (packet_2d 7).
Proof.
  split; [by vm_compute|].
  eapply (offsets_stay_in_buffer (acc_2d_markers None) (packet_2d 7) 24 32 83
            (sample_2d_info 3) _ fresh fresh).
  - reflexivity.
  - lia.
  - by vm_compute.
  - by vm_compute.
Defined.

(** Header construction on a buffer and on the buffer with more bytes
    behind it. *)
Lemma init_extend (front rest : bytes) (g g' : Globals) (pkt : QRTPacket) :
  QRTPacket_init front g = (g', Ok pkt) →
  QRTPacket_init (front ++ rest) g =
    (g', Ok (MkQRTPacket (front ++ rest) (timestamp pkt) (framenumber pkt)
                        (components pkt))).
Proof.
  intros Hinit.
  destruct (init_inv _ _ _ _ Hinit) as (cc & entries & Hheader & _).
  pose proof (unpack_from_fits _ _ 0 _ ltac:(lia) Hheader) as Hfit.
  revert Hinit. unfold QRTPacket_init. rewrite !bind_lift.
  rewrite <-(unpack_from_prefix _ front rest 0) by (done || lia).
  rewrite Hheader. cbn beta iota. rewrite !bind_unfold.
  unfold scan_components.
  destruct (scan_loop_cut front rest (range cc) 0
              (calcsize RTDataQRTPacket) ∅ g ltac:(done)) as [-> | ->];
    [|done].
  destruct (for_range _ _ _ _ g) as [g1 [[final components1]|e]]; [|done].
  by intros [= <- <-].
Qed.

(** X9. Bytes behind a packet do not change what is decoded from it: if
    header construction and an accessor that moves its offset by reading
    only succeed on a buffer, they succeed on the buffer followed by any
    other bytes, with the same directory and the same returned value. *)
Theorem trailing_bytes_ignored (a : accessor) (front rest : bytes)
    (g g' : Globals) (pkt : QRTPacket)
    (value : option (ntuple * payload a)) :
  reads_to_end a = true →
  QRTPacket_init front g = (g, Ok pkt) →
  call a pkt g = (g', Ok value) →
  ∃ pkt',
    QRTPacket_init (front ++ rest) g = (g, Ok pkt')
    ∧ components pkt' = components pkt
    ∧ call a pkt' g = (g', Ok value).
Proof.
  intros Ha Hinit Hcall.
  eexists. split; [by apply init_extend|]. split; [done|].
  destruct (init_inv _ _ _ _ Hinit) as (cc & entries & _ & _ & _ & _ & Hpkt).
  assert (data pkt = front) as Hdata by (by rewrite Hpkt).
  clear Hpkt. revert Hcall. rewrite !call_unfold. simpl.
  destruct (components pkt !! kind_of a) as [pos|] eqn:Hdir; [|done].
  pose proof (init_offsets_nonneg _ _ _ _ _ _ Hinit Hdir) as Hpos.
  rewrite Hdata.
  destruct (cut_rel_get_exact front rest (header_of a) pos g Hpos)
    as [Hmono _].
  unfold lift in Hmono.
  destruct (_get_exact (header_of a) front pos) as [[pos' info]|e] eqn:Hinfo;
    [|done].
  destruct Hmono as [[= <-]|Hraise]; [|done].
  pose proof (_get_exact_position _ _ _ _ _ Hinfo) as ->.
  pose proof (format_size_nonneg (header_of a)).
  destruct (cut_rel_decode_loop a info front rest
              (pos + format_size (header_of a)) g Ha ltac:(lia))
    as [Hmono _].
  destruct (decode_loop a info front _ g) as [g1 [[final c]|e]] eqn:Hloop;
    [|done].
  destruct Hmono as [<-|Hraise]; [done|done].
Qed.

Lemma trailing_bytes_ignored_witness :
  QRTPacket_init packet_3d fresh = (fresh, Ok (sample_3d_packet packet_3d))
  ∧ call acc_3d_markers (sample_3d_packet packet_3d) fresh =
      (fresh, Ok (Some (sample_3d_info 1, [sample_3d_marker])))
  ∧ ∃ pkt',
      QRTPacket_init (packet_3d ++ octets [1; 2; 3]) fresh = (fresh, Ok pkt')
      ∧ components pkt' = components (sample_3d_packet packet_3d)
      ∧ call acc_3d_markers pkt' fresh =
          (fresh, Ok (Some (sample_3d_info 1, [sample_3d_marker]))).
Proof.
  split; [by vm_compute|]. split; [by vm_compute|].
  apply (trailing_bytes_ignored acc_3d_markers packet_3d (octets [1; 2; 3])
           fresh fresh (sample_3d_packet packet_3d)).
  - reflexivity.
  - by vm_compute.
  - by vm_compute.
Defined.

(** ** The module state *)

Section keeps.
Context (R : Globals → Globals → Prop).
Context (R_refl : ∀ g, R g g) (R_trans : ∀ g1 g2 g3, R g1 g2 → R g2 g3 → R g1 g3).

Lemma keeps_ret {A : Type} (a : A) : keeps R (mret a).
Proof. intros g. apply R_refl. Qed.

Lemma keeps_lift {A : Type} (r : result A) : keeps R (lift r).
Proof. intros g. apply R_refl. Qed.

Lemma keeps_bind {A B : Type} (m : M A) (k : A → M B) :
  keeps R m → (∀ a, keeps R (k a)) → keeps R (m ≫= k).
Proof.
  intros Hm Hk g. rewrite bind_unfold. specialize (Hm g).
  destruct (m g) as [g1 [a|e]]; simpl in *; [|done].
  eapply R_trans; [exact Hm|apply Hk].
Qed.

Lemma keeps_for_range {S : Type} (body : Z → S → M S) (n : nat) :
  (∀ i locals, keeps R (body i locals)) →
  ∀ i0 locals, keeps R (for_range n i0 body locals).
Proof.
  intros Hbody. induction n as [|n IH]; intros i0 locals.
  - apply keeps_ret.
  - simpl for_range. apply keeps_bind; [apply Hbody|]. intros l. apply IH.
Qed.
End keeps.

Ltac keeps_step :=
  first
    [ apply keeps_ret; done
    | apply keeps_lift; done
    | apply keeps_for_range; [done | congruence | intros ? [? ?]]
    | apply keeps_bind; [congruence | | intros [? ?] ]
    | progress cbn beta iota
    | match goal with
      | |- context [if ?c then _ else _] => destruct c
      end ].

Lemma keeps_get_analog_device (data : bytes)
    (locals : Z * list (ntuple * ntuple * ntuple)) :
  keeps same_samples_format (get_analog_device data locals).
Proof.
  destruct locals as [pos acc]. intros g.
  rewrite get_analog_device_unfold.
  destruct (_get_exact RTAnalogDevice data pos) as [[pos1 device]|e]; [|done].
  destruct (0 <? int_attr device "sample_count"); [|done].
  destruct (_get_exact RTSampleNumber data pos1) as [[pos2 sample_number]|e];
    [|done].
  assert (∀ n i0 locals,
            keeps eq (for_range n i0
                        (λ _, get_analog_channel data device sample_number)
                        locals)) as Hloop.
  { intros n. apply keeps_for_range; [done|congruence|].
    intros i [p c] g1. rewrite get_analog_channel_unfold.
    by destruct (_get_tuple _ data p) as [[? ?]|?]. }
  unfold same_samples_format. by rewrite <-Hloop.
Qed.

Lemma keeps_get_analog_single_device (data : bytes)
    (locals : Z * list (ntuple * ntuple)) :
  keeps same_channel_format_after (get_analog_single_device data locals).
Proof.
  destruct locals as [pos acc]. intros g.
  rewrite get_analog_single_device_unfold.
  destruct (_get_exact RTAnalogDeviceSingle data pos) as [[pos1 device]|e];
    [|done].
  destruct (Struct_floats _) as [fmt|e]; [|done]. cbn zeta.
  by destruct (_get_tuple _ data pos1) as [[pos2 sample]|e].
Qed.

Lemma keeps_decode_loop (a : accessor) (info : ntuple) (data : bytes)
    (pos : Z) :
  keeps (match a with
         | acc_analog => same_samples_format
         | acc_analog_single => same_channel_format_after
         | _ => eq
         end) (decode_loop a info data pos).
Proof.
  destruct a as [| | | | | | | | | | | | |i|i|];
    unfold decode_loop, get_analog_loop, get_analog_single_loop,
      get_force_loop, get_force_single_loop, get_6d_loop,
      get_6d_residual_loop, get_6d_euler_loop, get_6d_euler_residual_loop,
      get_image_loop, _get_3d_markers_loop, _get_2d_markers_loop,
      get_skeletons_loop;
    try (apply keeps_for_range;
         [done | unfold same_samples_format, same_channel_format_after;
                 congruence
         | intros ? ?;
           first [apply keeps_get_analog_device
                 |apply keeps_get_analog_single_device]]);
    unfold _get_2d_camera, _get_2d_marker;
    repeat keeps_step.
Qed.

(** X10. No accessor but the two analog ones changes the module state;
    [get_analog] leaves the format of [RTAnalogDeviceSamples] as it was
    and [get_analog_single] the format of [RTAnalogChannel], whether they
    return or raise. *)
Theorem module_state_frame (a : accessor) (pkt : QRTPacket) (g : Globals) :
  match a with
  | acc_analog =>
      RTAnalogDeviceSamples_format (call a pkt g).1 =
      RTAnalogDeviceSamples_format g
  | acc_analog_single =>
      RTAnalogChannel_format (call a pkt g).1 = RTAnalogChannel_format g
  | _ => (call a pkt g).1 = g
  end.
Proof.
  rewrite call_unfold.
  destruct (components pkt !! kind_of a) as [pos|];
    [|by destruct a].
  destruct (_get_exact (header_of a) (data pkt) pos) as [[pos' info]|e];
    [|by destruct a].
  pose proof (keeps_decode_loop a info (data pkt) pos' g) as Hkeeps.
  destruct (decode_loop a info (data pkt) pos' g) as [g1 [[final c]|e]];
    by destruct a.
Qed.

(** ** What the camera filter returns *)

Lemma _get_2d_camera_unfold (data : bytes) (index : option Z) (camera pos : Z)
    (acc : list (list ntuple)) (g : Globals) :
  _get_2d_camera data index camera (pos, acc) g =
  match _get_exact RT2DCamera data pos with
  | Ok (pos1, camera_info) =>
      if index_selects index camera then
        match for_range (range (int_attr camera_info "marker_count")) 0
                (λ _, _get_2d_marker data) (pos1, []) g with
        | (g', Ok (pos2, marker_list)) => (g', Ok (pos2, acc ++ [marker_list]))
        | (g', Raise e) => (g', Raise e)
        end
      else
        (g, Ok (pos1 + format_size RT2DMarker
                       * int_attr camera_info "marker_count", acc))
  | Raise e => (g, Raise e)
  end.
Proof.
  unfold _get_2d_camera. rewrite bind_lift.
  destruct (_get_exact RT2DCamera data pos) as [[pos1 camera_info]|e];
    [|done].
  cbn beta iota. destruct (index_selects index camera); [|done].
  rewrite bind_unfold.
  by destruct (for_range _ _ _ _ g) as [g' [[pos2 marker_list]|e]].
Qed.

(** The filtered camera loop appends one marker list if the index is that
    of one of its cameras, none otherwise. *)
Lemma camera_filter_length (data : bytes) (index : Z) (n : nat) :
  ∀ i0 pos acc g g' final views,
    for_range n i0 (_get_2d_camera data (Some index)) (pos, acc) g =
      (g', Ok (final, views)) →
    g' = g
    ∧ length views =
        (length acc
         + if decide (i0 ≤ index < i0 + Z.of_nat n)%Z then 1 else 0)%nat.
Proof.
  induction n as [|n IH]; intros i0 pos acc g g' final views.
  - intros [= <- <- <-]. split; [done|]. case_decide; lia.
  - rewrite for_range_S, _get_2d_camera_unfold.
    destruct (_get_exact RT2DCamera data pos) as [[pos1 camera_info]|e];
      [|done].
    unfold index_selects. case_bool_decide as Hindex.
    + destruct (for_range _ 0 _ (pos1, []) g)
        as [g1 [[pos2 marker_list]|e]] eqn:Hmarkers; [|done].
      apply marker_loop_final in Hmarkers as [-> _].
      intros Hloop. apply IH in Hloop as [-> Hlen]. split; [done|].
      rewrite Hlen, length_app. simpl. repeat case_decide; lia.
    + intros Hloop. apply IH in Hloop as [-> Hlen]. split; [done|].
      rewrite Hlen. repeat case_decide; lia.
Qed.

(** X11. A 2D decoding filtered by a camera index returns, when it
    returns, a collection of exactly one marker list if the index is that
    of a camera of the component (from 0 to [camera_count - 1]) and an
    empty collection for any other index; it leaves the module state
    alone. *)
Theorem camera_filter_one_view (data : bytes) (component_info : ntuple)
    (component_position index final : Z) (g g' : Globals)
    (views : list (list ntuple)) :
  _get_2d_markers_loop data component_info component_position (Some index) g
    = (g', Ok (final, views)) →
  g' = g
  ∧ length views =
      if decide (0 ≤ index
                 < Z.of_nat (range (int_attr component_info "camera_count")))
      then 1%nat else 0%nat.
Proof.
  unfold _get_2d_markers_loop. intros Hloop.
  apply camera_filter_length in Hloop as [-> Hlen]. split; [done|].
  rewrite Hlen. simpl. repeat case_decide; lia.
Qed.

Lemma camera_filter_one_view_witness :
  _get_2d_markers_loop (packet_2d 7) (sample_2d_info 3) 32 (Some 2) fresh
    = (fresh, Ok (83, [[sample_marker 30]]))
  ∧ length [[sample_marker 30]] = 1%nat
  ∧ _get_2d_markers_loop (packet_2d 7) (sample_2d_info 3) 32 (Some 3) fresh
    = (fresh, Ok (83, []))
  ∧ length ([] : list (list ntuple)) = 0%nat.
Proof.
  split; [by vm_compute|]. split.
  - apply (camera_filter_one_view (packet_2d 7) (sample_2d_info 3) 32 2 83
             fresh fresh [[sample_marker 30]]). by vm_compute.
  - split; [by vm_compute|].
    apply (camera_filter_one_view (packet_2d 7) (sample_2d_info 3) 32 3 83
             fresh fresh []). by vm_compute.
Defined.

Lemma camera_filter_views (data : bytes) (index : Z) (n : nat) :
  ∀ i0 pos acc acc' g g' counts final views,
    camera_marker_counts data n pos = Some counts →
    Forall (λ count, 0 ≤ count) counts →
    for_range n i0 (_get_2d_camera data None) (pos, acc) g =
      (g', Ok (final, views)) →
    ∃ vs,
      views = acc ++ vs ∧ length vs = n
      ∧ for_range n i0 (_get_2d_camera data (Some index)) (pos, acc') g =
          (g, Ok (final, acc' ++ selected_view vs (index - i0))).
Proof.
  induction n as [|n IH];
    intros i0 pos acc acc' g g' counts final views Hcounts Hnonneg.
  - intros [= <- <- <-]. exists []. rewrite !app_nil_r.
    split; [done|]. split; [done|]. simpl. rewrite ret_unfold.
    unfold selected_view. case_decide; by rewrite ?app_nil_r.
  - rewrite !for_range_S, !_get_2d_camera_unfold. simpl in Hcounts.
    destruct (_get_exact RT2DCamera data pos) as [[p1 camera_info]|e];
      [|done].
    destruct (camera_marker_counts data n _) as [rest|] eqn:Hrest; [|done].
    simpl in Hcounts. injection Hcounts as <-.
    apply Forall_cons_1 in Hnonneg as [Hcount Hnonneg].
    change (index_selects None i0) with true.
    change (index_selects (Some index) i0) with (bool_decide (index = i0)).
    cbn beta iota.
    destruct (for_range _ 0 _ (p1, []) g) as [g1 [[p2 markers]|e]] eqn:Hmarkers;
      [|done].
    destruct (marker_loop_final _ _ _ _ _ _ _ _ _ Hmarkers) as [-> ->].
    unfold range in *. rewrite Z2Nat.id in * by done.
    intros Hloop. case_bool_decide as Hindex.
    + subst i0.
      destruct (IH (index + 1) _ (acc ++ [markers]) (acc' ++ [markers]) g g'
                  rest final views Hrest Hnonneg Hloop)
        as (vs & -> & Hlen & ->).
      exists (markers :: vs). rewrite <-!app_assoc. simpl.
      split; [done|]. split; [lia|]. do 3 f_equal.
      unfold selected_view. repeat case_decide; try lia.
      replace (Z.to_nat (index - index)) with 0%nat by lia. done.
    + destruct (IH (i0 + 1) _ (acc ++ [markers]) acc' g g'
                  rest final views Hrest Hnonneg Hloop)
        as (vs & -> & Hlen & ->).
      exists (markers :: vs). rewrite <-!app_assoc. simpl.
      split; [done|]. split; [lia|]. do 4 f_equal.
      unfold selected_view. repeat case_decide; try lia; try done.
      replace (Z.to_nat (index - i0)) with (S (Z.to_nat (index - (i0 + 1))))
        by lia.
      done.
Qed.

(** X12. When no camera reports a negative marker count and the 2D
    decoding without index succeeds, the decoding filtered by a camera
    index returns the collection that holds the marker list which the
    decoding without index returns at that index, or nothing for an index
    that is no camera's, and it ends at the same offset. *)
Theorem camera_filter_selects (data : bytes) (component_info : ntuple)
    (component_position index : Z) (g g' : Globals) (counts : list Z)
    (final : Z) (views : list (list ntuple)) :
  camera_marker_counts data (range (int_attr component_info "camera_count"))
                       component_position = Some counts →
  Forall (λ count, 0 ≤ count) counts →
  _get_2d_markers_loop data component_info component_position None g =
    (g', Ok (final, views)) →
  _get_2d_markers_loop data component_info component_position (Some index) g
    = (g, Ok (final, selected_view views index)).
Proof.
  unfold _get_2d_markers_loop. intros Hcounts Hnonneg Hfull.
  destruct (camera_filter_views data index _ 0 _ [] [] g g' counts final views
              Hcounts Hnonneg Hfull) as (vs & -> & _ & ->).
  simpl. by rewrite Z.sub_0_r.
Qed.

Lemma camera_filter_selects_witness :
  camera_marker_counts (packet_2d 7) 3 32 = Some [2; 0; 1]
  ∧ _get_2d_markers_loop (packet_2d 7) (sample_2d_info 3) 32 None fresh =
      (fresh, Ok (83, [[sample_marker 10; sample_marker 20]; [];
                       [sample_marker 30]]))
  ∧ _get_2d_markers_loop (packet_2d 7) (sample_2d_info 3) 32 (Some 0) fresh
    = (fresh,
       Ok (83, selected_view [[sample_marker 10; sample_marker 20]; [];
                              [sample_marker 30]] 0)).
Proof.
  split; [by vm_compute|]. split; [by vm_compute|].
  apply (camera_filter_selects (packet_2d 7) (sample_2d_info 3) 32 0
           fresh fresh [2; 0; 1] 83).
  - by vm_compute.
  - do 3 (apply Forall_cons_2; [lia|]). apply Forall_nil_2.
  - by vm_compute.
Defined.

(** ** Components with elements of varying size *)

(** A loop whose turns each append one element and move the offset by
    the size of that element. *)
Lemma for_range_sized {A : Type} (size : A → Z) (P : A → Prop)
    (body : Z → Z * list A → M (Z * list A)) :
  (∀ i pos acc g g' pos' acc',
     body i (pos, acc) g = (g', Ok (pos', acc')) →
     ∃ x, acc' = acc ++ [x] ∧ pos' = pos + size x ∧ P x) →
  ∀ n i0 pos acc g g' final collection,
    for_range n i0 body (pos, acc) g = (g', Ok (final, collection)) →
    ∃ elements,
      collection = acc ++ elements ∧ length elements = n
      ∧ final = pos + bytes_of size elements ∧ Forall P elements.
Proof.
  intros Hbody. induction n as [|n IH];
    intros i0 pos acc g g' final collection.
  - intros [= <- <- <-]. exists []. rewrite app_nil_r.
    simpl. repeat split; try done; lia.
  - rewrite for_range_S.
    destruct (body i0 (pos, acc) g) as [g1 [[pos1 acc1]|e]] eqn:Hturn; [|done].
    apply Hbody in Hturn as (x & -> & -> & HP).
    intros Hloop. apply IH in Hloop as (xs & -> & Hlen & -> & Hall).
    exists (x :: xs). rewrite <-app_assoc. simpl.
    repeat split; try done; try lia. by apply Forall_cons_2.
Qed.

Lemma bytes_of_constant {A : Type} (k : Z) (elements : list A) :
  bytes_of (λ _, k) elements = Z.of_nat (length elements) * k.
Proof. induction elements as [|x xs IH]; simpl in *; lia. Qed.

Ltac invert_read H :=
  match type of H with
  | context [lift (_get_exact ?cls ?data ?pos)] =>
      let Hread := fresh "Hread" in
      rewrite bind_lift in H;
      destruct (_get_exact cls data pos) as [[? ?]|?] eqn:Hread;
        [|discriminate H];
      apply _get_exact_position in Hread; cbn beta iota in H
  end.

(** X13. A multi-sample force decoding that succeeds returns one pair per
    plate, [plate_count] of them, each with the plate record and a list of
    as many force records as the plate's [force_count] says (none for a
    negative one); it has moved the offset by 12 bytes per plate and 36
    bytes per force record. *)
Theorem force_layout (component_info : ntuple) (data : bytes)
    (component_position final : Z) (g g' : Globals)
    (plates : list (ntuple * list ntuple)) :
  get_force_loop component_info data component_position g =
    (g', Ok (final, plates)) →
  length plates = range (int_attr component_info "plate_count")
  ∧ Forall (λ plate, length plate.2 = range (int_attr plate.1 "force_count"))
           plates
  ∧ final = component_position
            + bytes_of (λ plate, 12 + 36 * Z.of_nat (length plate.2)) plates.
Proof.
  unfold get_force_loop. intros Hloop.
  apply (for_range_sized
           (λ plate, 12 + 36 * Z.of_nat (length plate.2))
           (λ plate, length plate.2 = range (int_attr plate.1 "force_count")))
    in Hloop.
  - destruct Hloop as (plates' & -> & Hlen & -> & Hall). by simpl.
  - clear. intros i pos acc g g' pos' acc' Hturn. cbn beta iota in Hturn.
    invert_read Hturn. subst. rewrite bind_unfold in Hturn.
    destruct (for_range _ 0 _ _ g) as [g1 [[pos2 forces]|e]] eqn:Hforces;
      [|done].
    apply (for_range_sized (λ _, 36) (λ _, True)) in Hforces.
    + destruct Hforces as (forces' & -> & Hlen & -> & _).
      injection Hturn as _ <- <-. eexists. split; [done|].
      simpl. rewrite bytes_of_constant.
      change (format_size RTForcePlate) with 12. split; [lia|done].
    + clear. intros i pos acc g g' pos' acc' Hturn. cbn beta iota in Hturn.
      invert_read Hturn. subst. injection Hturn as _ <- <-.
      eexists. by split.
Qed.

Lemma force_layout_witness :
  ∃ plates,
    get_force_loop (count_record "RTForceComponent" "plate_count" 2)
                   packet_force 28 fresh = (fresh, Ok (88, plates))
    ∧ length plates = 2%nat
    ∧ Forall (λ plate, length plate.2 = range (int_attr plate.1 "force_count"))
             plates
    ∧ 88 = 28 + bytes_of (λ plate, 12 + 36 * Z.of_nat (length plate.2)) plates.
Proof.
  eexists. split; [by vm_compute|].
  eapply (force_layout (count_record "RTForceComponent" "plate_count" 2)
            packet_force 28 88 fresh fresh).
  by vm_compute.
Defined.

(** X14. A skeleton decoding that succeeds returns one joint list per
    skeleton, [skeleton_count] of them; it has moved the offset by 4 bytes
    per skeleton and 32 bytes per joint. *)
Theorem skeleton_layout (component_info : ntuple) (data : bytes)
    (component_position final : Z) (g g' : Globals)
    (skeletons : list (list (Z * ntuple * ntuple))) :
  get_skeletons_loop component_info data component_position g =
    (g', Ok (final, skeletons)) →
  length skeletons = range (int_attr component_info "skeleton_count")
  ∧ final = component_position
            + bytes_of (λ joints, 4 + 32 * Z.of_nat (length joints)) skeletons.
Proof.
  unfold get_skeletons_loop. intros Hloop.
  apply (for_range_sized (λ joints, 4 + 32 * Z.of_nat (length joints))
                         (λ _, True)) in Hloop.
  - destruct Hloop as (skeletons' & -> & Hlen & -> & _). by simpl.
  - clear. intros i pos acc g g' pos' acc' Hturn. cbn beta iota in Hturn.
    invert_read Hturn. subst. rewrite bind_unfold in Hturn.
    destruct (for_range _ 0 _ _ g) as [g1 [[pos2 joints]|e]] eqn:Hjoints;
      [|done].
    apply (for_range_sized (λ _, 32) (λ _, True)) in Hjoints.
    + destruct Hjoints as (joints' & -> & Hlen & -> & _).
      injection Hturn as _ <- <-. eexists. split; [done|].
      simpl. rewrite bytes_of_constant.
      change (format_size RTJointCount) with 4. split; [lia|done].
    + clear. intros i pos acc g g' pos' acc' Hturn. cbn beta iota in Hturn.
      do 3 invert_read Hturn. subst. injection Hturn as _ <- <-.
      eexists. split; [done|].
      change (format_size RTJointId) with 4.
      change (format_size RTJointPosition) with 12.
      change (format_size RTJointRotation) with 16. split; [lia|done].
Qed.

Lemma skeleton_layout_witness :
  ∃ skeletons,
    get_skeletons_loop (count_record "RTSkeletonComponent" "skeleton_count" 1)
                       packet_skeleton 28 fresh = (fresh, Ok (64, skeletons))
    ∧ length skeletons = 1%nat
    ∧ 64 = 28 + bytes_of (λ joints, 4 + 32 * Z.of_nat (length joints))
                         skeletons.
Proof.
  eexists. split; [by vm_compute|].
  eapply (skeleton_layout
            (count_record "RTSkeletonComponent" "skeleton_count" 1)
            packet_skeleton 28 64 fresh fresh).
  by vm_compute.
Defined.

(** X15. A 2D decoding without index that succeeds returns one marker
    list per camera, [camera_count] of them, and has moved the offset by
    5 bytes per camera and 12 bytes per returned marker. *)
Theorem camera_views_layout (data : bytes) (component_info : ntuple)
    (component_position final : Z) (g g' : Globals)
    (views : list (list ntuple)) :
  _get_2d_markers_loop data component_info component_position None g =
    (g', Ok (final, views)) →
  length views = range (int_attr component_info "camera_count")
  ∧ final = component_position
            + bytes_of (λ view, 5 + 12 * Z.of_nat (length view)) views.
Proof.
  unfold _get_2d_markers_loop. intros Hloop.
  apply (for_range_sized (λ view, 5 + 12 * Z.of_nat (length view))
                         (λ _, True)) in Hloop.
  - destruct Hloop as (views' & -> & Hlen & -> & _). by simpl.
  - clear. intros i pos acc g g' pos' acc' Hturn.
    rewrite _get_2d_camera_unfold in Hturn.
    destruct (_get_exact RT2DCamera data pos) as [[pos1 camera_info]|e]
      eqn:Hread; [|done].
    apply _get_exact_position in Hread. subst pos1.
    change (index_selects None i) with true in Hturn. cbn beta iota in Hturn.
    destruct (for_range _ 0 _ _ g) as [g1 [[pos2 markers]|e]] eqn:Hmarkers;
      [|done].
    apply (for_range_sized (λ _, 12) (λ _, True)) in Hmarkers.
    + destruct Hmarkers as (markers' & -> & Hlen & -> & _).
      injection Hturn as _ <- <-. eexists. split; [done|].
      simpl. rewrite bytes_of_constant.
      change (format_size RT2DCamera) with 5. split; [lia|done].
    + clear. intros i pos acc g g' pos' acc' Hturn.
      unfold _get_2d_marker in Hturn. invert_read Hturn. subst.
      injection Hturn as _ <- <-. eexists. by split.
Qed.

Lemma camera_views_layout_witness :
  ∃ views,
    _get_2d_markers_loop (packet_2d 7) (sample_2d_info 3) 32 None fresh =
      (fresh, Ok (83, views))
    ∧ length views = 3%nat
    ∧ 83 = 32 + bytes_of (λ view, 5 + 12 * Z.of_nat (length view)) views.
Proof.
  eexists. split; [by vm_compute|].
  eapply (camera_views_layout (packet_2d 7) (sample_2d_info 3) 32 83
            fresh fresh).
  by vm_compute.
Defined.

Lemma unpack_from_length (s : Struct) (data : bytes) (pos : Z)
    (items : list pyval) :
  unpack_from s data pos = Ok items → length items = length s.
Proof.
  unfold unpack_from. intros H.
  repeat match type of H with
         | (if ?c then _ else _) = _ => destruct c
         end; try discriminate H;
    injection H as <-; apply unpack_length.
Qed.

Lemma _get_tuple_items (cls : namedtuple) (data : bytes) (pos pos' : Z)
    (value : ntuple) (s : Struct) :
  format cls = Some s →
  _get_tuple cls data pos = Ok (pos', value) →
  ∃ items, nt_items value = [PyTuple items] ∧ length items = length s.
Proof.
  unfold _get_tuple, get_format. intros ->. simpl.
  destruct (unpack_from s data pos) as [items|] eqn:Hread; [|done].
  apply unpack_from_length in Hread. simpl. unfold _make.
  destruct (decide _); [|done]. simpl. intros [= _ <-]. by exists items.
Qed.

(** X16. A single-sample analog decoding that succeeds returns one pair
    per device, [device_count] of them, each with the device record and a
    samples record that holds one float per channel; no returned device
    has a negative channel count, and the offset has moved by 8 bytes per
    device and 4 bytes per channel.  A device record with a negative
    channel count makes the decoding raise [struct.error], however long
    the buffer is. *)
Theorem analog_single_layout (component_info : ntuple) (data : bytes)
    (component_position : Z) (g : Globals) :
  (∀ g' final devices,
     get_analog_single_loop component_info data component_position g =
       (g', Ok (final, devices)) →
     length devices = range (int_attr component_info "device_count")
     ∧ Forall (λ device,
                 0 ≤ int_attr device.1 "channel_count"
                 ∧ ∃ samples,
                     nt_items device.2 = [PyTuple samples]
                     ∧ Z.of_nat (length samples) =
                         int_attr device.1 "channel_count")
              devices
     ∧ final = component_position
               + bytes_of (λ device, 8 + 4 * int_attr device.1 "channel_count")
                          devices)
  ∧ (∀ pos' device components,
       _get_exact RTAnalogDeviceSingle data component_position =
         Ok (pos', device) →
       int_attr device "channel_count" < 0 →
       get_analog_single_device data (component_position, components) g =
         (g, Raise struct_error)).
Proof.
  split.
  - unfold get_analog_single_loop. intros g' final devices Hloop.
    apply (for_range_sized
             (λ device, 8 + 4 * int_attr device.1 "channel_count")
             (λ device,
                0 ≤ int_attr device.1 "channel_count"
                ∧ ∃ samples,
                    nt_items device.2 = [PyTuple samples]
                    ∧ Z.of_nat (length samples) =
                        int_attr device.1 "channel_count")) in Hloop.
    + destruct Hloop as (devices' & -> & Hlen & -> & Hall). by simpl.
    + clear. intros i pos acc g g' pos' acc' Hturn.
      rewrite get_analog_single_device_unfold in Hturn.
      destruct (_get_exact RTAnalogDeviceSingle data pos)
        as [[pos1 device]|e] eqn:Hdevice; [|done].
      apply _get_exact_position in Hdevice. subst pos1.
      unfold Struct_floats in Hturn.
      destruct (Z.ltb_spec (int_attr device "channel_count") 0) as [|Hcount];
        [done|].
      cbn zeta in Hturn.
      destruct (_get_tuple _ data _) as [[pos2 sample]|e] eqn:Hsample;
        [|done].
      pose proof (_get_tuple_position _ _ _ _ _ Hsample) as Hpos2.
      unfold format_size in Hpos2. simpl in Hpos2.
      rewrite calcsize_replicate in Hpos2. simpl in Hpos2.
      eapply _get_tuple_items in Hsample as (samples & Hitems & Hlen);
        [|reflexivity].
      rewrite length_replicate in Hlen.
      injection Hturn as _ <- <-. eexists. split; [done|]. simpl.
      split; [lia|]. split; [done|]. exists samples. split; [done|]. lia.
  - intros pos' device components Hdevice Hcount.
    rewrite get_analog_single_device_unfold, Hdevice. unfold Struct_floats.
    by destruct (Z.ltb_spec (int_attr device "channel_count") 0); [|lia].
Qed.

Lemma analog_single_layout_witness :
  (∃ devices,
     get_analog_single_loop (count_record "RTAnalogComponent" "device_count" 1)
                            packet_analog_single 28 fresh =
       (MkGlobals None (Some [fmt_f; fmt_f]), Ok (44, devices))
     ∧ length devices = 1%nat
     ∧ 44 = 28 + bytes_of (λ device, 8 + 4 * int_attr device.1 "channel_count")
                          devices)
  ∧ get_analog_single_device packet_analog_single_negative (28, []) fresh =
      (fresh, Raise struct_error).
Proof.
  destruct (analog_single_layout
              (count_record "RTAnalogComponent" "device_count" 1)
              packet_analog_single 28 fresh) as [Hlayout _].
  destruct (analog_single_layout
              (count_record "RTAnalogComponent" "device_count" 1)
              packet_analog_single_negative 28 fresh) as [_ Hraise].
  split.
  - eexists. split; [by vm_compute|].
    edestruct Hlayout as (Hlen & _ & Hfinal); [by vm_compute|]. by split.
  - eapply Hraise; by vm_compute.
Defined.

(** ** Elements and the places they are read from *)

(** A loop whose turns each append one element read at the offset and
    move the offset by [k]. *)
Lemma for_range_located {A : Type} (k : Z) (P : Z → A → Prop)
    (body : Z → Z * list A → M (Z * list A)) :
  (∀ i pos acc g g' pos' acc',
     body i (pos, acc) g = (g', Ok (pos', acc')) →
     ∃ x, acc' = acc ++ [x] ∧ pos' = pos + k ∧ P pos x) →
  ∀ n i0 pos acc g g' final collection,
    for_range n i0 body (pos, acc) g = (g', Ok (final, collection)) →
    ∃ elements,
      collection = acc ++ elements
      ∧ ∀ (i : nat) x, elements !! i = Some x → P (pos + Z.of_nat i * k) x.
Proof.
  intros Hbody. induction n as [|n IH];
    intros i0 pos acc g g' final collection.
  - intros [= <- <- <-]. exists []. by rewrite app_nil_r.
  - rewrite for_range_S.
    destruct (body i0 (pos, acc) g) as [g1 [[pos1 acc1]|e]] eqn:Hturn; [|done].
    apply Hbody in Hturn as (x & -> & -> & HP).
    intros Hloop. apply IH in Hloop as (xs & -> & Hall).
    exists (x :: xs). rewrite <-app_assoc. split; [done|].
    intros [|i] y Hy; simpl in Hy.
    + injection Hy as <-.
      by replace (pos + Z.of_nat 0 * k) with pos by lia.
    + specialize (Hall i y Hy).
      by replace (pos + Z.of_nat (S i) * k)
        with (pos + k + Z.of_nat i * k) by lia.
Qed.

(** X17. The markers that a 3D decoding returns are the records of its
    marker class unpacked one behind the other from the offset behind the
    component header, in that order: the marker with the list index [i]
    is the record that [_get_exact] finds [i] record sizes from there. *)
Theorem markers_in_buffer_order (type_ : namedtuple)
    (component_info : ntuple) (data : bytes) (component_position final : Z)
    (g g' : Globals) (markers : list ntuple) :
  _get_3d_markers_loop type_ component_info data component_position g =
    (g', Ok (final, markers)) →
  ∀ (i : nat) marker,
    markers !! i = Some marker →
    _get_exact type_ data
               (component_position + Z.of_nat i * format_size type_) =
      Ok (component_position + Z.of_nat i * format_size type_
          + format_size type_, marker).
Proof.
  unfold _get_3d_markers_loop. intros Hloop.
  apply (for_range_located (format_size type_)
           (λ pos marker,
              _get_exact type_ data pos =
                Ok (pos + format_size type_, marker))) in Hloop.
  - destruct Hloop as (markers' & -> & Hall). exact Hall.
  - clear. intros i pos acc g g' pos' acc' Hturn. cbn beta iota in Hturn.
    rewrite bind_lift in Hturn.
    destruct (_get_exact type_ data pos) as [[pos1 marker]|e] eqn:Hread;
      [|done].
    pose proof (_get_exact_position _ _ _ _ _ Hread) as ->.
    injection Hturn as _ <- <-. by exists marker.
Qed.

Lemma markers_in_buffer_order_witness :
  _get_3d_markers_loop RT3DMarkerPosition (sample_3d_info 1) packet_3d 32
                       fresh = (fresh, Ok (44, [sample_3d_marker]))
  ∧ _get_exact RT3DMarkerPosition packet_3d
               (32 + Z.of_nat 0 * format_size RT3DMarkerPosition) =
      Ok (32 + Z.of_nat 0 * format_size RT3DMarkerPosition
          + format_size RT3DMarkerPosition, sample_3d_marker).
Proof.
  split; [by vm_compute|].
  apply (markers_in_buffer_order RT3DMarkerPosition (sample_3d_info 1)
           packet_3d 32 44 fresh fresh [sample_3d_marker]).
  - by vm_compute.
  - reflexivity.
Defined.

(** X18. Whatever [image_size] an image record declares, [get_image]
    unpacks the image records 36 bytes apart, from the offset behind the
    component header on, and pairs each with the bytes of the buffer from
    behind that record to the last byte but one. *)
Theorem image_payloads (component_info : ntuple) (data : bytes)
    (component_position final : Z) (g g' : Globals)
    (images : list (ntuple * bytes)) :
  get_image_loop component_info data component_position g =
    (g', Ok (final, images)) →
  ∀ (i : nat) image payload,
    images !! i = Some (image, payload) →
    _get_exact RTImage data (component_position + Z.of_nat i * 36) =
      Ok (component_position + Z.of_nat i * 36 + 36, image)
    ∧ payload =
        slice data (component_position + Z.of_nat i * 36 + 36) (-1).
Proof.
  unfold get_image_loop. intros Hloop.
  apply (for_range_located 36
           (λ pos image,
              _get_exact RTImage data pos = Ok (pos + 36, image.1)
              ∧ image.2 = slice data (pos + 36) (-1))) in Hloop.
  - destruct Hloop as (images' & -> & Hall).
    intros i image payload Hi. exact (Hall i (image, payload) Hi).
  - clear. intros i pos acc g g' pos' acc' Hturn. cbn beta iota in Hturn.
    rewrite bind_lift in Hturn.
    destruct (_get_exact RTImage data pos) as [[pos1 image]|e] eqn:Hread;
      [|done].
    pose proof (_get_exact_position _ _ _ _ _ Hread) as ->.
    change (format_size RTImage) with 36 in *.
    injection Hturn as _ <- <-. eexists. by repeat split.
Qed.

Lemma image_payloads_witness :
  ∃ images second,
    get_image_loop (sample_image_component 2) packet_two_images 28 fresh =
      (fresh, Ok (100, images))
    ∧ images !! 1%nat = Some second
    ∧ _get_exact RTImage packet_two_images (28 + Z.of_nat 1 * 36) =
        Ok (28 + Z.of_nat 1 * 36 + 36, second.1)
    ∧ second.2 = slice packet_two_images (28 + Z.of_nat 1 * 36 + 36) (-1).
Proof.
  eexists _, (_, _). split; [by vm_compute|]. split; [by vm_compute|].
  eapply (image_payloads (sample_image_component 2) packet_two_images 28 100
            fresh fresh).
  - by vm_compute.
  - by vm_compute.
Defined.

(** X19. Every body that [get_6d] returns is read 48 bytes behind the
    previous one: its position is the record at that offset, and its
    rotation, unpacked 12 bytes further, is a record with the single
    field [matrix] that holds one tuple of nine floats. *)
Theorem body_rotation_matrix (component_info : ntuple) (data : bytes)
    (component_position final : Z) (g g' : Globals)
    (bodies : list (ntuple * ntuple)) :
  get_6d_loop component_info data component_position g =
    (g', Ok (final, bodies)) →
  ∀ (i : nat) position rotation,
    bodies !! i = Some (position, rotation) →
    _get_exact RT6DBodyPosition data (component_position + Z.of_nat i * 48)
      = Ok (component_position + Z.of_nat i * 48 + 12, position)
    ∧ _get_tuple RT6DBodyRotation data
                 (component_position + Z.of_nat i * 48 + 12)
      = Ok (component_position + Z.of_nat i * 48 + 48, rotation)
    ∧ nt_fields rotation = ["matrix"]
    ∧ ∃ matrix, nt_items rotation = [PyTuple matrix] ∧ length matrix = 9%nat.
Proof.
  unfold get_6d_loop. intros Hloop.
  apply (for_range_located 48
           (λ pos body,
              _get_exact RT6DBodyPosition data pos = Ok (pos + 12, body.1)
              ∧ _get_tuple RT6DBodyRotation data (pos + 12)
                = Ok (pos + 48, body.2)
              ∧ nt_fields body.2 = ["matrix"]
              ∧ ∃ matrix,
                  nt_items body.2 = [PyTuple matrix]
                  ∧ length matrix = 9%nat)) in Hloop.
  - destruct Hloop as (bodies' & -> & Hall).
    intros i position rotation Hi. exact (Hall i (position, rotation) Hi).
  - clear. intros i pos acc g g' pos' acc' Hturn. cbn beta iota in Hturn.
    rewrite bind_lift in Hturn.
    destruct (_get_exact RT6DBodyPosition data pos) as [[pos1 position]|e]
      eqn:Hposition; [|done].
    pose proof (_get_exact_position _ _ _ _ _ Hposition) as ->.
    cbn beta iota in Hturn. rewrite bind_lift in Hturn.
    destruct (_get_tuple RT6DBodyRotation data _) as [[pos2 rotation]|e]
      eqn:Hrotation; [|done].
    pose proof (_get_tuple_position _ _ _ _ _ Hrotation) as ->.
    change (format_size RT6DBodyPosition) with 12 in *.
    change (format_size RT6DBodyRotation) with 36 in *.
    injection Hturn as _ <- <-. eexists. split; [done|]. split; [lia|].
    simpl. split; [done|].
    replace (pos + 48) with (pos + 12 + 36) by lia. split; [done|].
    split.
    + unfold _get_tuple, get_format in Hrotation. simpl in Hrotation.
      destruct (unpack_from _ data _); [|done]. simpl in Hrotation.
      by injection Hrotation as <-.
    + eapply _get_tuple_items in Hrotation as (matrix & Hitems & Hlen);
        [|reflexivity].
      by exists matrix.
Qed.

Lemma body_rotation_matrix_witness :
  ∃ position rotation,
    get_6d_loop (count_record "RT6DComponent" "body_count" 1) packet_6d 32
                fresh = (fresh, Ok (80, [(position, rotation)]))
    ∧ _get_exact RT6DBodyPosition packet_6d (32 + Z.of_nat 0 * 48)
      = Ok (32 + Z.of_nat 0 * 48 + 12, position)
    ∧ _get_tuple RT6DBodyRotation packet_6d (32 + Z.of_nat 0 * 48 + 12)
      = Ok (32 + Z.of_nat 0 * 48 + 48, rotation)
    ∧ nt_fields rotation = ["matrix"]
    ∧ ∃ matrix, nt_items rotation = [PyTuple matrix] ∧ length matrix = 9%nat.
Proof.
  eexists _, _. split; [by vm_compute|].
  eapply (body_rotation_matrix (count_record "RT6DComponent" "body_count" 1)
            packet_6d 32 80 fresh fresh).
  - by vm_compute.
  - reflexivity.
Defined.

(* ===================================================================== *)
(** * The dispatch of the accessors *)
(* ===================================================================== *)

(** ** Loops that append one element per turn *)

Definition appends_one {A : Type} (acc : list A) (m : M (Z * list A))
  : Prop :=
  ∀ g g' pos' acc',
    m g = (g', Ok (pos', acc')) → length acc' = S (length acc).

Lemma appends_ret {A : Type} (acc : list A) (pos : Z) (x : A) :
  appends_one acc (mret (pos, acc ++ [x])).
Proof.
  intros g g' pos' acc'. rewrite ret_unfold. intros [= _ _ <-].
  rewrite length_app. simpl. lia.
Qed.

Lemma appends_bind {A B : Type} (acc : list A) (m : M B)
    (k : B → M (Z * list A)) :
  (∀ b, appends_one acc (k b)) → appends_one acc (m ≫= k).
Proof.
  intros Hk g g' pos' acc'. rewrite bind_unfold.
  destruct (m g) as [g1 [b|e]]; [|done]. apply Hk.
Qed.

Lemma for_range_appends {A : Type}
    (body : Z → Z * list A → M (Z * list A)) :
  (∀ i pos acc, appends_one acc (body i (pos, acc))) →
  ∀ n i0 pos acc g g' final collection,
    for_range n i0 body (pos, acc) g = (g', Ok (final, collection)) →
    length collection = (length acc + n)%nat.
Proof.
  intros Hbody. induction n as [|n IH];
    intros i0 pos acc g g' final collection.
  - intros [= _ _ <-]. lia.
  - rewrite for_range_S.
    destruct (body i0 (pos, acc) g) as [g1 [[pos1 acc1]|e]] eqn:Hturn; [|done].
    apply Hbody in Hturn. intros Hloop. apply IH in Hloop. lia.
Qed.

Ltac appends_step :=
  first
    [ apply appends_ret
    | apply appends_bind; intros ?
    | progress cbn beta iota zeta
    | match goal with
      | |- appends_one _ (let '(_, _) := ?p in _) => destruct p
      | |- appends_one _ ((let '(_, _) := ?p in _) _) => destruct p
      | |- appends_one _ (match ?p with (_, _) => _ end) => destruct p
      end ].

Lemma decode_loop_announced (a : accessor) (info : ntuple) (data : bytes)
    (pos final : Z) (g g' : Globals) (collection : payload a) :
  decode_loop a info data pos g = (g', Ok (final, collection)) →
  announced a info data pos final collection.
Proof.
  destruct a as [| | | | | | | | | | | | |[index|]|[index|]|];
    unfold decode_loop, announced, count_field, get_analog_loop,
      get_analog_single_loop, get_force_loop, get_force_single_loop,
      get_6d_loop, get_6d_residual_loop, get_6d_euler_loop,
      get_6d_euler_residual_loop, get_image_loop, _get_3d_markers_loop,
      _get_2d_markers_loop, get_skeletons_loop;
    cbn zeta; intros Hloop.
  all: try (apply for_range_appends in Hloop; [exact Hloop|]; clear;
            intros i pos acc;
            unfold get_analog_single_device, _get_2d_camera, index_selects;
            repeat appends_step).
  - apply analog_loop_inv in Hloop as (readings & Hlen & Hat & ->).
    by exists readings.
  - apply camera_filter_length in Hloop as [_ ->]. simpl.
    repeat case_decide; lia.
  - apply camera_filter_length in Hloop as [_ ->]. simpl.
    repeat case_decide; lia.
Qed.

(** C5. For every kind but the gaze vector and the timecode there is an
    accessor, and for each accessor of the kind: when the kind is absent
    from the directory the accessor returns [None] whatever the buffer
    holds, raising nothing and leaving the module state alone; when the
    kind is present, the accessor returns exactly when the component
    header can be unpacked at the recorded offset and the payload decoded
    from the offset behind it, and what it returns is the pair of that
    header, an instance of the kind's header class, and of the decoded
    collection, which holds what the header announces. *)
Theorem accessor_dispatch (kind : QRTComponentType) (pkt : QRTPacket)
    (g : Globals) :
  kind ≠ ComponentGazeVector → kind ≠ ComponentTimecode →
  (∃ a, kind_of a = kind)
  ∧ ∀ a, kind_of a = kind →
      match components pkt !! kind with
      | None =>
          ∀ buffer : bytes,
            call a (MkQRTPacket buffer (timestamp pkt) (framenumber pkt)
                                (components pkt)) g = (g, Ok None)
      | Some pos =>
          ∀ g' r,
            call a pkt g = (g', Ok r) ↔
            ∃ info collection final,
              r = Some (info, collection)
              ∧ _get_exact (header_of a) (data pkt) pos =
                  Ok (pos + format_size (header_of a), info)
              ∧ nt_type info = typename (header_of a)
              ∧ nt_fields info = field_names (header_of a)
              ∧ decode_loop a info (data pkt)
                            (pos + format_size (header_of a)) g
                = (g', Ok (final, collection))
              ∧ announced a info (data pkt)
                          (pos + format_size (header_of a)) final collection
      end.
Proof.
  intros Hgaze Htimecode. split.
  - destruct kind; try done;
      first [ by exists acc_3d_markers | by exists acc_3d_markers_no_label
            | by exists acc_analog | by exists acc_force | by exists acc_6d
            | by exists acc_6d_euler | by exists (acc_2d_markers None)
            | by exists (acc_2d_markers_linearized None)
            | by exists acc_3d_markers_residual
            | by exists acc_3d_markers_no_label_residual
            | by exists acc_6d_residual | by exists acc_6d_euler_residual
            | by exists acc_analog_single | by exists acc_image
            | by exists acc_force_single | by exists acc_skeletons ].
  - intros a <-.
    destruct (components pkt !! kind_of a) as [pos|] eqn:Hdir.
    + intros g' r. rewrite call_unfold, Hdir. split.
      * destruct (_get_exact _ _ pos) as [[pos' info]|e] eqn:Hinfo; [|done].
        pose proof (_get_exact_position _ _ _ _ _ Hinfo) as ->.
        destruct (decode_loop _ _ _ _ g) as [g1 [[final c]|e]] eqn:Hloop;
          [|done].
        intros [= <- <-]. exists info, c, final.
        split; [done|]. split; [done|].
        pose proof (decode_loop_announced _ _ _ _ _ _ _ _ Hloop) as Hheld.
        assert (nt_type info = typename (header_of a)
                ∧ nt_fields info = field_names (header_of a)) as [Htype Hfields].
        { clear -Hinfo. unfold _get_exact, get_format in Hinfo.
          destruct (format (header_of a)) as [s|]; [|done]. simpl in Hinfo.
          destruct (unpack_from s (data pkt) pos) as [items|]; [|done].
          simpl in Hinfo. unfold _make in Hinfo.
          destruct (decide _); [|done]. simpl in Hinfo.
          by injection Hinfo as _ <-. }
        done.
      * intros (info & c & final & -> & Hinfo & _ & _ & Hloop & _).
        by rewrite Hinfo, Hloop.
    + intros buffer. rewrite call_unfold. simpl. by rewrite Hdir.
Qed.

Lemma accessor_dispatch_witness :
  (Component3d ≠ ComponentGazeVector ∧ Component3d ≠ ComponentTimecode)
  ∧ components (sample_3d_packet packet_3d) !! Component3d = Some 24
  ∧ call acc_3d_markers (sample_3d_packet packet_3d) fresh =
      (fresh, Ok (Some (sample_3d_info 1, [sample_3d_marker])))
  ∧ (∃ info collection final,
       Some (sample_3d_info 1, [sample_3d_marker]) = Some (info, collection)
       ∧ _get_exact RT3DComponent packet_3d 24 = Ok (24 + 8, info)
       ∧ nt_type info = "RT3DComponent"
       ∧ nt_fields info = ["marker_count"; "drop_rate"; "out_of_sync_rate"]
       ∧ decode_loop acc_3d_markers info packet_3d (24 + 8) fresh =
           (fresh, Ok (final, collection))
       ∧ length collection = range (int_attr info "marker_count"))
  ∧ components (sample_3d_packet packet_3d) !! ComponentImage = None
  ∧ call acc_image (MkQRTPacket [] 0 7 {[ Component3d := 24 ]}) fresh =
      (fresh, Ok None).
Proof.
  assert (components (sample_3d_packet packet_3d) !! Component3d = Some 24)
    as Hpresent by done.
  assert (components (sample_3d_packet packet_3d) !! ComponentImage = None)
    as Habsent by done.
  assert (call acc_3d_markers (sample_3d_packet packet_3d) fresh =
            (fresh, Ok (Some (sample_3d_info 1, [sample_3d_marker]))))
    as Hcall by (by vm_compute).
  destruct (accessor_dispatch Component3d (sample_3d_packet packet_3d) fresh
              ltac:(done) ltac:(done)) as [_ H3d].
  specialize (H3d acc_3d_markers eq_refl). rewrite Hpresent in H3d.
  destruct (accessor_dispatch ComponentImage (sample_3d_packet packet_3d)
              fresh ltac:(done) ltac:(done)) as [_ Himage].
  specialize (Himage acc_image eq_refl). rewrite Habsent in Himage.
  split; [done|]. split; [exact Hpresent|]. split; [exact Hcall|].
  split; [exact (proj1 (H3d _ _) Hcall)|].
  split; [exact Habsent|]. exact (Himage []).
Defined.

(** C5 fails as stated for the kinds without accessor.  Header
    construction records the timecode component of [packet_timecode] at
    offset 24, but no accessor is registered for the timecode or for the
    gaze vector, and every accessor there is returns [None] on that
    packet: nothing returns the header and the payload of the kind that is
    present. *)
Lemma kind_without_accessor :
  QRTPacket_init packet_timecode fresh = (fresh, Ok sample_timecode_packet)
  ∧ components sample_timecode_packet !! ComponentTimecode = Some 24
  ∧ (∀ a, kind_of a ≠ ComponentTimecode ∧ kind_of a ≠ ComponentGazeVector)
  ∧ ∀ a g, call a sample_timecode_packet g = (g, Ok None).
Proof.
  split; [by vm_compute|]. split; [done|]. split.
  - by intros [].
  - intros a g. rewrite call_unfold. by destruct a.
Qed.
